(** * Chat Bridge (Go edition)

    A shallow embedding of the provider registry ([pkg/providers/provider.go]),
    the OpenAI provider ([pkg/providers/openai.go]), the configuration helpers
    ([pkg/config/config.go]) and the conversation command ([cmd/start.go]),
    followed by the properties proved about them.

    Conventions.  A Go [string] is a Rocq [string] (a sequence of bytes), an
    [int] is a [Z], a [float64] is a primitive binary64 float.  A function
    returning [(T, error)] returns a pair whose second component is
    [option error], [None] standing for [nil].  Package-level variables are
    passed and returned explicitly.  Everything the program prints or calls is
    appended to a trace. *)

From Stdlib Require Import ZArith Lia PrimFloat DecimalString.
From stdpp Require Import gmap strings list sorting.

Set Warnings "-inexact-float".

(** ** Go values shared by all packages *)

Definition float64 : Type := float.
Bind Scope float_scope with float64.

(** [%d] of an [int]. *)
Definition itoa (z : Z) : string := NilZero.string_of_int (Z.to_int z).

(** [round++] on a 64-bit [int]: two's complement wrap-around. *)
Definition int_succ (z : Z) : Z :=
  ((z + 1 + 2 ^ 63) mod 2 ^ 64 - 2 ^ 63)%Z.

(** Error values.  The five sentinels of package [providers] and [io.EOF] are
    compared by identity in the source, so each is a constructor of its own.
    [Errorf] is an error made by [fmt.Errorf] (or [errors.New]) from a message
    alone, [Wrapf] one made with a trailing [%w] verb, [Foreign] an error
    handed back by a library the program calls (net/http, net/url, io,
    encoding/json). *)
Inductive error : Type :=
  | ErrProviderNotFound
  | ErrInvalidCredentials
  | ErrRateLimitExceeded
  | ErrContextCancelled
  | ErrStreamingFailed
  | EOF
  | Errorf (msg : string)
  | Wrapf (prefix : string) (err : error)
  | Foreign (msg : string).

(** [err.Error()]. *)
Fixpoint Error (e : error) : string :=
  match e with
  | ErrProviderNotFound => "provider not found"
  | ErrInvalidCredentials => "invalid credentials"
  | ErrRateLimitExceeded => "rate limit exceeded"
  | ErrContextCancelled => "context cancelled"
  | ErrStreamingFailed => "streaming failed"
  | EOF => "EOF"
  | Errorf msg => msg
  | Wrapf prefix err => prefix +:+ Error err
  | Foreign msg => msg
  end.

(** [err == io.EOF]. *)
Definition is_EOF (e : error) : bool :=
  match e with EOF => true | _ => false end.

(** A [context.Context], seen through the only thing the program asks of it:
    whether [Done()] is ready.  [Background] is never cancelled.
    [CancelAfter n] is a context whose cancellation is noticed by the
    [(n+1)]-th poll. *)
Inductive Context : Type :=
  | Background
  | CancelAfter (n : nat).

Definition poll_Done (ctx : Context) : bool * Context :=
  match ctx with
  | Background => (false, Background)
  | CancelAfter O => (true, CancelAfter O)
  | CancelAfter (S n) => (false, CancelAfter n)
  end.

(** ** Package [providers]: data model *)

Module Message.
Record t : Type := mk { Role : string; Content : string }.
End Message.

Module ChatRequest.
Record t : Type := mk {
  Model : string;
  Messages : list Message.t;
  Temperature : float64;
  MaxTokens : Z;
  SystemPrompt : string
}.
End ChatRequest.

Module ProviderConfig.
Record t : Type := mk {
  APIKey : string;
  BaseURL : string;
  Model : string;
  Temperature : float64
}.
End ProviderConfig.

Module ProviderSpec.
Record t : Type := mk {
  Key : string;
  Name : string;
  Description : string;
  DefaultModel : string;
  NeedsAPIKey : bool;
  Models : list string
}.
(** The zero value, returned by a failed map lookup. *)
Definition zero : t := mk "" "" "" "" false [].
End ProviderSpec.

(** What the goroutine started by [StreamChat] does to its two channels, in
    program order: a send on the unbuffered text channel, a send on the error
    channel (capacity 1), and the two deferred closes. *)
Inductive ChanOp : Type :=
  | SendText (text : string)
  | SendErr (err : error)
  | CloseErr
  | CloseText.

(** The [Provider] interface.  An interface value holds a pointer; [self] is
    the address it points to, which is what [==] on two interface values
    compares.  [Models] reads the package-level spec map. *)
Record Provider : Type := mkProvider {
  self : nat;
  Name : string;
  Models : Context -> gmap string ProviderSpec.t -> list string * option error;
  StreamChat : Context -> ChatRequest.t -> list ChanOp;
  Health : Context -> option error;
  DefaultModel : string
}.

(** [a == b] on interface values. *)
Definition same_instance (a b : Provider) : bool := Nat.eqb (self a) (self b).

(** Allocation: a computation that may take fresh addresses receives the next
    free one and returns the next free one after it. *)
Definition Alloc (A : Type) : Type := nat -> A * nat.

(** [type ProviderFactory func(ProviderConfig) Provider] *)
Definition ProviderFactory : Type := ProviderConfig.t -> Alloc Provider.

(** ** Package [providers]: the registry

    [providerRegistry] and [providerFactories] are two independent
    package-level maps; each function below takes the map it reads or
    writes. *)

Definition RegisterProvider (spec : ProviderSpec.t)
    (providerRegistry : gmap string ProviderSpec.t) : gmap string ProviderSpec.t :=
  <[ProviderSpec.Key spec := spec]> providerRegistry.

Definition GetProviderSpec (key : string)
    (providerRegistry : gmap string ProviderSpec.t) : ProviderSpec.t * bool :=
  match providerRegistry !! key with
  | Some spec => (spec, true)
  | None => (ProviderSpec.zero, false)
  end.

(** The order of a Go map iteration is unspecified; [map_to_list] fixes one. *)
Definition ListProviders (providerRegistry : gmap string ProviderSpec.t)
    : list ProviderSpec.t :=
  (map_to_list providerRegistry).*2.

Definition RegisterProviderFactory (key : string) (factory : ProviderFactory)
    (providerFactories : gmap string ProviderFactory) : gmap string ProviderFactory :=
  <[key := factory]> providerFactories.

Definition GetProviderFactory (key : string)
    (providerFactories : gmap string ProviderFactory) : option ProviderFactory * bool :=
  match providerFactories !! key with
  | Some factory => (Some factory, true)
  | None => (None, false)
  end.

(** [NewProvider]: [(nil, error)] without a factory, [(factory(cfg), nil)]
    with one. *)
Definition NewProvider (key : string) (cfg : ProviderConfig.t)
    (providerFactories : gmap string ProviderFactory)
    : Alloc (option Provider * option error) :=
  fun next =>
    match GetProviderFactory key providerFactories with
    | (Some factory, true) =>
        let '(p, next') := factory cfg next in ((Some p, None), next')
    | _ =>
        ((None, Some (Errorf ("provider '" +:+ key +:+ "' not yet implemented"))),
         next)
    end.

(** The package-level state as a whole. *)
Record Globals : Type := mkGlobals {
  providerRegistry : gmap string ProviderSpec.t;
  providerFactories : gmap string ProviderFactory
}.

(** ** Package [strings] and [bufio], as far as the provider uses them *)

Definition byte (n : nat) : Ascii.ascii := Ascii.ascii_of_nat n.
Definition bytes (l : list nat) : string := String.string_of_list_ascii (map byte l).

Definition LF : Ascii.ascii := byte 10.

(** [strings.HasPrefix(s, prefix)] *)
Definition HasPrefix (s prefix : string) : bool := String.prefix prefix s.

(** [strings.TrimPrefix(s, prefix)] *)
Definition TrimPrefix (s prefix : string) : string :=
  if HasPrefix s prefix
  then String.substring (String.length prefix) (String.length s - String.length prefix) s
  else s.

(** [unicode.IsSpace], read off the UTF-8 encoding of a code point: the six
    ASCII spaces, U+0085 and U+00A0 (two bytes), and U+1680, U+2000..U+200A,
    U+2028, U+2029, U+202F, U+205F, U+3000 (three bytes). *)
Definition space1 (a : Ascii.ascii) : bool :=
  let n := Ascii.nat_of_ascii a in
  ((9 <=? n) && (n <=? 13)) || (n =? 32).

Definition space2 (a b : Ascii.ascii) : bool :=
  let n := Ascii.nat_of_ascii a in
  let m := Ascii.nat_of_ascii b in
  (n =? 194) && ((m =? 133) || (m =? 160)).

Definition space3 (a b c : Ascii.ascii) : bool :=
  let n := Ascii.nat_of_ascii a in
  let m := Ascii.nat_of_ascii b in
  let k := Ascii.nat_of_ascii c in
  ((n =? 225) && (m =? 154) && (k =? 128))
  || ((n =? 226) && (m =? 128)
      && (((128 <=? k) && (k <=? 138)) || (k =? 168) || (k =? 169) || (k =? 175)))
  || ((n =? 226) && (m =? 129) && (k =? 159))
  || ((n =? 227) && (m =? 128) && (k =? 128)).

(** [strings.TrimLeftFunc(s, unicode.IsSpace)]: drop leading white space,
    one encoded code point at a time. *)
Fixpoint TrimLeftSpace (s : string) : string :=
  match s with
  | EmptyString => EmptyString
  | String a s1 =>
      if space1 a then TrimLeftSpace s1 else
      match s1 with
      | EmptyString => s
      | String b s2 =>
          if space2 a b then TrimLeftSpace s2 else
          match s2 with
          | EmptyString => s
          | String c s3 => if space3 a b c then TrimLeftSpace s3 else s
          end
      end
  end.

(** The same from the right, on the reversed byte sequence: the last code
    point is a space exactly when the string ends with one of the encodings
    above. *)
Fixpoint TrimLeftSpace_rev (s : string) : string :=
  match s with
  | EmptyString => EmptyString
  | String a s1 =>
      if space1 a then TrimLeftSpace_rev s1 else
      match s1 with
      | EmptyString => s
      | String b s2 =>
          if space2 b a then TrimLeftSpace_rev s2 else
          match s2 with
          | EmptyString => s
          | String c s3 => if space3 c b a then TrimLeftSpace_rev s3 else s
          end
      end
  end.

Definition TrimRightSpace (s : string) : string :=
  String.rev (TrimLeftSpace_rev (String.rev s)).

(** [strings.TrimSpace(s)] *)
Definition TrimSpace (s : string) : string := TrimRightSpace (TrimLeftSpace s).

(** The bytes of [s] up to and including the first [delim], and what follows;
    [None] when [s] has no [delim]. *)
Fixpoint cut (delim : Ascii.ascii) (s : string) : option (string * string) :=
  match s with
  | EmptyString => None
  | String a s' =>
      if Ascii.eqb a delim then Some (String a EmptyString, s')
      else match cut delim s' with
           | Some (line, rest) => Some (String a line, rest)
           | None => None
           end
  end.

(** ** Package [net/http], as far as the provider uses it *)

Module http.

(** A response body: the bytes the peer delivers, and the error the read
    that follows them reports ([io.EOF] at a regular end). *)
Record Body : Type := mkBody { data : string; ending : error }.

Record Request : Type := mkRequest {
  ctx : Context;
  Method : string;
  URL : string;
  Header : gmap string string;
  payload : option string
}.

Record Response : Type := mkResponse { StatusCode : Z; body : Body }.

(** [Do] of an [http.Client]: the answer of the network to a request. *)
Definition Client : Type := Request -> Response + error.

(** [req.Header.Set(key, value)], for keys already in canonical form. *)
Definition Header_Set (key value : string) (req : Request) : Request :=
  mkRequest (ctx req) (Method req) (URL req) (<[key := value]> (Header req)) (payload req).

(** [io.ReadAll(resp.Body)]: every byte, and the error other than [io.EOF]. *)
Definition ReadAll (b : Body) : string * option error :=
  (data b, if is_EOF (ending b) then None else Some (ending b)).

End http.

(** A [bufio.Reader] over a response body. *)
Module bufio.

Record Reader : Type := mkReader { unread : string; ending : error }.

Definition NewReader (b : http.Body) : Reader :=
  mkReader (http.data b) (http.ending b).

(** [reader.ReadString(delim)]: the next line with its delimiter; at the end
    of the data, what is left together with the error. *)
Definition ReadString (r : Reader) (delim : Ascii.ascii) : string * option error * Reader :=
  match cut delim (unread r) with
  | Some (line, rest) => (line, None, mkReader rest (ending r))
  | None => (unread r, Some (ending r), mkReader EmptyString (ending r))
  end.

End bufio.

(** ** The libraries the program is linked against

    The parts of the Go standard library and of lipgloss whose results the
    program only passes on.  [url_Parse] is the error [net/url] finds in a
    URL, if any; [json_string] and [json_float] are [encoding/json]'s
    encoders of a string and of a [float64] (the latter fails on NaN and the
    infinities); [json_Unmarshal] decodes one stream frame into the anonymous
    chunk struct of [StreamChat], [None] standing for any decoding error;
    [Render] is lipgloss' rendering of a text in a foreground colour, bold or
    not; [fmt_f1] is the verb [%.1f]. *)

Module Chunk.
Record Delta : Type := mkDelta { Content : string }.
Record Choice : Type := mkChoice { delta : Delta }.
Record t : Type := mk { Choices : list Choice }.

(** [chunk.Choices[0].Delta.Content], when
    [len(chunk.Choices) > 0 && chunk.Choices[0].Delta.Content != ""]. *)
Definition first_content (chunk : t) : option string :=
  match Choices chunk with
  | choice :: _ =>
      if negb (String.eqb (Content (delta choice)) "")
      then Some (Content (delta choice)) else None
  | [] => None
  end.
End Chunk.

Class GoLib : Type := {
  url_Parse : string -> option error;
  json_string : string -> string;
  json_float : float64 -> string + error;
  json_Unmarshal : string -> option Chunk.t;
  Render : string -> bool -> string -> string;
  fmt_f1 : float64 -> string
}.

(** [http.NewRequestWithContext] with a valid method and a non-nil context:
    fails exactly when the URL does not parse. *)
Definition NewRequestWithContext `{GoLib} (ctx : Context) (method url : string)
    (payload : option string) : http.Request + error :=
  match url_Parse url with
  | Some err => inr err
  | None => inl (http.mkRequest ctx method url ∅ payload)
  end.

(** ** Package [encoding/json]: marshalling the request body

    The body is a [map[string]interface{}] whose values are a string, a
    [float64], an [int], a [bool] and a [[]map[string]string].  A map is
    written with its keys in increasing byte order. *)
Inductive jvalue : Type :=
  | JString (s : string)
  | JFloat (x : float64)
  | JInt (n : Z)
  | JBool (b : bool)
  | JRecords (l : list (gmap string string)).

Definition key_le {A : Type} (a b : string * A) : Prop := Is_true (String.leb a.1 b.1).

Global Instance key_le_dec {A : Type} (a b : string * A) : Decision (key_le a b).
Proof. unfold key_le. apply _. Defined.

Definition sorted_entries {A : Type} (m : gmap string A) : list (string * A) :=
  merge_sort key_le (map_to_list m).

Definition join (sep : string) (l : list string) : string := String.concat sep l.

Definition marshal_record `{GoLib} (m : gmap string string) : string :=
  "{" +:+ join "," (map (fun kv => json_string kv.1 +:+ ":" +:+ json_string kv.2)
                        (sorted_entries m)) +:+ "}".

Definition marshal_value `{GoLib} (v : jvalue) : string + error :=
  match v with
  | JString s => inl (json_string s)
  | JFloat x => json_float x
  | JInt n => inl (itoa n)
  | JBool b => inl (if b then "true" else "false")
  | JRecords l => inl ("[" +:+ join "," (map marshal_record l) +:+ "]")
  end.

(** Encode the entries in order; the first failure is the result. *)
Fixpoint marshal_entries `{GoLib} (l : list (string * jvalue)) : list string + error :=
  match l with
  | [] => inl []
  | (k, v) :: l' =>
      match marshal_value v with
      | inr err => inr err
      | inl s =>
          match marshal_entries l' with
          | inr err => inr err
          | inl ss => inl ((json_string k +:+ ":" +:+ s) :: ss)
          end
      end
  end.

(** [json.Marshal(requestBody)] *)
Definition json_Marshal `{GoLib} (m : gmap string jvalue) : string + error :=
  match marshal_entries (sorted_entries m) with
  | inr err => inr err
  | inl ss => inl ("{" +:+ join "," ss +:+ "}")
  end.

(** ** The OpenAI provider ([pkg/providers/openai.go]) *)

Module OpenAIProvider.

Record t : Type := mk {
  apiKey : string;
  baseURL : string;
  model : string;
  client : http.Client
}.

Section methods.
Context `{GoLib}.

(** [NewOpenAIProvider]: a pointer to a new struct.  [client] is the
    default [http.Client], that is, the network the process runs on. *)
Definition NewOpenAIProvider (net : http.Client) (config : ProviderConfig.t)
    : Alloc (nat * t) :=
  fun next =>
    let baseURL :=
      if String.eqb (ProviderConfig.BaseURL config) ""
      then "https://api.openai.com/v1" else ProviderConfig.BaseURL config in
    let model :=
      if String.eqb (ProviderConfig.Model config) ""
      then "gpt-4o-mini" else ProviderConfig.Model config in
    ((next, mk (ProviderConfig.APIKey config) baseURL model net), S next).

Definition Name (p : t) : string := "openai".

Definition DefaultModel (p : t) : string := model p.

Definition Models (p : t) (ctx : Context)
    (providerRegistry : gmap string ProviderSpec.t) : list string * option error :=
  let '(spec, _) := GetProviderSpec "openai" providerRegistry in
  (ProviderSpec.Models spec, None).

(** The request [Health] sends, when it can be built. *)
Definition Health_request (p : t) (ctx : Context) : http.Request + error :=
  match NewRequestWithContext ctx "GET" (baseURL p +:+ "/models") None with
  | inr err => inr err
  | inl req => inl (http.Header_Set "Authorization" ("Bearer " +:+ apiKey p) req)
  end.

Definition api_error (status : Z) (body : string) : error :=
  Errorf ("API error (status " +:+ itoa status +:+ "): " +:+ body).

Definition Health (p : t) (ctx : Context) : option error :=
  match Health_request p ctx with
  | inr err => Some err
  | inl req =>
      match client p req with
      | inr err => Some (Wrapf "connection failed: " err)
      | inl resp =>
          if (http.StatusCode resp =? 401)%Z then Some ErrInvalidCredentials
          else if negb (http.StatusCode resp =? 200)%Z then
            let '(body, _) := http.ReadAll (http.body resp) in
            Some (api_error (http.StatusCode resp) body)
          else None
      end
  end.

(** [convertMessages] *)
Definition convertMessages (p : t) (messages : list Message.t)
    : list (gmap string string) :=
  map (fun msg => <["content" := Message.Content msg]>
                    (<["role" := Message.Role msg]> ∅)) messages.

(** The [requestBody] map of [StreamChat]. *)
Definition requestBody (p : t) (req : ChatRequest.t) : gmap string jvalue :=
  let requestBody : gmap string jvalue :=
    <["stream" := JBool true]>
      (<["temperature" := JFloat (ChatRequest.Temperature req)]>
        (<["messages" := JRecords (convertMessages p (ChatRequest.Messages req))]>
          (<["model" := JString (ChatRequest.Model req)]> ∅))) in
  if (0 <? ChatRequest.MaxTokens req)%Z
  then <["max_tokens" := JInt (ChatRequest.MaxTokens req)]> requestBody
  else requestBody.

(** The text one line of the response makes the loop send, if any: the
    body of the [for] loop of [StreamChat] between the read and the
    send. *)
Definition frame_text (line : string) : option string :=
  let line := TrimSpace line in
  if String.eqb line "" || String.eqb line "data: [DONE]" then None
  else if negb (HasPrefix line "data: ") then None
  else
    let jsonData := TrimPrefix line "data: " in
    match json_Unmarshal jsonData with
    | None => None
    | Some chunk => Chunk.first_content chunk
    end.

(** The streaming loop.  Every iteration polls the context, reads a line
    and possibly sends its text, polling the context once more while the
    send is pending.  [fuel] bounds the iterations; [None] is returned
    when it runs out. *)
Fixpoint stream_loop (fuel : nat) (ctx : Context) (reader : bufio.Reader)
    : option (list ChanOp) :=
  match fuel with
  | O => None
  | S fuel' =>
      match poll_Done ctx with
      | (true, _) => Some [SendErr ErrContextCancelled]
      | (false, ctx1) =>
          match bufio.ReadString reader LF with
          | (_, Some err, _) =>
              if is_EOF err then Some [] else Some [SendErr err]
          | (line, None, reader1) =>
              match frame_text line with
              | None => stream_loop fuel' ctx1 reader1
              | Some text =>
                  match poll_Done ctx1 with
                  | (true, _) => Some [SendErr ErrContextCancelled]
                  | (false, ctx2) =>
                      match stream_loop fuel' ctx2 reader1 with
                      | Some ops => Some (SendText text :: ops)
                      | None => None
                      end
                  end
              end
          end
      end
  end.

(** Every iteration that does not return consumes at least one byte, so
    one more iteration than there are bytes is always enough. *)
Definition stream_fuel (b : http.Body) : nat := S (String.length (http.data b)).

(** The HTTP request [StreamChat] sends, when it can be built. *)
Definition StreamChat_request (p : t) (ctx : Context) (req : ChatRequest.t)
    : http.Request + error :=
  match json_Marshal (requestBody p req) with
  | inr err => inr err
  | inl jsonData =>
      match NewRequestWithContext ctx "POST" (baseURL p +:+ "/chat/completions")
              (Some jsonData) with
      | inr err => inr err
      | inl httpReq =>
          inl (http.Header_Set "Authorization" ("Bearer " +:+ apiKey p)
                (http.Header_Set "Content-Type" "application/json" httpReq))
      end
  end.

(** The body of the goroutine of [StreamChat], up to its deferred
    closes. *)
Definition StreamChat_body (p : t) (ctx : Context) (req : ChatRequest.t)
    : option (list ChanOp) :=
  match StreamChat_request p ctx req with
  | inr err => Some [SendErr err]
  | inl httpReq =>
      match client p httpReq with
      | inr err => Some [SendErr err]
      | inl resp =>
          if negb (http.StatusCode resp =? 200)%Z then
            let '(body, _) := http.ReadAll (http.body resp) in
            Some [SendErr (api_error (http.StatusCode resp) body)]
          else
            stream_loop (stream_fuel (http.body resp)) ctx
              (bufio.NewReader (http.body resp))
      end
  end.

(** [StreamChat]: what the goroutine does to [textChan] and [errChan].
    The closes are deferred in the order text, error, so they run in the
    order error, text.  The loop is given [stream_fuel], with which it always
    ends ([stream_loop_total] below), so the last branch is never taken. *)
Definition StreamChat (p : t) (ctx : Context) (req : ChatRequest.t) : list ChanOp :=
  match StreamChat_body p ctx req with
  | Some ops => ops ++ [CloseErr; CloseText]
  | None => []
  end.

(** A [*OpenAIProvider] stored in a [Provider] interface value. *)
Definition as_Provider (ptr : nat * t) : Provider :=
  let '(addr, p) := ptr in
  mkProvider addr (Name p) (Models p) (StreamChat p) (Health p) (DefaultModel p).

Definition openai_spec : ProviderSpec.t :=
  ProviderSpec.mk "openai" "OpenAI" "GPT models from OpenAI" "gpt-4o-mini" true
    ["gpt-4o"; "gpt-4o-mini"; "gpt-4-turbo"; "gpt-4"; "gpt-3.5-turbo"].

(** [init()]: registers the spec and the factory. *)
Definition init (net : http.Client) (g : Globals) : Globals :=
  mkGlobals
    (RegisterProvider openai_spec (providerRegistry g))
    (RegisterProviderFactory "openai"
       (fun cfg next =>
          let '(ptr, next') := NewOpenAIProvider net cfg next in
          (as_Provider ptr, next'))
       (providerFactories g)).

End methods.
End OpenAIProvider.

(** The package-level state when [main] starts: both maps are created empty
    and the only [init] of the package has run. *)
Definition initial_globals `{GoLib} (net : http.Client) : Globals :=
  OpenAIProvider.init net (mkGlobals ∅ ∅).

(** ** Package [config] ([pkg/config/config.go]) *)

Module config.

Record Config : Type := mk {
  OpenAIKey : string;
  AnthropicKey : string;
  GeminiKey : string;
  DeepSeekKey : string;
  OpenRouterKey : string;
  OpenAIBaseURL : string;
  OllamaHost : string;
  LMStudioBaseURL : string;
  DeepSeekBaseURL : string;
  OpenRouterBaseURL : string;
  OpenAIModel : string;
  AnthropicModel : string;
  GeminiModel : string;
  OllamaModel : string;
  LMStudioModel : string;
  DeepSeekModel : string;
  OpenRouterModel : string;
  MCPMode : string;
  MCPBaseURL : string;
  DefaultProviderA : string;
  DefaultProviderB : string
}.

(** [getenv] is [os.Getenv] once the [.env] file has been merged in. *)
Definition getEnvOrDefault (getenv : string -> string) (key defaultValue : string)
    : string :=
  let value := getenv key in
  if negb (String.eqb value "") then value else defaultValue.

Definition Load (getenv : string -> string) : Config * option error :=
  (mk (getenv "OPENAI_API_KEY")
      (getenv "ANTHROPIC_API_KEY")
      (getenv "GEMINI_API_KEY")
      (getenv "DEEPSEEK_API_KEY")
      (getenv "OPENROUTER_API_KEY")
      (getEnvOrDefault getenv "OPENAI_BASE_URL" "https://api.openai.com/v1")
      (getEnvOrDefault getenv "OLLAMA_HOST" "http://localhost:11434")
      (getEnvOrDefault getenv "LMSTUDIO_BASE_URL" "http://localhost:1234/v1")
      (getEnvOrDefault getenv "DEEPSEEK_BASE_URL" "https://api.deepseek.com/v1")
      (getEnvOrDefault getenv "OPENROUTER_BASE_URL" "https://openrouter.ai/api/v1")
      (getEnvOrDefault getenv "OPENAI_MODEL" "gpt-4o-mini")
      (getEnvOrDefault getenv "ANTHROPIC_MODEL" "claude-3-5-sonnet-20241022")
      (getEnvOrDefault getenv "GEMINI_MODEL" "gemini-2.0-flash-exp")
      (getEnvOrDefault getenv "OLLAMA_MODEL" "llama3.1:8b-instruct")
      (getEnvOrDefault getenv "LMSTUDIO_MODEL" "local-model")
      (getEnvOrDefault getenv "DEEPSEEK_MODEL" "deepseek-chat")
      (getEnvOrDefault getenv "OPENROUTER_MODEL" "openai/gpt-4o-mini")
      (getEnvOrDefault getenv "MCP_MODE" "http")
      (getEnvOrDefault getenv "MCP_BASE_URL" "http://localhost:8000")
      (getEnvOrDefault getenv "BRIDGE_PROVIDER_A" "openai")
      (getEnvOrDefault getenv "BRIDGE_PROVIDER_B" "anthropic"),
   None).

Definition Validate (c : Config) : option error :=
  if String.eqb (OpenAIKey c) "" && String.eqb (AnthropicKey c) ""
     && String.eqb (GeminiKey c) "" && String.eqb (DeepSeekKey c) ""
     && String.eqb (OpenRouterKey c) ""
  then Some (Errorf "no API keys configured; set at least one of: OPENAI_API_KEY, ANTHROPIC_API_KEY, GEMINI_API_KEY, DEEPSEEK_API_KEY, or OPENROUTER_API_KEY")
  else None.

Definition GetAPIKey (c : Config) (provider : string) : string :=
  if String.eqb provider "openai" then OpenAIKey c
  else if String.eqb provider "anthropic" then AnthropicKey c
  else if String.eqb provider "gemini" then GeminiKey c
  else if String.eqb provider "deepseek" then DeepSeekKey c
  else if String.eqb provider "openrouter" then OpenRouterKey c
  else "".

Definition GetDefaultModel (c : Config) (provider : string) : string :=
  if String.eqb provider "openai" then OpenAIModel c
  else if String.eqb provider "anthropic" then AnthropicModel c
  else if String.eqb provider "gemini" then GeminiModel c
  else if String.eqb provider "ollama" then OllamaModel c
  else if String.eqb provider "lmstudio" then LMStudioModel c
  else if String.eqb provider "deepseek" then DeepSeekModel c
  else if String.eqb provider "openrouter" then OpenRouterModel c
  else "".

Definition GetProviderBaseURL (c : Config) (provider : string) : string :=
  if String.eqb provider "openai" then OpenAIBaseURL c
  else if String.eqb provider "ollama" then OllamaHost c
  else if String.eqb provider "lmstudio" then LMStudioBaseURL c
  else if String.eqb provider "deepseek" then DeepSeekBaseURL c
  else if String.eqb provider "openrouter" then OpenRouterBaseURL c
  else "".

End config.

(** ** Package [ui] ([pkg/ui/colors.go]), as far as the command uses it

    The [Print...] helpers write through lipgloss; each call is recorded in
    the trace with its argument. *)

Module ui.
Definition Cyan : string := "14".
Definition Green : string := "10".
Definition Yellow : string := "11".
Definition Red : string := "9".
Definition Magenta : string := "13".
Definition Blue : string := "12".
Definition White : string := "15".
Definition Dim : string := "240".

Definition Colorize `{GoLib} (text color : string) (bold : bool) : string :=
  Render color bold text.
End ui.

(** ** What the command does, as a trace *)

Inductive Effect : Type :=
  | Print (text : string)
  | PrintBanner
  | PrintSectionHeader (title icon : string)
  | PrintSuccess (message : string)
  | PrintError (message : string)
  | PrintWarning (message : string)
  | PrintInfo (message : string)
  | CallHealth (callee : nat)
  | CallStreamChat (callee : nat) (req : ChatRequest.t)
  | Sleep (milliseconds : Z).

(** ** Channels and [select]

    What one [select] of the conversation loop yields: a text received, the
    text channel found closed, a value received from the error channel ([nil]
    when the channel is closed and empty), or the 30-second timer. *)
Inductive SelectEvent : Type :=
  | RecvText (text : string)
  | TextClosed
  | RecvErr (err : option error)
  | After30s.

(** The two channels between the goroutine and the loop: the operations the
    goroutine has still to perform, the buffer of the error channel, and
    which channels are closed. *)
Record Chans : Type := mkChans {
  pending : list ChanOp;
  errBuf : option error;
  errClosed : bool;
  textClosed : bool
}.

Definition open_chans (ops : list ChanOp) : Chans := mkChans ops None false false.

(** [delivers c events]: the loop may observe [events], in this order, from
    channels in state [c].  A send on the unbuffered text channel completes
    together with its receive; a send on the error channel completes as soon
    as the buffer is free; closes complete at once; the timer may fire
    whenever the loop is waiting; the loop may stop observing at any point. *)
Inductive delivers : Chans -> list SelectEvent -> Prop :=
  | delivers_stop c :
      delivers c []
  | delivers_text c text ops events :
      pending c = SendText text :: ops ->
      delivers (mkChans ops (errBuf c) (errClosed c) (textClosed c)) events ->
      delivers c (RecvText text :: events)
  | delivers_text_closed c events :
      textClosed c = true ->
      delivers c events ->
      delivers c (TextClosed :: events)
  | delivers_err c err events :
      errBuf c = Some err ->
      delivers (mkChans (pending c) None (errClosed c) (textClosed c)) events ->
      delivers c (RecvErr (Some err) :: events)
  | delivers_err_closed c events :
      errBuf c = None ->
      errClosed c = true ->
      delivers c events ->
      delivers c (RecvErr None :: events)
  | delivers_timer c events :
      delivers c events ->
      delivers c (After30s :: events)
  | delivers_send_err c err ops events :
      pending c = SendErr err :: ops ->
      errBuf c = None ->
      errClosed c = false ->
      delivers (mkChans ops (Some err) false (textClosed c)) events ->
      delivers c events
  | delivers_close_err c ops events :
      pending c = CloseErr :: ops ->
      errClosed c = false ->
      delivers (mkChans ops (errBuf c) true (textClosed c)) events ->
      delivers c events
  | delivers_close_text c ops events :
      pending c = CloseText :: ops ->
      textClosed c = false ->
      delivers (mkChans ops (errBuf c) (errClosed c) true) events ->
      delivers c events.

(** How one round's [for { select { ... } }] ends. *)
Inductive Resolution : Type :=
  | StreamDone
  | ReturnErr (err : error)
  | Blocked.

(** The inner loop of a round over the events its selects yield.  [Blocked]
    is the loop still waiting when the events run out. *)
Fixpoint select_loop (events : list SelectEvent) (fullResponse : string)
    (trace : list Effect) : Resolution * string * list Effect :=
  match events with
  | [] => (Blocked, fullResponse, trace)
  | RecvText text :: events' =>
      select_loop events' (fullResponse +:+ text) (trace ++ [Print text])
  | TextClosed :: _ => (StreamDone, fullResponse, trace)
  | RecvErr (Some err) :: _ =>
      (ReturnErr err, fullResponse,
       trace ++ [PrintError ("Stream error: " +:+ Error err)])
  | RecvErr None :: events' => select_loop events' fullResponse trace
  | After30s :: _ => (ReturnErr (Errorf "stream timeout"), fullResponse, trace)
  end.

(** ** The [start] command ([cmd/start.go]) *)

Module cmd.

(** The package-level flag variables. *)
Record Flags : Type := mkFlags {
  providerA : string;
  providerB : string;
  modelA : string;
  modelB : string;
  tempA : float64;
  tempB : float64;
  starter : string;
  maxRounds : Z
}.

(** How a run ends: [runStart] returned ([None] is [nil]), it called a
    method on a nil interface value, or it is still running after the
    steps it was given. *)
Inductive Exit : Type :=
  | Returned (err : option error)
  | Panicked
  | Running.

(** A finished (or interrupted) run: the exit, the [messages] slice as it
    then is, and everything printed and called, in order. *)
Record Final : Type := mkFinal {
  exit : Exit;
  history : list Message.t;
  effects : list Effect
}.

(** The variables of the conversation loop. *)
Record Loop : Type := mkLoop {
  messages : list Message.t;
  currentText : string;
  currentAgent : Provider;
  agentName : string;
  agentColor : string;
  trace : list Effect
}.

Inductive Step : Type :=
  | Continue (st : Loop)
  | Leave (fin : Final).

Definition nl : string := String LF EmptyString.

Section start.
Context `{GoLib}.

(** The Go scheduler and the clock: the events the selects of round
    [round] yield from a goroutine performing [ops]. *)
Variable sched : Z -> list ChanOp -> list SelectEvent.

Definition buildProvider (providerFactories : gmap string ProviderFactory)
    (cfg : config.Config) (provider apiKey model : string) (temp : float64)
    : Alloc (option Provider * option error) :=
  NewProvider provider
    (ProviderConfig.mk apiKey (config.GetProviderBaseURL cfg provider) model temp)
    providerFactories.

Section conversation.
Variables (agentA agentB : Provider) (tempA tempB : float64) (maxRounds : Z).
Variable ctx : Context.

(** The request of the round that starts in state [st]. *)
Definition round_request (st : Loop) : ChatRequest.t :=
  let messages := messages st ++ [Message.mk "user" (currentText st)] in
  let currentTemp :=
    if same_instance (currentAgent st) agentB then tempB else tempA in
  ChatRequest.mk (DefaultModel (currentAgent st)) messages currentTemp 800 "".

(** What is printed and called in a round before the first select. *)
Definition round_prelude (round : Z) (st : Loop) : list Effect :=
  [ Print (nl +:+ ui.Colorize ("═══ Round " +:+ itoa round +:+ "/"
                                 +:+ itoa maxRounds +:+ " ═══") ui.Dim false +:+ nl);
    Print nl;
    Print (ui.Colorize (agentName st) (agentColor st) true +:+ " "
             +:+ ui.Colorize "is thinking..." ui.Dim false +:+ nl);
    CallStreamChat (self (currentAgent st)) (round_request st);
    Print (ui.Colorize (agentName st +:+ ": ") (agentColor st) true) ].

(** One iteration of [for round := 1; round <= maxRounds; round++]. *)
Definition round_body (round : Z) (st : Loop) : Step :=
  let req := round_request st in
  let messages := ChatRequest.Messages req in
  let ops := StreamChat (currentAgent st) ctx req in
  match select_loop (sched round ops) "" (trace st ++ round_prelude round st) with
  | (ReturnErr err, _, tr) => Leave (mkFinal (Returned (Some err)) messages tr)
  | (Blocked, _, tr) => Leave (mkFinal Running messages tr)
  | (StreamDone, responseText, tr) =>
      let tr := tr ++ [Print nl] in
      let messages := messages ++ [Message.mk "assistant" responseText] in
      let tr := tr ++ [Sleep 500] in
      if same_instance (currentAgent st) agentA
      then Continue (mkLoop messages responseText agentB "Agent B" ui.Magenta tr)
      else Continue (mkLoop messages responseText agentA "Agent A" ui.Green tr)
  end.

(** The [for] loop; every test of [round <= maxRounds] takes one unit
    of [fuel]. *)
Fixpoint rounds (fuel : nat) (round : Z) (st : Loop) : Final :=
  match fuel with
  | O => mkFinal Running (messages st) (trace st)
  | S fuel' =>
      if (round <=? maxRounds)%Z then
        match round_body round st with
        | Continue st' => rounds fuel' (int_succ round) st'
        | Leave fin => fin
        end
      else
        mkFinal (Returned None) (messages st)
          (trace st ++ [PrintSuccess ("Conversation completed! "
                                        +:+ itoa maxRounds +:+ " rounds")])
  end.

(** [runStart] from the health checks on. *)
Definition converse (fuel : nat) (starter providerA providerB : string)
    (tr : list Effect) : Final :=
  let tr := tr ++ [PrintInfo "Checking provider connectivity..."] in
  let tr := tr ++ [CallHealth (self agentA)] in
  match Health agentA ctx with
  | Some err =>
      mkFinal (Returned (Some (Wrapf "Agent A health check failed: " err))) [] tr
  | None =>
      let tr := tr ++ [PrintSuccess ("Agent A (" +:+ providerA +:+ ") ready")] in
      let tr := tr ++ [CallHealth (self agentB)] in
      match Health agentB ctx with
      | Some err =>
          mkFinal (Returned (Some (Wrapf "Agent B health check failed: " err))) [] tr
      | None =>
          let tr := tr ++ [PrintSuccess ("Agent B (" +:+ providerB +:+ ") ready")] in
          let tr := tr ++ [Print nl; PrintSectionHeader "Conversation" "💬"] in
          rounds fuel 1 (mkLoop [] starter agentA "Agent A" ui.Green tr)
      end
  end.

End conversation.

(** The session summary printed before the providers are built. *)
Definition session_configuration (f : Flags) : list Effect :=
  [ PrintSectionHeader "Session Configuration" "⚙️";
    Print ("  " +:+ ui.Colorize "Agent A" ui.Green true +:+ ": " +:+ providerA f +:+ nl) ]
  ++ (if negb (String.eqb (modelA f) "")
      then [Print ("  " +:+ ui.Colorize "Model A" ui.Yellow false +:+ ": "
                     +:+ modelA f +:+ nl)]
      else [])
  ++ [ Print ("  " +:+ ui.Colorize "Temperature A" ui.Cyan false +:+ ": "
                +:+ fmt_f1 (tempA f) +:+ nl);
       Print nl;
       Print ("  " +:+ ui.Colorize "Agent B" ui.Magenta true +:+ ": " +:+ providerB f +:+ nl) ]
  ++ (if negb (String.eqb (modelB f) "")
      then [Print ("  " +:+ ui.Colorize "Model B" ui.Yellow false +:+ ": "
                     +:+ modelB f +:+ nl)]
      else [])
  ++ [ Print ("  " +:+ ui.Colorize "Temperature B" ui.Cyan false +:+ ": "
                +:+ fmt_f1 (tempB f) +:+ nl);
       Print nl;
       Print ("  " +:+ ui.Colorize "Max Rounds" ui.Blue false +:+ ": "
                +:+ itoa (maxRounds f) +:+ nl);
       Print ("  " +:+ ui.Colorize "Starter" ui.White false +:+ ": " +:+ starter f +:+ nl);
       Print nl ].

(** [runStart].  [getenv] is the environment, [f] the flags as parsed,
    [providerFactories] the factory map, [next] the next free address and
    [fuel] the number of loop tests the run is followed for. *)
Definition runStart (fuel : nat) (getenv : string -> string) (f : Flags)
    (providerFactories : gmap string ProviderFactory) (next : nat) : Final :=
  let tr := [PrintBanner] in
  match config.Load getenv with
  | (_, Some err) =>
      mkFinal (Returned (Some (Wrapf "failed to load configuration: " err))) [] tr
  | (cfg, None) =>
      match config.Validate cfg with
      | Some err =>
          mkFinal (Returned (Some err)) []
            (tr ++ [ PrintError "Configuration error:";
                     PrintWarning (Error err);
                     PrintInfo "Please set API keys in .env file or environment variables" ])
      | None =>
          let tr := tr ++ session_configuration f in
          let tr := tr ++ [PrintInfo "Initializing providers..."] in
          let apiKeyA := config.GetAPIKey cfg (providerA f) in
          let apiKeyB := config.GetAPIKey cfg (providerB f) in
          let modelA' :=
            if String.eqb (modelA f) "" then config.GetDefaultModel cfg (providerA f)
            else modelA f in
          let modelB' :=
            if String.eqb (modelB f) "" then config.GetDefaultModel cfg (providerB f)
            else modelB f in
          match buildProvider providerFactories cfg (providerA f) apiKeyA modelA'
                  (tempA f) next with
          | ((_, Some err), _) => mkFinal (Returned (Some err)) [] tr
          | ((None, None), _) => mkFinal Panicked [] tr
          | ((Some agentA, None), next1) =>
              match buildProvider providerFactories cfg (providerB f) apiKeyB modelB'
                      (tempB f) next1 with
              | ((_, Some err), _) => mkFinal (Returned (Some err)) [] tr
              | ((None, None), _) =>
                  mkFinal Panicked []
                    (tr ++ [PrintInfo "Checking provider connectivity..."])
              | ((Some agentB, None), _) =>
                  converse agentA agentB (tempA f) (tempB f) (maxRounds f)
                    Background fuel (starter f) (providerA f) (providerB f) tr
              end
          end
      end
  end.

End start.
End cmd.

(** ** Vocabulary for response streams

    A response body as a sequence of lines, each ended by a line feed. *)

Fixpoint no_LF (s : string) : bool :=
  match s with
  | EmptyString => true
  | String a s' => negb (Ascii.eqb a LF) && no_LF s'
  end.

Fixpoint unlines (ls : list string) : string :=
  match ls with
  | [] => EmptyString
  | l :: ls' => l +:+ String LF (unlines ls')
  end.

(** A line that is not a data frame: blank, the [data: [DONE]] terminator, or
    without the [data: ] prefix. *)
Definition noise (l : string) : bool :=
  let line := TrimSpace (l +:+ String LF EmptyString) in
  String.eqb line "" || String.eqb line "data: [DONE]" || negb (HasPrefix line "data: ").

(** A line that is a data frame with payload [json]. *)
Definition data_frame (l json : string) : Prop :=
  TrimSpace (l +:+ String LF EmptyString) = "data: " +:+ json /\ json <> "[DONE]".

(** The send a decoded chunk gives rise to, if any. *)
Definition sends (chunk : Chunk.t) : list ChanOp :=
  match Chunk.first_content chunk with
  | Some text => [SendText text]
  | None => []
  end.

(** ** Vocabulary for traces and select events *)

(** The provider calls of a trace, in order. *)
Definition is_call (e : Effect) : bool :=
  match e with
  | CallHealth _ | CallStreamChat _ _ => true
  | _ => false
  end.

Definition calls (tr : list Effect) : list Effect := List.filter is_call tr.

(** The [StreamChat] calls of a trace, in order: callee and request. *)
Definition stream_calls (tr : list Effect) : list (nat * ChatRequest.t) :=
  omap (fun e => match e with
                 | CallStreamChat callee req => Some (callee, req)
                 | _ => None
                 end) tr.

(** An event after which the round's loop selects again. *)
Definition progress (ev : SelectEvent) : bool :=
  match ev with
  | RecvText _ | RecvErr None => true
  | _ => false
  end.

(** The texts received in a sequence of events. *)
Definition texts (events : list SelectEvent) : list string :=
  omap (fun ev => match ev with RecvText text => Some text | _ => None end) events.

(** The events hold one that ends the round's loop. *)
Definition settles (events : list SelectEvent) : bool :=
  existsb (fun ev => negb (progress ev)) events.

Definition is_close (op : ChanOp) : bool :=
  match op with
  | CloseErr | CloseText => true
  | _ => false
  end.

(** ** Test doubles

    Stand-ins used to run the definitions above on concrete inputs. *)

Module doubles.

Definition dquote : string := String (byte 34) EmptyString.

Definition is_control (a : Ascii.ascii) : bool :=
  let n := Ascii.nat_of_ascii a in (n <? 32) || (n =? 127).

(** [net/url] rejects, among others, any URL holding an ASCII control
    byte. *)
Definition url_Parse (url : string) : option error :=
  if existsb is_control (String.list_ascii_of_string url)
  then Some (Foreign "net/url: invalid control character in URL")
  else None.

(** Quoting for texts that need no escape. *)
Definition json_string (s : string) : string := dquote +:+ s +:+ dquote.

(** The encoder of a [float64], on the few values used below. *)
Definition json_float (x : float64) : string + error :=
  if PrimFloat.is_nan x || PrimFloat.is_infinity x
  then inr (Foreign "json: unsupported value")
  else if PrimFloat.eqb x 0.5 then inl "0.5"
  else if PrimFloat.eqb x 0.25 then inl "0.25"
  else inl "0".

Definition frame_open : string :=
  "{" +:+ dquote +:+ "choices" +:+ dquote +:+ ":[{" +:+ dquote +:+ "delta" +:+ dquote
  +:+ ":{" +:+ dquote +:+ "content" +:+ dquote +:+ ":" +:+ dquote.

Definition frame_close : string := dquote +:+ "}}]}".

Definition plain (s : string) : bool :=
  forallb (fun a => negb (Ascii.eqb a (byte 34) || Ascii.eqb a (byte 92)))
          (String.list_ascii_of_string s).

(** A decoder for frames of the one shape
    [{"choices":[{"delta":{"content":"..."}}]}], the text free of quotes and
    backslashes; everything else is a decoding error. *)
Definition json_Unmarshal (s : string) : option Chunk.t :=
  let n := String.length s in
  let a := String.length frame_open in
  let b := String.length frame_close in
  if (a + b <=? n) && String.eqb (String.substring 0 a s) frame_open
     && String.eqb (String.substring (n - b) b s) frame_close
     && plain (String.substring a (n - a - b) s)
  then Some (Chunk.mk [Chunk.mkChoice (Chunk.mkDelta (String.substring a (n - a - b) s))])
  else None.

(** A terminal without colours, and a fixed-point printer for the few
    values used below. *)
Definition lib : GoLib :=
  Build_GoLib url_Parse json_string json_float json_Unmarshal
    (fun _ _ text => text)
    (fun x => if PrimFloat.eqb x 0.5 then "0.5" else if PrimFloat.eqb x 0.25 then "0.2" else "0.0").

(** A stream frame carrying [text]. *)
Definition frame (text : string) : string :=
  "data: " +:+ frame_open +:+ text +:+ frame_close.

(** A provider whose health check answers [health] and whose goroutine
    performs [ops] whatever the request. *)
Definition mock (addr : nat) (health : option error) (ops : list ChanOp) : Provider :=
  mkProvider addr "mock" (fun _ _ => ([], None)) (fun _ _ => ops) (fun _ => health)
    "mock-model".

(** A network that answers every request with [status] and [body]. *)
Definition server (status : Z) (body : http.Body) : http.Client :=
  fun _ => inl (http.mkResponse status body).

(** A network that is down. *)
Definition unreachable : http.Client :=
  fun _ => inr (Foreign "dial tcp: connection refused").

(** A scheduler that hands every operation of the goroutine to the loop as
    soon as it is performed. *)
Fixpoint eager (ops : list ChanOp) : list SelectEvent :=
  match ops with
  | [] => []
  | SendText text :: ops' => RecvText text :: eager ops'
  | SendErr err :: ops' => RecvErr (Some err) :: eager ops'
  | CloseErr :: ops' => eager ops'
  | CloseText :: ops' => TextClosed :: eager ops'
  end.

End doubles.

(** ** Vocabulary for the further properties *)

(** The spec map after the registrations [specs], made in this order. *)
Definition register_all (specs : list ProviderSpec.t)
    (providerRegistry : gmap string ProviderSpec.t) : gmap string ProviderSpec.t :=
  foldl (fun reg spec => RegisterProvider spec reg) providerRegistry specs.

(** The whole lines of a body, without their line feeds, and the bytes after
    the last line feed. *)
Fixpoint split_lines (s : string) : list string * string :=
  match s with
  | EmptyString => ([], EmptyString)
  | String a s' =>
      let '(ls, rest) := split_lines s' in
      if Ascii.eqb a LF then (EmptyString :: ls, rest)
      else match ls with
           | [] => ([], String a rest)
           | l :: ls' => (String a l :: ls', rest)
           end
  end.

(** The message read back from a role/content record. *)
Definition to_message (record : gmap string string) : Message.t :=
  Message.mk (default "" (record !! "role")) (default "" (record !! "content")).

(** The texts the stream loop sends for the lines [ls] of a body. *)
Definition frame_texts `{GoLib} (ls : list string) : list string :=
  omap (fun l => OpenAIProvider.frame_text (l +:+ String LF EmptyString)) ls.

(** A conversation that opens with [text] and got the replies [replies]:
    every round adds the text as a user message and the reply as an
    assistant message, and the reply is the text of the next round. *)
Fixpoint dialogue (text : string) (replies : list string) : list Message.t :=
  match replies with
  | [] => []
  | reply :: replies' =>
      Message.mk "user" text :: Message.mk "assistant" reply :: dialogue reply replies'
  end.

(** The text the round after [replies] starts with. *)
Definition next_text (text : string) (replies : list string) : string :=
  default text (last replies).

(** * Properties *)

(** ** The registry *)

Lemma GetProviderSpec_insert_eq (reg : gmap string ProviderSpec.t) (spec : ProviderSpec.t) :
  GetProviderSpec (ProviderSpec.Key spec) (RegisterProvider spec reg) = (spec, true).
Proof. unfold GetProviderSpec, RegisterProvider. by rewrite lookup_insert_eq. Qed.

Lemma GetProviderSpec_insert_ne (reg : gmap string ProviderSpec.t) (spec : ProviderSpec.t)
    (k : string) :
  k <> ProviderSpec.Key spec ->
  GetProviderSpec k (RegisterProvider spec reg) = GetProviderSpec k reg.
Proof.
  intros Hne. unfold GetProviderSpec, RegisterProvider.
  by rewrite lookup_insert_ne.
Qed.

(** C9.  Registration is last-wins by key: after registering [s1] and then
    [s2] under the same key [k], [GetProviderSpec k] returns exactly [s2]
    with [found = true], the spec map is the one obtained by registering
    [s2] alone, and the specs found under every other key are those found
    before, after one registration as after both. *)
Theorem RegisterProvider_last_wins (reg : gmap string ProviderSpec.t) (k : string)
    (s1 s2 : ProviderSpec.t) :
  ProviderSpec.Key s1 = k ->
  ProviderSpec.Key s2 = k ->
  GetProviderSpec k (RegisterProvider s2 (RegisterProvider s1 reg)) = (s2, true)
  /\ RegisterProvider s2 (RegisterProvider s1 reg) = RegisterProvider s2 reg
  /\ forall k', k' <> k ->
       GetProviderSpec k' (RegisterProvider s1 reg) = GetProviderSpec k' reg
       /\ GetProviderSpec k' (RegisterProvider s2 (RegisterProvider s1 reg))
          = GetProviderSpec k' reg.
Proof.
  intros H1 H2. split; [|split].
  - rewrite <- H2. apply GetProviderSpec_insert_eq.
  - unfold RegisterProvider. rewrite H1, H2. apply insert_insert_eq.
  - intros k' Hne. split.
    + apply GetProviderSpec_insert_ne. congruence.
    + rewrite !GetProviderSpec_insert_ne; congruence.
Qed.

Lemma RegisterProvider_last_wins_witness :
  let s1 := OpenAIProvider.openai_spec in
  let s2 := ProviderSpec.mk "openai" "OpenAI (preview)" "Next models" "gpt-4o" true ["gpt-4o"] in
  ProviderSpec.Key s1 = "openai"
  /\ ProviderSpec.Key s2 = "openai"
  /\ GetProviderSpec "openai" (RegisterProvider s2 (RegisterProvider s1 ∅)) = (s2, true).
Proof.
  intros s1 s2. split; [reflexivity|]. split; [reflexivity|].
  exact (proj1 (RegisterProvider_last_wins ∅ "openai" s1 s2 eq_refl eq_refl)).
Defined.

(** C2.  Without a factory registered for [k], and whatever the spec map
    holds for [k], [NewProvider k cfg] returns a nil provider together with
    the error "provider 'k' not yet implemented"; it allocates nothing.  The
    function is total: no configuration makes it panic. *)
Theorem NewProvider_without_factory (g : Globals) (k : string) (cfg : ProviderConfig.t)
    (next : nat) :
  providerFactories g !! k = None ->
  NewProvider k cfg (providerFactories g) next
  = ((None, Some (Errorf ("provider '" +:+ k +:+ "' not yet implemented"))), next).
Proof.
  intros Hk. unfold NewProvider, GetProviderFactory. by rewrite Hk.
Qed.

Lemma NewProvider_without_factory_witness :
  let anthropic := ProviderSpec.mk "anthropic" "Anthropic" "Claude models" "claude" true [] in
  let g0 := @initial_globals doubles.lib doubles.unreachable in
  let g := mkGlobals (RegisterProvider anthropic (providerRegistry g0)) (providerFactories g0) in
  GetProviderSpec "anthropic" (providerRegistry g) = (anthropic, true)
  /\ providerFactories g !! "anthropic" = None
  /\ NewProvider "anthropic" (ProviderConfig.mk "" "" "" 0.5) (providerFactories g) 7
     = ((None, Some (Errorf "provider 'anthropic' not yet implemented")), 7).
Proof.
  intros anthropic g0 g. split; [reflexivity|]. split; [reflexivity|].
  exact (NewProvider_without_factory g "anthropic" (ProviderConfig.mk "" "" "" 0.5) 7 eq_refl).
Defined.

Section with_lib.
Context `{GoLib}.

Lemma initial_factories_lookup (net : http.Client) (k : string) (f : ProviderFactory) :
  providerFactories (initial_globals net) !! k = Some f ->
  k = "openai"
  /\ f = (fun cfg next =>
            let '(ptr, next') := OpenAIProvider.NewOpenAIProvider net cfg next in
            (OpenAIProvider.as_Provider ptr, next')).
Proof.
  unfold initial_globals, OpenAIProvider.init, RegisterProviderFactory. simpl.
  intros Hk. destruct (decide (k = "openai")) as [->|Hne].
  - rewrite lookup_insert_eq in Hk. by inversion Hk.
  - rewrite lookup_insert_ne in Hk by done. by rewrite lookup_empty in Hk.
Qed.

Lemma initial_registry_lookup (net : http.Client) (k : string) (spec : ProviderSpec.t) :
  providerRegistry (initial_globals net) !! k = Some spec ->
  k = "openai" /\ spec = OpenAIProvider.openai_spec.
Proof.
  unfold initial_globals, OpenAIProvider.init, RegisterProvider. simpl.
  intros Hk. destruct (decide (k = "openai")) as [->|Hne].
  - rewrite lookup_insert_eq in Hk. by inversion Hk.
  - rewrite lookup_insert_ne in Hk by done. by rewrite lookup_empty in Hk.
Qed.

(** C7.  In the registry as the program populates it, for every key [k]
    that has both a spec and a factory and every configuration [cfg],
    [NewProvider k cfg] returns a provider and no error; its [Name()] is
    [k] and its [DefaultModel()] is [cfg.Model] when that is non-empty and
    the default model of the registered spec otherwise. *)
Theorem NewProvider_registered (net : http.Client) (k : string) (cfg : ProviderConfig.t)
    (spec : ProviderSpec.t) (factory : ProviderFactory) (next : nat) :
  GetProviderSpec k (providerRegistry (initial_globals net)) = (spec, true) ->
  GetProviderFactory k (providerFactories (initial_globals net)) = (Some factory, true) ->
  exists p next',
    NewProvider k cfg (providerFactories (initial_globals net)) next
    = ((Some p, None), next')
    /\ Name p = k
    /\ DefaultModel p
       = (if String.eqb (ProviderConfig.Model cfg) ""
          then ProviderSpec.DefaultModel spec else ProviderConfig.Model cfg).
Proof.
  intros Hspec Hfac.
  unfold GetProviderSpec in Hspec.
  destruct (providerRegistry (initial_globals net) !! k) as [spec'|] eqn:Hs;
    [|discriminate].
  destruct (initial_registry_lookup _ _ _ Hs) as [-> ->].
  assert (spec = OpenAIProvider.openai_spec) as -> by congruence.
  unfold GetProviderFactory in Hfac.
  destruct (providerFactories (initial_globals net) !! "openai") as [f|] eqn:Hf;
    [|discriminate].
  destruct (initial_factories_lookup _ _ _ Hf) as [_ ->].
  unfold NewProvider, GetProviderFactory. rewrite Hf.
  eexists _, _. split; [reflexivity|]. split; [reflexivity|].
  simpl. unfold OpenAIProvider.DefaultModel. simpl.
  by destruct (String.eqb (ProviderConfig.Model cfg) "").
Qed.

End with_lib.

Lemma NewProvider_registered_witness :
  let g := @initial_globals doubles.lib doubles.unreachable in
  let f := (fun cfg next =>
              let '(ptr, next') :=
                @OpenAIProvider.NewOpenAIProvider doubles.unreachable cfg next in
              (@OpenAIProvider.as_Provider doubles.lib ptr, next')) in
  GetProviderSpec "openai" (providerRegistry g) = (OpenAIProvider.openai_spec, true)
  /\ GetProviderFactory "openai" (providerFactories g) = (Some f, true)
  /\ exists p next',
       NewProvider "openai" (ProviderConfig.mk "test-key" "" "gpt-test" 0.5)
         (providerFactories g) 0 = ((Some p, None), next')
       /\ Name p = "openai"
       /\ DefaultModel p = "gpt-test".
Proof.
  intros g f. split; [reflexivity|]. split; [reflexivity|].
  exact (@NewProvider_registered doubles.lib doubles.unreachable "openai"
           (ProviderConfig.mk "test-key" "" "gpt-test" 0.5)
           OpenAIProvider.openai_spec f 0 eq_refl eq_refl).
Defined.

(** ** The OpenAI provider: health check *)

Section health.
Context `{GoLib}.

Lemma Health_request_ok (p : OpenAIProvider.t) (ctx : Context) :
  url_Parse (OpenAIProvider.baseURL p +:+ "/models") = None ->
  OpenAIProvider.Health_request p ctx
  = inl (http.mkRequest ctx "GET" (OpenAIProvider.baseURL p +:+ "/models")
           {["Authorization" := "Bearer " +:+ OpenAIProvider.apiKey p]} None).
Proof.
  intros Hurl. unfold OpenAIProvider.Health_request, NewRequestWithContext.
  rewrite Hurl. unfold http.Header_Set. simpl. by rewrite insert_empty.
Qed.

(** When the URL cannot be parsed no request is sent and the parse error is
    returned as it is. *)
Lemma Health_bad_url (p : OpenAIProvider.t) (ctx : Context) (err : error) :
  url_Parse (OpenAIProvider.baseURL p +:+ "/models") = Some err ->
  OpenAIProvider.Health p ctx = Some err.
Proof.
  intros Hurl.
  unfold OpenAIProvider.Health, OpenAIProvider.Health_request, NewRequestWithContext.
  by rewrite Hurl.
Qed.

(** C3, as amended.  For every context, base URL and API key, [Health]
    first builds a GET request to [baseURL + "/models"].

    When that URL is one [net/http] accepts, the request sent has
    [Authorization: Bearer apiKey] as its only header.  If the network fails
    with [err], [Health] returns [err] wrapped as "connection failed: ...".
    If a response arrives, it returns [ErrInvalidCredentials] exactly when
    the status is 401, an "API error (status N): body" error carrying the
    status and the body for every other status different from 200, and [nil]
    exactly when the status is 200, the one status left.

    When the URL is one [net/http] refuses, nothing is sent: [Health]
    returns the parser's error as it is, whatever the network would have
    answered. *)
Theorem Health_outcomes (p : OpenAIProvider.t) (ctx : Context) :
  let url := OpenAIProvider.baseURL p +:+ "/models" in
  let req := http.mkRequest ctx "GET" url
               {["Authorization" := "Bearer " +:+ OpenAIProvider.apiKey p]} None in
  (url_Parse url = None ->
   OpenAIProvider.Health_request p ctx = inl req
   /\ (forall err,
         OpenAIProvider.client p req = inr err ->
         OpenAIProvider.Health p ctx = Some (Wrapf "connection failed: " err))
   /\ (forall resp,
         OpenAIProvider.client p req = inl resp ->
         (OpenAIProvider.Health p ctx = Some ErrInvalidCredentials
          <-> http.StatusCode resp = 401%Z)
         /\ (http.StatusCode resp <> 401%Z ->
             http.StatusCode resp <> 200%Z ->
             OpenAIProvider.Health p ctx
             = Some (OpenAIProvider.api_error (http.StatusCode resp)
                       (http.data (http.body resp))))
         /\ (OpenAIProvider.Health p ctx = None <-> http.StatusCode resp = 200%Z)))
  /\ (forall err,
        url_Parse url = Some err ->
        OpenAIProvider.Health_request p ctx = inr err
        /\ forall net : http.Client,
             OpenAIProvider.Health
               (OpenAIProvider.mk (OpenAIProvider.apiKey p) (OpenAIProvider.baseURL p)
                  (OpenAIProvider.model p) net) ctx
             = Some err).
Proof.
  intros url req. split.
  - intros Hurl. pose proof (Health_request_ok p ctx Hurl) as Hreq.
    fold url req in Hreq. split; [exact Hreq|]. split.
    + intros err Hdo. unfold OpenAIProvider.Health. by rewrite Hreq, Hdo.
    + intros resp Hdo. unfold OpenAIProvider.Health. rewrite Hreq, Hdo.
      unfold OpenAIProvider.api_error, http.ReadAll.
      destruct (Z.eqb_spec (http.StatusCode resp) 401) as [E401|N401].
      * rewrite E401. repeat split; try done.
      * destruct (Z.eqb_spec (http.StatusCode resp) 200) as [E200|N200]; simpl.
        -- repeat split; try done.
        -- repeat split; try done.
  - intros err Hurl. split.
    + unfold OpenAIProvider.Health_request, NewRequestWithContext.
      fold url. by rewrite Hurl.
    + intros net. by apply Health_bad_url.
Qed.

End health.

Lemma Health_outcomes_witness :
  let body := http.mkBody "rate limited" EOF in
  let p := OpenAIProvider.mk "sk-test" "https://api.openai.com/v1" "gpt-4o-mini"
             (doubles.server 429 body) in
  doubles.url_Parse "https://api.openai.com/v1/models" = None
  /\ @OpenAIProvider.Health doubles.lib p Background
     = Some (Errorf "API error (status 429): rate limited").
Proof.
  intros body p. split; [reflexivity|].
  pose proof (proj1 (@Health_outcomes doubles.lib p Background) eq_refl) as [_ [_ Hresp]].
  exact (proj1 (proj2 (Hresp (http.mkResponse 429 body) eq_refl))
           ltac:(discriminate) ltac:(discriminate)).
Defined.

(** C3, as stated, fails for a base URL that [net/http] refuses.  The base
    URL below ends with a tab; the network answers every request with status
    200.  The claim promises a GET and, for this network, success.  [Health]
    builds no request and returns the parser's error, which is none of the
    claim's four outcomes. *)
Lemma Health_unparsable_base_url :
  let baseURL := "https://api.openai.com/v1" +:+ String (byte 9) EmptyString in
  let body := http.mkBody "{}" EOF in
  let p := OpenAIProvider.mk "sk-test" baseURL "gpt-4o-mini" (doubles.server 200 body) in
  let result := @OpenAIProvider.Health doubles.lib p Background in
  (forall req, OpenAIProvider.client p req = inl (http.mkResponse 200 body))
  /\ (forall req, @OpenAIProvider.Health_request doubles.lib p Background <> inl req)
  /\ result = Some (Foreign "net/url: invalid control character in URL")
  /\ result <> None
  /\ result <> Some ErrInvalidCredentials
  /\ (forall status text, result <> Some (OpenAIProvider.api_error status text))
  /\ (forall err, result <> Some (Wrapf "connection failed: " err)).
Proof.
  intros baseURL body p result.
  assert (result = Some (Foreign "net/url: invalid control character in URL")) as Hres
    by (vm_compute; reflexivity).
  assert (@OpenAIProvider.Health_request doubles.lib p Background
          = inr (Foreign "net/url: invalid control character in URL")) as Hreq
    by (vm_compute; reflexivity).
  split; [reflexivity|]. split; [intros req; rewrite Hreq; discriminate|].
  split; [exact Hres|]. rewrite Hres.
  split; [discriminate|]. split; [discriminate|]. split.
  - intros status text. unfold OpenAIProvider.api_error. discriminate.
  - intros err. discriminate.
Qed.

(** ** The OpenAI provider: the request of [StreamChat] *)

Section request.
Context `{GoLib}.

Lemma requestBody_fields (p : OpenAIProvider.t) (req1 req2 : ChatRequest.t) :
  ChatRequest.Model req1 = ChatRequest.Model req2 ->
  ChatRequest.Messages req1 = ChatRequest.Messages req2 ->
  ChatRequest.Temperature req1 = ChatRequest.Temperature req2 ->
  ChatRequest.MaxTokens req1 = ChatRequest.MaxTokens req2 ->
  OpenAIProvider.requestBody p req1 = OpenAIProvider.requestBody p req2.
Proof.
  intros Hmodel Hmsgs Htemp Hmax. unfold OpenAIProvider.requestBody.
  by rewrite Hmodel, Hmsgs, Htemp, Hmax.
Qed.

(** C10.  Two requests that agree on [Model], [Messages], [Temperature] and
    [MaxTokens] are marshalled to the same JSON body (or fail to marshal
    with the same error), whatever their [SystemPrompt]s; the provider
    then sends the same HTTP request and performs the same channel
    operations. *)
Theorem StreamChat_ignores_SystemPrompt (p : OpenAIProvider.t) (ctx : Context)
    (req1 req2 : ChatRequest.t) :
  ChatRequest.Model req1 = ChatRequest.Model req2 ->
  ChatRequest.Messages req1 = ChatRequest.Messages req2 ->
  ChatRequest.Temperature req1 = ChatRequest.Temperature req2 ->
  ChatRequest.MaxTokens req1 = ChatRequest.MaxTokens req2 ->
  json_Marshal (OpenAIProvider.requestBody p req1)
  = json_Marshal (OpenAIProvider.requestBody p req2)
  /\ OpenAIProvider.StreamChat_request p ctx req1
     = OpenAIProvider.StreamChat_request p ctx req2
  /\ OpenAIProvider.StreamChat p ctx req1 = OpenAIProvider.StreamChat p ctx req2.
Proof.
  intros Hmodel Hmsgs Htemp Hmax.
  pose proof (requestBody_fields p req1 req2 Hmodel Hmsgs Htemp Hmax) as Hbody.
  unfold OpenAIProvider.StreamChat, OpenAIProvider.StreamChat_body,
    OpenAIProvider.StreamChat_request.
  by rewrite Hbody.
Qed.

End request.

Lemma StreamChat_ignores_SystemPrompt_witness :
  let p := OpenAIProvider.mk "sk-test" "https://api.openai.com/v1" "gpt-4o-mini"
             doubles.unreachable in
  let history := [Message.mk "user" "Hello"] in
  let req1 := ChatRequest.mk "gpt-4o-mini" history 0.5 800 "" in
  let req2 := ChatRequest.mk "gpt-4o-mini" history 0.5 800 "Answer in French." in
  ChatRequest.Model req1 = ChatRequest.Model req2
  /\ ChatRequest.Messages req1 = ChatRequest.Messages req2
  /\ ChatRequest.Temperature req1 = ChatRequest.Temperature req2
  /\ ChatRequest.MaxTokens req1 = ChatRequest.MaxTokens req2
  /\ ChatRequest.SystemPrompt req1 <> ChatRequest.SystemPrompt req2
  /\ @json_Marshal doubles.lib (OpenAIProvider.requestBody p req1)
     = @json_Marshal doubles.lib (OpenAIProvider.requestBody p req2).
Proof.
  intros p history req1 req2.
  repeat (split; [first [reflexivity | discriminate]|]).
  exact (proj1 (@StreamChat_ignores_SystemPrompt doubles.lib p Background req1 req2
                  eq_refl eq_refl eq_refl eq_refl)).
Defined.

(** ** The OpenAI provider: reading the response stream *)

Lemma cut_no_LF (s : string) : no_LF s = true -> cut LF s = None.
Proof.
  induction s as [|a s IH]; simpl; [done|].
  intros [Ha Hs]%andb_true_iff. apply negb_true_iff in Ha. rewrite Ha.
  by rewrite (IH Hs).
Qed.

Lemma cut_line (l rest : string) :
  no_LF l = true ->
  cut LF (l +:+ String LF rest) = Some (l +:+ String LF EmptyString, rest).
Proof.
  induction l as [|a l IH]; simpl.
  - intros _. reflexivity.
  - intros [Ha Hl]%andb_true_iff. apply negb_true_iff in Ha. rewrite Ha.
    by rewrite (IH Hl).
Qed.

Lemma cut_shorter (delim : Ascii.ascii) (s line rest : string) :
  cut delim s = Some (line, rest) -> String.length rest < String.length s.
Proof.
  revert line rest. induction s as [|a s IH]; simpl; [done|].
  intros line rest. destruct (Ascii.eqb a delim).
  - intros [= _ <-]. lia.
  - destruct (cut delim s) as [[line' rest']|] eqn:Hcut; [|done].
    intros [= _ <-]. specialize (IH _ _ eq_refl). lia.
Qed.

Lemma append_cons (x : Ascii.ascii) (a b : string) :
  String x a +:+ b = String x (a +:+ b).
Proof. reflexivity. Qed.

Lemma append_assoc (a b c : string) : (a +:+ b) +:+ c = a +:+ (b +:+ c).
Proof.
  induction a as [|x a IH]; [reflexivity|].
  by rewrite !append_cons, IH.
Qed.

Lemma length_append (a b : string) :
  String.length (a +:+ b) = String.length a + String.length b.
Proof.
  induction a as [|x a IH]; [reflexivity|].
  rewrite append_cons. simpl. by rewrite IH.
Qed.

Lemma substring_all (s : string) : String.substring 0 (String.length s) s = s.
Proof. induction s as [|a s IH]; simpl; [done|]. by rewrite IH. Qed.

Lemma length_unlines (ls : list string) : length ls <= String.length (unlines ls).
Proof.
  induction ls as [|l ls IH]; simpl; [lia|].
  rewrite length_append. simpl. lia.
Qed.

Lemma data_prefix_cons (json : string) :
  "data: " +:+ json
  = String (byte 100) (String (byte 97) (String (byte 116) (String (byte 97)
      (String (byte 58) (String (byte 32) json))))).
Proof. reflexivity. Qed.

Section stream.
Context `{GoLib}.

(** With enough fuel the loop always comes to an end. *)
Lemma stream_loop_total (fuel : nat) (ctx : Context) (r : bufio.Reader) :
  String.length (bufio.unread r) < fuel ->
  exists ops, OpenAIProvider.stream_loop fuel ctx r = Some ops.
Proof.
  revert ctx r. induction fuel as [|fuel IH]; intros ctx r Hlen; [lia|].
  simpl. destruct (poll_Done ctx) as [[] ctx1]; [by eexists|].
  unfold bufio.ReadString.
  destruct (cut LF (bufio.unread r)) as [[line rest]|] eqn:Hcut.
  - apply cut_shorter in Hcut.
    assert (String.length (bufio.unread (bufio.mkReader rest (bufio.ending r))) < fuel)
      as Hrest by (simpl; lia).
    destruct (OpenAIProvider.frame_text line) as [text|].
    + destruct (poll_Done ctx1) as [[] ctx2]; [by eexists|].
      destruct (IH ctx2 _ Hrest) as [ops ->]. by eexists.
    + apply IH, Hrest.
  - destruct (is_EOF (bufio.ending r)); by eexists.
Qed.

(** [StreamChat] always closes both channels, the error channel first. *)
Lemma StreamChat_closes (p : OpenAIProvider.t) (ctx : Context) (req : ChatRequest.t) :
  exists ops, OpenAIProvider.StreamChat p ctx req = ops ++ [CloseErr; CloseText].
Proof.
  unfold OpenAIProvider.StreamChat, OpenAIProvider.StreamChat_body.
  destruct (OpenAIProvider.StreamChat_request p ctx req) as [httpReq|err];
    [|by eexists].
  destruct (OpenAIProvider.client p httpReq) as [resp|err]; [|by eexists].
  destruct (negb (http.StatusCode resp =? 200)%Z); [by eexists|].
  destruct (stream_loop_total (OpenAIProvider.stream_fuel (http.body resp)) ctx
              (bufio.NewReader (http.body resp))) as [ops ->]; [|by eexists].
  unfold OpenAIProvider.stream_fuel. simpl. lia.
Qed.

(** The loop on a body made of whole lines followed by an unfinished one:
    every line is looked at once, in order; what follows the last line feed
    is dropped; a read error other than [io.EOF] is sent last. *)
Lemma stream_loop_unlines (ls : list string) (rest : string) (ending : error)
    (fuel : nat) :
  Forall (fun l => no_LF l = true) ls ->
  no_LF rest = true ->
  length ls < fuel ->
  OpenAIProvider.stream_loop fuel Background (bufio.mkReader (unlines ls +:+ rest) ending)
  = Some (map SendText
            (omap (fun l => OpenAIProvider.frame_text (l +:+ String LF EmptyString)) ls)
          ++ (if is_EOF ending then [] else [SendErr ending])).
Proof.
  intros Hls Hrest. revert fuel.
  induction Hls as [|l ls Hl Hls IH]; intros fuel Hfuel.
  - destruct fuel as [|fuel]; [simpl in Hfuel; lia|].
    change (unlines [] +:+ rest) with rest.
    cbn [OpenAIProvider.stream_loop poll_Done].
    unfold bufio.ReadString. cbn [bufio.unread bufio.ending].
    rewrite (cut_no_LF _ Hrest).
    by destruct (is_EOF ending).
  - destruct fuel as [|fuel]; [simpl in Hfuel; lia|].
    simpl in Hfuel.
    change (unlines (l :: ls)) with (l +:+ String LF (unlines ls)).
    rewrite append_assoc, append_cons.
    cbn [OpenAIProvider.stream_loop poll_Done].
    unfold bufio.ReadString. cbn [bufio.unread bufio.ending].
    rewrite (cut_line _ _ Hl). cbn [omap list_omap].
    fold (omap (fun l => OpenAIProvider.frame_text (l +:+ String LF EmptyString)) ls).
    destruct (OpenAIProvider.frame_text (l +:+ String LF EmptyString)) as [text|].
    + rewrite IH by lia. reflexivity.
    + apply IH. lia.
Qed.

Lemma frame_text_noise (l : string) :
  noise l = true -> OpenAIProvider.frame_text (l +:+ String LF EmptyString) = None.
Proof.
  unfold noise, OpenAIProvider.frame_text. cbv zeta.
  destruct (String.eqb _ ""); [done|].
  destruct (String.eqb _ "data: [DONE]"); [done|]. simpl.
  by intros ->.
Qed.

Lemma omap_frame_text_noise (ls : list string) :
  Forall (fun l => noise l = true) ls ->
  omap (fun l => OpenAIProvider.frame_text (l +:+ String LF EmptyString)) ls = [].
Proof.
  induction 1 as [|l ls Hl _ IH]; [done|].
  cbn [omap list_omap]. rewrite (frame_text_noise _ Hl). exact IH.
Qed.

Lemma frame_text_data (l json : string) :
  data_frame l json ->
  OpenAIProvider.frame_text (l +:+ String LF EmptyString)
  = match json_Unmarshal json with
    | Some chunk => Chunk.first_content chunk
    | None => None
    end.
Proof.
  intros [Hline Hdone]. unfold OpenAIProvider.frame_text. rewrite Hline. cbv zeta.
  assert (String.eqb ("data: " +:+ json) "data: [DONE]" = false) as ->.
  { apply String.eqb_neq. intros Heq. apply Hdone.
    by apply (inj (String.app "data: ")). }
  assert (HasPrefix ("data: " +:+ json) "data: " = true) as Hpre.
  { rewrite data_prefix_cons. by destruct json. }
  unfold TrimPrefix. rewrite Hpre. cbn [negb].
  assert (String.substring (String.length "data: ")
            (String.length ("data: " +:+ json) - String.length "data: ")
            ("data: " +:+ json) = json) as ->.
  { rewrite data_prefix_cons. simpl. rewrite Nat.sub_0_r. apply substring_all. }
  reflexivity.
Qed.

End stream.

Section skip.
Context `{GoLib}.

Lemma sends_frame (l json : string) (chunk : Chunk.t) :
  data_frame l json ->
  json_Unmarshal json = Some chunk ->
  map SendText (from_option (fun text => [text]) []
                  (OpenAIProvider.frame_text (l +:+ String LF EmptyString)))
  = sends chunk.
Proof.
  intros Hframe Hjson. rewrite (frame_text_data _ _ Hframe), Hjson.
  unfold sends. by destruct (Chunk.first_content chunk).
Qed.

Lemma omap_cons_frame (l : string) (ls : list string) :
  omap (fun l => OpenAIProvider.frame_text (l +:+ String LF EmptyString)) (l :: ls)
  = from_option (fun text => [text]) []
      (OpenAIProvider.frame_text (l +:+ String LF EmptyString))
    ++ omap (fun l => OpenAIProvider.frame_text (l +:+ String LF EmptyString)) ls.
Proof.
  cbn [omap list_omap].
  by destruct (OpenAIProvider.frame_text (l +:+ String LF EmptyString)).
Qed.

(** C4.  Let the response to the request of [StreamChat] have status 200
    and a body that ends regularly and consists of a well-formed data
    frame, a data frame whose JSON does not decode, and a second
    well-formed data frame, in this order, with any number of blank lines,
    [data: [DONE]] lines and lines without the [data: ] prefix before,
    between and after them (and possibly some bytes after the last line
    feed).  Then the goroutine sends on the text channel exactly the
    content delta of the first frame and then that of the second (nothing
    for a frame whose delta is absent or empty), sends nothing on the error
    channel, and closes both channels. *)
Theorem StreamChat_skips_malformed_frame (p : OpenAIProvider.t) (req : ChatRequest.t)
    (httpReq : http.Request) (resp : http.Response)
    (noise0 noise1 noise2 noise3 : list string) (good1 bad good2 rest : string)
    (json1 json_bad json2 : string) (chunk1 chunk2 : Chunk.t) :
  let lines := noise0 ++ good1 :: noise1 ++ bad :: noise2 ++ good2 :: noise3 in
  OpenAIProvider.StreamChat_request p Background req = inl httpReq ->
  OpenAIProvider.client p httpReq = inl resp ->
  http.StatusCode resp = 200%Z ->
  http.body resp = http.mkBody (unlines lines +:+ rest) EOF ->
  Forall (fun l => no_LF l = true) lines ->
  no_LF rest = true ->
  Forall (fun l => noise l = true) (noise0 ++ noise1 ++ noise2 ++ noise3) ->
  data_frame good1 json1 -> json_Unmarshal json1 = Some chunk1 ->
  data_frame bad json_bad -> json_Unmarshal json_bad = None ->
  data_frame good2 json2 -> json_Unmarshal json2 = Some chunk2 ->
  OpenAIProvider.StreamChat p Background req
  = sends chunk1 ++ sends chunk2 ++ [CloseErr; CloseText].
Proof.
  intros lines Hreq Hdo Hstatus Hbody Hlines Hrest Hnoise
    Hgood1 Hjson1 Hbad Hjson_bad Hgood2 Hjson2.
  apply Forall_app in Hnoise as [Hn0 Hnoise].
  apply Forall_app in Hnoise as [Hn1 Hnoise].
  apply Forall_app in Hnoise as [Hn2 Hn3].
  unfold OpenAIProvider.StreamChat, OpenAIProvider.StreamChat_body.
  rewrite Hreq, Hdo, Hstatus. cbn [Z.eqb Pos.eqb negb].
  unfold OpenAIProvider.stream_fuel, bufio.NewReader. rewrite Hbody.
  cbn [http.data http.ending].
  rewrite (stream_loop_unlines lines rest EOF _ Hlines Hrest).
  2:{ rewrite length_append. pose proof (length_unlines lines). lia. }
  cbn [is_EOF]. rewrite app_nil_r. unfold lines.
  rewrite omap_app, omap_cons_frame, omap_app, omap_cons_frame, omap_app,
    omap_cons_frame.
  rewrite !omap_frame_text_noise by assumption.
  rewrite (frame_text_data _ _ Hbad), Hjson_bad.
  cbn [from_option app]. rewrite app_nil_r, map_app.
  rewrite (sends_frame _ _ _ Hgood1 Hjson1), (sends_frame _ _ _ Hgood2 Hjson2).
  by rewrite <- app_assoc.
Qed.

End skip.

Lemma StreamChat_skips_malformed_frame_witness :
  let good1 := doubles.frame "Hi" in
  let bad := "data: {oops" in
  let good2 := doubles.frame " there" in
  let body := http.mkBody (unlines [good1; ""; bad; ""; good2; ""; "data: [DONE]"; ""]) EOF in
  let p := OpenAIProvider.mk "sk-test" "https://api.openai.com/v1" "gpt-4o-mini"
             (doubles.server 200 body) in
  let req := ChatRequest.mk "gpt-4o-mini" [Message.mk "user" "Hello"] 0.5 800 "" in
  doubles.json_Unmarshal "{oops" = None
  /\ @OpenAIProvider.StreamChat doubles.lib p Background req
     = [SendText "Hi"; SendText " there"; CloseErr; CloseText].
Proof.
  intros good1 bad good2 body p req. split; [reflexivity|].
  refine (@StreamChat_skips_malformed_frame doubles.lib p req _
            (http.mkResponse 200 body) [] [""] [""] [""; "data: [DONE]"; ""]
            good1 bad good2 ""
            (doubles.frame_open +:+ "Hi" +:+ doubles.frame_close) "{oops"
            (doubles.frame_open +:+ " there" +:+ doubles.frame_close)
            (Chunk.mk [Chunk.mkChoice (Chunk.mkDelta "Hi")])
            (Chunk.mk [Chunk.mkChoice (Chunk.mkDelta " there")])
            eq_refl eq_refl eq_refl eq_refl _ eq_refl _ _ eq_refl _ eq_refl _ eq_refl).
  - repeat constructor.
  - repeat constructor.
  - split; [reflexivity | discriminate].
  - split; [reflexivity | discriminate].
  - split; [reflexivity | discriminate].
Defined.

(** ** The conversation loop: traces *)

Lemma calls_app (a b : list Effect) : calls (a ++ b) = calls a ++ calls b.
Proof. apply List.filter_app. Qed.

Lemma stream_calls_app (a b : list Effect) :
  stream_calls (a ++ b) = stream_calls a ++ stream_calls b.
Proof. apply omap_app. Qed.

(** The inner loop only appends to the trace, and what it appends are
    prints. *)
Lemma select_loop_trace (events : list SelectEvent) (acc : string) (tr : list Effect) :
  exists added,
    (select_loop events acc tr).2 = tr ++ added
    /\ calls added = []
    /\ stream_calls added = [].
Proof.
  revert acc tr. induction events as [|ev events IH]; intros acc tr; simpl.
  - exists []. by rewrite app_nil_r.
  - destruct ev as [text| |[err|]|].
    + destruct (IH (acc +:+ text) (tr ++ [Print text])) as (added & -> & Hc & Hs).
      exists (Print text :: added). by rewrite <- app_assoc.
    + exists []. by rewrite app_nil_r.
    + by eexists [_].
    + apply IH.
    + exists []. by rewrite app_nil_r.
Qed.

Ltac calls_norm :=
  cbn [cmd.effects cmd.exit cmd.trace];
  rewrite ?calls_app; cbn [calls List.filter is_call];
  rewrite ?app_nil_r, <- ?app_assoc; try reflexivity.

Section conversation_traces.
Context `{GoLib}.
Variable sched : Z -> list ChanOp -> list SelectEvent.
Variables (agentA agentB : Provider) (tempA tempB : float64) (maxRounds : Z).
Variable ctx : Context.

Local Abbreviation round_body := (cmd.round_body sched agentA agentB tempA tempB maxRounds ctx).
Local Abbreviation rounds := (cmd.rounds sched agentA agentB tempA tempB maxRounds ctx).
Local Abbreviation round_request := (cmd.round_request agentB tempA tempB).
Local Abbreviation round_prelude := (cmd.round_prelude agentB tempA tempB maxRounds).

(** A round makes exactly one provider call, the [StreamChat] of its
    request on the current agent. *)
Lemma round_body_calls (round : Z) (st : cmd.Loop) :
  let call := CallStreamChat (self (cmd.currentAgent st)) (round_request st) in
  match round_body round st with
  | cmd.Continue st' => calls (cmd.trace st') = calls (cmd.trace st) ++ [call]
  | cmd.Leave fin => calls (cmd.effects fin) = calls (cmd.trace st) ++ [call]
  end.
Proof.
  intros call. unfold cmd.round_body.
  destruct (select_loop_trace
              (sched round (StreamChat (cmd.currentAgent st) ctx (round_request st)))
              "" (cmd.trace st ++ round_prelude round st)) as (added & Htr & Hc & _).
  destruct (select_loop _ _ _) as [[res full] tr]. simpl in Htr. subst tr.
  assert (calls ((cmd.trace st ++ round_prelude round st) ++ added)
          = calls (cmd.trace st) ++ [call]) as Hcalls.
  { rewrite !calls_app, Hc, app_nil_r. reflexivity. }
  destruct res.
  - destruct (same_instance _ _); cbn [cmd.trace];
      rewrite 2!calls_app, Hcalls; cbn [calls List.filter is_call];
      by rewrite !app_nil_r.
  - exact Hcalls.
  - exact Hcalls.
Qed.

(** The loop makes no provider call but [StreamChat]. *)
Lemma rounds_calls (fuel : nat) (round : Z) (st : cmd.Loop) :
  exists reqs : list (nat * ChatRequest.t),
    calls (cmd.effects (rounds fuel round st))
    = calls (cmd.trace st) ++ map (fun cr => CallStreamChat cr.1 cr.2) reqs.
Proof.
  revert round st. induction fuel as [|fuel IH]; intros round st; simpl.
  - exists []. by rewrite app_nil_r.
  - destruct (round <=? maxRounds)%Z.
    + pose proof (round_body_calls round st) as Hbody. cbv zeta in Hbody.
      destruct (round_body round st) as [st'|fin].
      * destruct (IH (int_succ round) st') as [reqs ->]. rewrite Hbody.
        exists ((self (cmd.currentAgent st), round_request st) :: reqs).
        by rewrite <- app_assoc.
      * rewrite Hbody.
        by exists [(self (cmd.currentAgent st), round_request st)].
    + exists []. simpl. by rewrite calls_app, !app_nil_r.
Qed.

(** C6.  In every run the provider calls made from the health checks on
    are, in order: the health check of agent A; if it fails, nothing more,
    and the run returns that error wrapped as "Agent A health check
    failed: ..."; otherwise the health check of agent B; if that fails,
    nothing more, and the run returns that error wrapped as "Agent B health
    check failed: ..."; and only when both have succeeded, [StreamChat]
    calls.  So no [StreamChat] call on either agent precedes the success of
    both health checks. *)
Theorem health_checks_gate_streaming (fuel : nat) (starter providerA providerB : string)
    (tr : list Effect) :
  let fin := cmd.converse sched agentA agentB tempA tempB maxRounds ctx fuel starter
               providerA providerB tr in
  match Health agentA ctx, Health agentB ctx with
  | Some err, _ =>
      cmd.exit fin = cmd.Returned (Some (Wrapf "Agent A health check failed: " err))
      /\ calls (cmd.effects fin) = calls tr ++ [CallHealth (self agentA)]
  | None, Some err =>
      cmd.exit fin = cmd.Returned (Some (Wrapf "Agent B health check failed: " err))
      /\ calls (cmd.effects fin)
         = calls tr ++ [CallHealth (self agentA); CallHealth (self agentB)]
  | None, None =>
      exists reqs : list (nat * ChatRequest.t),
        calls (cmd.effects fin)
        = calls tr ++ [CallHealth (self agentA); CallHealth (self agentB)]
          ++ map (fun cr => CallStreamChat cr.1 cr.2) reqs
  end.
Proof.
  intros fin. subst fin. unfold cmd.converse.
  destruct (Health agentA ctx) as [errA|].
  - split; [reflexivity|]. calls_norm.
  - destruct (Health agentB ctx) as [errB|].
    + split; [reflexivity|]. calls_norm.
    + match goal with |- context [rounds fuel 1%Z ?st] =>
        destruct (rounds_calls fuel 1 st) as [reqs ->] end.
      exists reqs. calls_norm.
Qed.

Lemma select_loop_progress (pre rest : list SelectEvent) (acc : string)
    (tr : list Effect) :
  forallb progress pre = true ->
  select_loop (pre ++ rest) acc tr
  = select_loop rest (fold_left String.append (texts pre) acc)
      (tr ++ map Print (texts pre)).
Proof.
  revert acc tr. induction pre as [|ev pre IH]; intros acc tr Hpre.
  - simpl. by rewrite app_nil_r.
  - simpl in Hpre. apply andb_true_iff in Hpre as [Hev Hpre].
    destruct ev as [text| |[err|]|]; try discriminate.
    + cbn [app select_loop]. rewrite (IH _ _ Hpre).
      change (texts (RecvText text :: pre)) with (text :: texts pre).
      cbn [fold_left map]. by rewrite <- app_assoc.
    + cbn [app select_loop]. apply (IH _ _ Hpre).
Qed.

(** What the loop does with a failure it observes.  Take any round of the
    loop, in any state, in which, after some texts (and possibly nil values
    from the error channel), the select yields an error from the error
    channel ([ErrContextCancelled] when the provider noticed a
    cancellation) or the 30-second timer.  Then the run returns that error
    (the error "stream timeout" for the timer); the history is the one the
    round started with followed by the round's user message, with no
    assistant message for the round; and the trace still holds, after what
    the round printed first, every text received, in order. *)
Theorem failed_round_aborts (fuel : nat) (round : Z) (st : cmd.Loop)
    (pre post : list SelectEvent) (ev : SelectEvent) (err : error) :
  (round <= maxRounds)%Z ->
  sched round (StreamChat (cmd.currentAgent st) ctx (round_request st))
  = pre ++ ev :: post ->
  forallb progress pre = true ->
  ev = RecvErr (Some err) \/ (ev = After30s /\ err = Errorf "stream timeout") ->
  let fin := rounds (S fuel) round st in
  cmd.exit fin = cmd.Returned (Some err)
  /\ cmd.history fin = cmd.messages st ++ [Message.mk "user" (cmd.currentText st)]
  /\ cmd.effects fin
     = cmd.trace st ++ round_prelude round st ++ map Print (texts pre)
       ++ match ev with
          | RecvErr _ => [PrintError ("Stream error: " +:+ Error err)]
          | _ => []
          end.
Proof.
  intros Hround Hsched Hpre Hev fin. subst fin.
  cbn [cmd.rounds]. apply Z.leb_le in Hround. rewrite Hround.
  unfold cmd.round_body. rewrite Hsched, (select_loop_progress _ _ _ _ Hpre).
  destruct Hev as [->|[-> ->]]; cbn [select_loop cmd.exit cmd.history cmd.effects].
  - repeat split. by rewrite <- !app_assoc.
  - repeat split. by rewrite <- !app_assoc, app_nil_r.
Qed.

End conversation_traces.

Lemma failed_round_aborts_witness :
  let ops := [SendText "Hi"; SendErr ErrContextCancelled; CloseErr; CloseText] in
  let agentA := doubles.mock 0 None ops in
  let agentB := doubles.mock 1 None ops in
  let sched := fun (_ : Z) => doubles.eager in
  let st := cmd.mkLoop [] "Hello" agentA "Agent A" ui.Green [] in
  let fin := @cmd.rounds doubles.lib sched agentA agentB 0.5 0.25 2 Background 3 1 st in
  (1 <= 2)%Z
  /\ sched 1%Z ops = [RecvText "Hi"] ++ RecvErr (Some ErrContextCancelled) :: [TextClosed]
  /\ cmd.exit fin = cmd.Returned (Some ErrContextCancelled)
  /\ cmd.history fin = [Message.mk "user" "Hello"].
Proof.
  intros ops agentA agentB sched st fin.
  split; [lia|]. split; [reflexivity|].
  pose proof (@failed_round_aborts doubles.lib sched agentA agentB 0.5 0.25 2 Background
                2 1 st [RecvText "Hi"] [TextClosed] (RecvErr (Some ErrContextCancelled))
                ErrContextCancelled ltac:(lia) eq_refl eq_refl (or_introl eq_refl))
    as (Hexit & Hhistory & _).
  exact (conj Hexit Hhistory).
Defined.

(** ** The conversation loop: a failure the select does not observe *)

(** A goroutine that sends the texts [ts], then an error, and then closes
    both channels.  The error goes into the buffer of the error channel
    without waiting for the loop, and the closes follow at once; a loop that
    comes back to its select after that finds the error channel and the
    closed text channel both ready, and may take the text channel. *)
Lemma trailing_error_may_be_missed (ts : list string) (err : error) (c : Chans) :
  pending c = map SendText ts ++ [SendErr err; CloseErr; CloseText] ->
  errBuf c = None ->
  errClosed c = false ->
  textClosed c = false ->
  delivers c (map RecvText ts ++ [TextClosed]).
Proof.
  revert c. induction ts as [|text ts IH]; intros c Hpend Hbuf Herr Htext.
  - eapply delivers_send_err; [exact Hpend|exact Hbuf|exact Herr|].
    eapply delivers_close_err; [reflexivity..|].
    eapply delivers_close_text; [reflexivity|exact Htext|].
    apply delivers_text_closed; [reflexivity|]. apply delivers_stop.
  - cbn [map app]. eapply delivers_text; [exact Hpend|]. by apply IH.
Qed.

(** C5.  The claim fails on the code.  The network answers the health checks
    and the chat request with status 200; the chat body holds one frame, with
    the text "Hi", and then the read fails with an error that is not
    [io.EOF].  The goroutine sends "Hi", sends the error and closes both
    channels.  When the select receives the error, the run returns it and no
    assistant message is appended, as the claim says.  The select may as
    well find the text channel closed first: the round then completes, the
    partial reply "Hi" is appended as an assistant message, no error is
    reported, and the run returns [nil] after "Conversation completed!". *)
Theorem stream_error_lost_when_text_closes_first :
  let failure := Foreign "unexpected EOF" in
  let body := http.mkBody (unlines [doubles.frame "Hi"]) failure in
  let net := doubles.server 200 body in
  let getenv := fun key : string => if String.eqb key "OPENAI_API_KEY" then "sk-test" else "" in
  let f := cmd.mkFlags "openai" "openai" "" "" 0.5 0.25 "Hello" 1 in
  let p := OpenAIProvider.mk "sk-test" "https://api.openai.com/v1" "gpt-4o-mini" net in
  let req := ChatRequest.mk "gpt-4o-mini" [Message.mk "user" "Hello"] 0.5 800 "" in
  let ops := @OpenAIProvider.StreamChat doubles.lib p Background req in
  let observed := [RecvText "Hi"; RecvErr (Some failure)] in
  let missed := [RecvText "Hi"; TextClosed] in
  let run := fun events =>
    @cmd.runStart doubles.lib (fun _ _ => events) 2 getenv f
      (providerFactories (@initial_globals doubles.lib net)) 0 in
  ops = [SendText "Hi"; SendErr failure; CloseErr; CloseText]
  /\ stream_calls (cmd.effects (run missed)) = [(0, req)]
  /\ (delivers (open_chans ops) observed
      /\ cmd.exit (run observed) = cmd.Returned (Some failure)
      /\ cmd.history (run observed) = [Message.mk "user" "Hello"])
  /\ (delivers (open_chans ops) missed
      /\ cmd.exit (run missed) = cmd.Returned None
      /\ cmd.history (run missed)
         = [Message.mk "user" "Hello"; Message.mk "assistant" "Hi"]
      /\ last (cmd.effects (run missed))
         = Some (PrintSuccess "Conversation completed! 1 rounds")).
Proof.
  intros failure body net getenv f p req ops observed missed run.
  assert (ops = [SendText "Hi"; SendErr failure; CloseErr; CloseText]) as Hops
    by (vm_compute; reflexivity).
  split; [exact Hops|]. split; [vm_compute; reflexivity|]. split.
  - split; [|split; vm_compute; reflexivity]. rewrite Hops.
    eapply delivers_text; [reflexivity|].
    eapply delivers_send_err; [reflexivity..|].
    eapply delivers_err; [reflexivity|]. apply delivers_stop.
  - split; [|repeat split; vm_compute; reflexivity]. rewrite Hops.
    by apply (trailing_error_may_be_missed ["Hi"] failure).
Qed.

(** ** The conversation loop: requests *)

Lemma prefix_take {A : Type} (l k : list A) : l `prefix_of` k -> take (length l) k = l.
Proof. intros [m ->]. by rewrite take_app_length. Qed.

Ltac stream_calls_norm :=
  cbn [cmd.effects cmd.exit cmd.trace cmd.history cmd.messages];
  rewrite ?stream_calls_app; cbn [stream_calls omap list_omap];
  rewrite ?app_nil_r, <- ?app_assoc; try reflexivity.

Section distinct_agents.
Context `{GoLib}.
Variable sched : Z -> list ChanOp -> list SelectEvent.
Variables (agentA agentB : Provider) (tempA tempB : float64) (maxRounds : Z).
Variable ctx : Context.

(** The two agents are two provider instances. *)
Hypothesis distinct : self agentA <> self agentB.

Local Abbreviation round_body := (cmd.round_body sched agentA agentB tempA tempB maxRounds ctx).
Local Abbreviation rounds := (cmd.rounds sched agentA agentB tempA tempB maxRounds ctx).
Local Abbreviation round_request := (cmd.round_request agentB tempA tempB).
Local Abbreviation round_prelude := (cmd.round_prelude agentB tempA tempB maxRounds).
Local Abbreviation speaker := (fun b : bool => if b then agentA else agentB).
Local Abbreviation temp := (fun b : bool => if b then tempA else tempB).

(** The request of a round in which [speaker b] is the current agent. *)
Local Abbreviation request_of := (fun (b : bool) (history : list Message.t) =>
  ChatRequest.mk (DefaultModel (speaker b)) history (temp b) 800 "").

Lemma same_instance_AB : same_instance agentA agentB = false.
Proof. unfold same_instance. by apply Nat.eqb_neq. Qed.

Lemma same_instance_BA : same_instance agentB agentA = false.
Proof. unfold same_instance. apply Nat.eqb_neq. congruence. Qed.

Lemma same_instance_refl (a : Provider) : same_instance a a = true.
Proof. unfold same_instance. apply Nat.eqb_refl. Qed.

Lemma round_request_speaker (st : cmd.Loop) (b : bool) :
  cmd.currentAgent st = speaker b ->
  round_request st
  = request_of b (cmd.messages st ++ [Message.mk "user" (cmd.currentText st)]).
Proof.
  intros Hcur. unfold cmd.round_request. rewrite Hcur.
  destruct b; by rewrite ?same_instance_AB, ?same_instance_refl.
Qed.

(** One round: the current agent is called once, with its own temperature
    and the history so far; after a clean close the other agent is the
    current one and the history has grown by the user message and the
    reply. *)
Lemma round_body_speaker (round : Z) (st : cmd.Loop) (b : bool) :
  cmd.currentAgent st = speaker b ->
  let asked := cmd.messages st ++ [Message.mk "user" (cmd.currentText st)] in
  match round_body round st with
  | cmd.Continue st' =>
      cmd.currentAgent st' = speaker (negb b)
      /\ (exists reply, cmd.messages st' = asked ++ [Message.mk "assistant" reply])
      /\ stream_calls (cmd.trace st')
         = stream_calls (cmd.trace st) ++ [(self (speaker b), request_of b asked)]
  | cmd.Leave fin =>
      cmd.history fin = asked
      /\ stream_calls (cmd.effects fin)
         = stream_calls (cmd.trace st) ++ [(self (speaker b), request_of b asked)]
  end.
Proof.
  intros Hcur asked. unfold cmd.round_body.
  destruct (select_loop_trace
              (sched round (StreamChat (cmd.currentAgent st) ctx (round_request st)))
              "" (cmd.trace st ++ round_prelude round st)) as (added & Htr & _ & Hs).
  destruct (select_loop _ _ _) as [[res full] tr]. simpl in Htr. subst tr.
  assert (stream_calls ((cmd.trace st ++ round_prelude round st) ++ added)
          = stream_calls (cmd.trace st) ++ [(self (speaker b), request_of b asked)])
    as Hcalls.
  { rewrite !stream_calls_app, Hs, app_nil_r. unfold cmd.round_prelude.
    cbn [stream_calls omap list_omap].
    by rewrite (round_request_speaker st b Hcur), Hcur. }
  rewrite (round_request_speaker st b Hcur). cbn [ChatRequest.Messages].
  destruct res.
  - rewrite Hcur.
    destruct b; rewrite ?same_instance_refl, ?same_instance_BA;
      (split; [reflexivity|]); (split; [by eexists|]);
      cbn [cmd.trace]; rewrite 2!stream_calls_app, Hcalls;
      cbn [stream_calls omap list_omap]; by rewrite !app_nil_r.
  - by split.
  - by split.
Qed.

(** The requests of a run of the loop from a state in which [speaker b] is
    the current agent: the [j]-th call from there goes to the agents in
    turn, each time with the callee's temperature, the ceiling 800 and the
    whole history as it then is. *)
Lemma rounds_requests (fuel : nat) (round : Z) (st : cmd.Loop) (b : bool) :
  cmd.currentAgent st = speaker b ->
  let fin := rounds fuel round st in
  cmd.messages st `prefix_of` cmd.history fin
  /\ exists reqs,
       stream_calls (cmd.effects fin) = stream_calls (cmd.trace st) ++ reqs
       /\ forall j callee req,
            reqs !! j = Some (callee, req) ->
            callee = self (speaker (xorb b (Nat.odd j)))
            /\ req = request_of (xorb b (Nat.odd j))
                       (take (length (cmd.messages st) + 2 * j + 1) (cmd.history fin)).
Proof.
  revert round st b. induction fuel as [|fuel IH]; intros round st b Hcur; cbn zeta.
  - split; [done|]. exists []. split; [by rewrite app_nil_r|]. by intros [].
  - cbn [cmd.rounds]. destruct (round <=? maxRounds)%Z.
    + pose proof (round_body_speaker round st b Hcur) as Hbody. cbv zeta in Hbody.
      destruct (round_body round st) as [st'|fin].
      * destruct Hbody as (Hcur' & [reply Hmsgs] & Hcalls).
        destruct (IH (int_succ round) st' (negb b) Hcur')
          as (Hprefix & reqs & Hreqs & Hall).
        assert ((cmd.messages st ++ [Message.mk "user" (cmd.currentText st)])
                  `prefix_of` cmd.history (rounds fuel (int_succ round) st'))
          as Hasked.
        { etrans; [|exact Hprefix]. rewrite Hmsgs. by apply prefix_app_r. }
        split.
        { etrans; [|exact Hasked]. by apply prefix_app_r. }
        eexists (_ :: reqs). split.
        { rewrite Hreqs, Hcalls, <- app_assoc. reflexivity. }
        intros [|j] callee req Hj.
        -- injection Hj as <- <-. rewrite Nat.add_0_r, xorb_false_r.
           split; [reflexivity|]. f_equal.
           apply prefix_take in Hasked. rewrite length_app in Hasked.
           simpl in Hasked. by rewrite Hasked.
        -- destruct (Hall j callee req Hj) as [-> ->].
           rewrite Hmsgs, !length_app. simpl length.
           rewrite Nat.odd_succ, <- Nat.negb_odd.
           replace (xorb (negb b) (Nat.odd j)) with (xorb b (negb (Nat.odd j)))
             by (by destruct b, (Nat.odd j)).
           split; [reflexivity|]. do 2 f_equal. lia.
      * destruct Hbody as [Hhist Hcalls]. split.
        { rewrite Hhist. by apply prefix_app_r. }
        eexists [_]. split; [exact Hcalls|].
        intros [|j] callee req Hj; [|by destruct j].
        injection Hj as <- <-. rewrite Nat.add_0_r, xorb_false_r.
        split; [reflexivity|]. f_equal. rewrite Hhist.
        rewrite <- (firstn_all (cmd.messages st ++ _)) at 1.
        by rewrite length_app.
    + split; [done|]. exists []. split; [stream_calls_norm|]. by intros [].
Qed.

End distinct_agents.

Section distinct_agents_run.
Context `{GoLib}.
Variable sched : Z -> list ChanOp -> list SelectEvent.
Variables (agentA agentB : Provider) (tempA tempB : float64) (maxRounds : Z).
Variable ctx : Context.
Hypothesis distinct : self agentA <> self agentB.

(** The requests of a whole conversation between two distinct instances:
    call [j] (counting from 0) is made in round [j + 1], on agent A when
    [j] is even and on agent B when it is odd. *)
Lemma converse_requests (fuel : nat) (starter providerA providerB : string)
    (tr : list Effect) (j callee : nat) (req : ChatRequest.t) :
  stream_calls tr = [] ->
  let fin := cmd.converse sched agentA agentB tempA tempB maxRounds ctx fuel starter
               providerA providerB tr in
  stream_calls (cmd.effects fin) !! j = Some (callee, req) ->
  callee = self (if Nat.even j then agentA else agentB)
  /\ req = ChatRequest.mk (DefaultModel (if Nat.even j then agentA else agentB))
             (take (2 * j + 1) (cmd.history fin))
             (if Nat.even j then tempA else tempB) 800 "".
Proof.
  intros Htr fin. subst fin. unfold cmd.converse.
  destruct (Health agentA ctx) as [errA|].
  { stream_calls_norm. by rewrite Htr. }
  destruct (Health agentB ctx) as [errB|].
  { stream_calls_norm. by rewrite Htr. }
  match goal with |- context [cmd.rounds _ _ _ _ _ _ _ fuel 1%Z ?st0] =>
    set (st := st0)
  end.
  assert (stream_calls (cmd.trace st) = []) as Hst.
  { subst st. stream_calls_norm. by rewrite Htr. }
  destruct (rounds_requests sched agentA agentB tempA tempB maxRounds ctx distinct
              fuel 1 st true eq_refl) as (_ & reqs & -> & Hall).
  rewrite Hst. cbn [app]. intros Hj.
  destruct (Hall j callee req Hj) as [-> ->].
  assert (xorb true (Nat.odd j) = Nat.even j) as ->
    by (rewrite <- Nat.negb_odd; by destruct (Nat.odd j)).
  split; reflexivity.
Qed.

End distinct_agents_run.

Section program_run.
Context `{GoLib}.
Variable sched : Z -> list ChanOp -> list SelectEvent.

Lemma session_configuration_calls (f : cmd.Flags) :
  stream_calls (cmd.session_configuration f) = [].
Proof.
  unfold cmd.session_configuration.
  by destruct (negb (String.eqb (cmd.modelA f) "")),
              (negb (String.eqb (cmd.modelB f) "")).
Qed.

(** With the program's own registry, a provider is built exactly for the
    key "openai", and it is a new instance at the next free address. *)
Lemma buildProvider_initial (net : http.Client) (cfg : config.Config)
    (provider apiKey model : string) (temp : float64) (next : nat) :
  (exists err,
     cmd.buildProvider (providerFactories (initial_globals net)) cfg provider apiKey
       model temp next = ((None, Some err), next))
  \/ (exists p,
        cmd.buildProvider (providerFactories (initial_globals net)) cfg provider apiKey
          model temp next = ((Some p, None), S next)
        /\ self p = next).
Proof.
  unfold cmd.buildProvider, NewProvider, GetProviderFactory.
  destruct (providerFactories (initial_globals net) !! provider) as [factory|] eqn:Hf.
  - destruct (initial_factories_lookup _ _ _ Hf) as [_ ->]. right.
    by eexists.
  - left. by eexists.
Qed.

(** C8.  In every run of the program, the [StreamChat] call of every round
    ([j] counts the calls from 0, so the call is that of round [j + 1])
    goes to the agent whose turn it is, agent A (the instance built first)
    in odd rounds and agent B (the instance built second) in even rounds,
    and its request carries that agent's own temperature, [tempA] for
    agent A and [tempB] for agent B, the whole history accumulated so far
    and [MaxTokens = 800]. *)
Theorem speaking_agent_temperature (net : http.Client) (fuel : nat)
    (getenv : string -> string) (f : cmd.Flags) (next : nat)
    (j callee : nat) (req : ChatRequest.t) :
  let fin := cmd.runStart sched fuel getenv f
               (providerFactories (initial_globals net)) next in
  stream_calls (cmd.effects fin) !! j = Some (callee, req) ->
  (if Nat.even j
   then callee = next /\ ChatRequest.Temperature req = cmd.tempA f
   else callee = S next /\ ChatRequest.Temperature req = cmd.tempB f)
  /\ ChatRequest.Messages req = take (2 * j + 1) (cmd.history fin)
  /\ ChatRequest.MaxTokens req = 800%Z.
Proof.
  intros fin. subst fin. unfold cmd.runStart, config.Load.
  destruct (config.Validate _) as [err|]; [done|].
  match goal with |- context [cmd.buildProvider ?fs ?cfg ?k ?key ?m ?t next] =>
    destruct (buildProvider_initial net cfg k key m t next)
      as [[err ->]|(agentA & -> & HA)]
  end.
  { stream_calls_norm. by rewrite session_configuration_calls. }
  match goal with |- context [cmd.buildProvider ?fs ?cfg ?k ?key ?m ?t (S next)] =>
    destruct (buildProvider_initial net cfg k key m t (S next))
      as [[err ->]|(agentB & -> & HB)]
  end.
  { stream_calls_norm. by rewrite session_configuration_calls. }
  intros Hj.
  apply converse_requests in Hj as [-> ->].
  - cbn [ChatRequest.Temperature ChatRequest.Messages ChatRequest.MaxTokens].
    split; [|by split]. destruct (Nat.even j); by split.
  - rewrite HA, HB. lia.
  - stream_calls_norm. by rewrite session_configuration_calls.
Qed.

End program_run.

Lemma speaking_agent_temperature_witness :
  let body := http.mkBody (unlines [doubles.frame "Hi"; ""; doubles.frame " there"; ""]) EOF in
  let net := doubles.server 200 body in
  let getenv := fun key : string => if String.eqb key "OPENAI_API_KEY" then "sk-test" else "" in
  let f := cmd.mkFlags "openai" "openai" "" "" 0.5 0.25 "Hello" 2 in
  let sched := fun (_ : Z) => doubles.eager in
  let fin := @cmd.runStart doubles.lib sched 3 getenv f
               (providerFactories (@initial_globals doubles.lib net)) 0 in
  let req := ChatRequest.mk "gpt-4o-mini"
               [Message.mk "user" "Hello"; Message.mk "assistant" "Hi there";
                Message.mk "user" "Hi there"] 0.25 800 "" in
  stream_calls (cmd.effects fin) !! 1 = Some (1, req)
  /\ 1 = 1
  /\ ChatRequest.Temperature req = cmd.tempB f.
Proof.
  intros body net getenv f sched fin req.
  assert (stream_calls (cmd.effects fin) !! 1 = Some (1, req)) as Hreq
    by (vm_compute; reflexivity).
  split; [exact Hreq|].
  exact (proj1 (@speaking_agent_temperature doubles.lib sched net 3 getenv f 0 1 1 req Hreq)).
Defined.

(** ** The conversation loop: a stream that closes cleanly *)

(** A goroutine that sends the texts [ts] and then only closes channels: if
    the timer never fires and the loop is served until it ends, it ends by
    [StreamDone] with the texts concatenated and printed in order, whatever
    the interleaving. *)
Lemma clean_stream_resolves (c : Chans) (events : list SelectEvent) :
  delivers c events ->
  forall (ts : list string) (cl : list ChanOp) (acc : string) (tr : list Effect),
    errBuf c = None ->
    pending c = map SendText ts ++ cl ->
    forallb is_close cl = true ->
    (textClosed c = true -> ts = []) ->
    After30s ∉ events ->
    settles events = true ->
    select_loop events acc tr
    = (StreamDone, fold_left String.append ts acc, tr ++ map Print ts).
Proof.
  induction 1 as [c|c text ops events Hpend _ IH|c events Hclosed _ _
                 |c err events Hbuf _ _|c events Hbuf Hclosed _ IH|c events _ _
                 |c err ops events Hpend Hbuf Hclosed _ _
                 |c ops events Hpend Hclosed _ IH|c ops events Hpend Hclosed _ IH];
    intros ts cl acc tr Hnone Hops Hcl Hinv Htimer Hsettles.
  - discriminate.
  - rewrite Hpend in Hops. destruct ts as [|t ts]; simpl in Hops.
    + subst cl. discriminate.
    + injection Hops as -> ->. cbn [select_loop].
      rewrite (IH ts cl (acc +:+ t) (tr ++ [Print t])); try done.
      * cbn [fold_left map]. by rewrite <- app_assoc.
      * intros Htc. by specialize (Hinv Htc).
      * by apply not_elem_of_cons in Htimer as [_ ?].
  - rewrite (Hinv Hclosed). simpl. by rewrite app_nil_r.
  - congruence.
  - cbn [select_loop]. apply (IH ts cl); try done.
    by apply not_elem_of_cons in Htimer as [_ ?].
  - exfalso. apply Htimer. by left.
  - rewrite Hpend in Hops. destruct ts as [|t ts]; simpl in Hops.
    + subst cl. discriminate.
    + discriminate.
  - rewrite Hpend in Hops. destruct ts as [|t ts]; simpl in Hops; [|discriminate].
    subst cl. simpl in Hcl. by apply (IH [] ops).
  - rewrite Hpend in Hops. destruct ts as [|t ts]; simpl in Hops; [|discriminate].
    subst cl. simpl in Hcl. by apply (IH [] ops).
Qed.

Section clean_rounds.
Context `{GoLib}.
Variable sched : Z -> list ChanOp -> list SelectEvent.
Variables (agentA agentB : Provider) (tempA tempB : float64) (maxRounds : Z).
Variable ctx : Context.

(** A round whose stream sends [ts] and closes cleanly appends the user
    message and then the reply, the texts concatenated, and hands over to
    one of the two agents with the reply as the next text. *)
Lemma round_body_clean (round : Z) (st : cmd.Loop) (ts : list string)
    (cl : list ChanOp) :
  let ops := StreamChat (cmd.currentAgent st) ctx
               (cmd.round_request agentB tempA tempB st) in
  ops = map SendText ts ++ cl ->
  forallb is_close cl = true ->
  delivers (open_chans ops) (sched round ops) ->
  After30s ∉ sched round ops ->
  settles (sched round ops) = true ->
  exists st',
    cmd.round_body sched agentA agentB tempA tempB maxRounds ctx round st
    = cmd.Continue st'
    /\ cmd.messages st'
       = cmd.messages st
         ++ [Message.mk "user" (cmd.currentText st);
             Message.mk "assistant" (fold_left String.append ts "")]
    /\ cmd.currentText st' = fold_left String.append ts ""
    /\ (cmd.currentAgent st' = agentA \/ cmd.currentAgent st' = agentB).
Proof.
  intros ops Hops Hcl Hdel Htimer Hsettles. unfold cmd.round_body. fold ops.
  rewrite (clean_stream_resolves _ _ Hdel ts cl) by done.
  destruct (same_instance _ _); eexists; (split; [reflexivity|]);
    cbn [cmd.messages cmd.currentText cmd.currentAgent ChatRequest.Messages
         cmd.round_request];
    rewrite <- app_assoc; auto.
Qed.

End clean_rounds.

(** C1.  Run the conversation (health checks and loop) with starter "Hello"
    and round limit 2, both agents being the mock provider whose health check
    succeeds and whose stream always sends "Hi", then " there", and then only
    closes its channels; the two agents may be one instance or two.  For
    every interleaving of the goroutine and the loop in which the timer never
    fires and the loop is served until it ends, the run returns [nil], the
    history is exactly [user "Hello"; assistant "Hi there"; user "Hi there";
    assistant "Hi there"], and the last thing printed is "Conversation
    completed! 2 rounds". *)
Theorem hello_two_rounds `{GoLib} (sched : Z -> list ChanOp -> list SelectEvent)
    (addrA addrB : nat) (closing : list ChanOp) (tempA tempB : float64) (fuel : nat)
    (providerA providerB : string) (tr : list Effect) :
  let ops := [SendText "Hi"; SendText " there"] ++ closing in
  let agentA := doubles.mock addrA None ops in
  let agentB := doubles.mock addrB None ops in
  forallb is_close closing = true ->
  (forall round,
     delivers (open_chans ops) (sched round ops)
     /\ (After30s ∉ sched round ops)
     /\ settles (sched round ops) = true) ->
  3 <= fuel ->
  let fin := cmd.converse sched agentA agentB tempA tempB 2 Background fuel "Hello"
               providerA providerB tr in
  cmd.exit fin = cmd.Returned None
  /\ cmd.history fin
     = [Message.mk "user" "Hello"; Message.mk "assistant" "Hi there";
        Message.mk "user" "Hi there"; Message.mk "assistant" "Hi there"]
  /\ last (cmd.effects fin) = Some (PrintSuccess "Conversation completed! 2 rounds").
Proof.
  intros ops agentA agentB Hclosing Hsched Hfuel fin. subst fin.
  destruct fuel as [|[|[|fuel]]]; [lia..|]. clear Hfuel.
  unfold cmd.converse. cbn [Health agentA agentB doubles.mock].
  match goal with |- context [cmd.rounds _ _ _ _ _ _ _ _ 1%Z ?st] => set (st0 := st) end.
  assert (forall st, cmd.currentAgent st = agentA \/ cmd.currentAgent st = agentB ->
                     StreamChat (cmd.currentAgent st) Background
                       (cmd.round_request agentB tempA tempB st)
                     = map SendText ["Hi"; " there"] ++ closing) as Hstream.
  { intros st [-> | ->]; reflexivity. }
  destruct (Hsched 1%Z) as (Hdel1 & Htimer1 & Hsettles1).
  destruct (Hsched 2%Z) as (Hdel2 & Htimer2 & Hsettles2).
  destruct (round_body_clean sched agentA agentB tempA tempB 2 Background 1 st0
              ["Hi"; " there"] closing) as (st1 & Hbody1 & Hmsgs1 & Htext1 & Hcur1);
    rewrite ?(Hstream st0 (or_introl eq_refl)); try done.
  destruct (round_body_clean sched agentA agentB tempA tempB 2 Background 2 st1
              ["Hi"; " there"] closing) as (st2 & Hbody2 & Hmsgs2 & Htext2 & Hcur2);
    rewrite ?(Hstream st1 Hcur1); try done.
  cbn [cmd.rounds]. change (1 <=? 2)%Z with true. cbv iota. rewrite Hbody1.
  change (int_succ 1) with 2%Z. change (2 <=? 2)%Z with true. cbv iota.
  rewrite Hbody2.
  change (int_succ 2) with 3%Z. change (3 <=? 2)%Z with false. cbv iota.
  cbn [cmd.exit cmd.history cmd.effects].
  split; [reflexivity|]. split.
  - rewrite Hmsgs2, Hmsgs1, Htext1. reflexivity.
  - apply last_snoc.
Qed.

Lemma hello_two_rounds_witness :
  let ops := [SendText "Hi"; SendText " there"] ++ [CloseErr; CloseText] in
  let sched := fun (_ : Z) => doubles.eager in
  let agent := doubles.mock 0 None ops in
  let fin := @cmd.converse doubles.lib sched agent agent 0.5 0.25 2 Background 3 "Hello"
               "mock" "mock" [] in
  forallb is_close [CloseErr; CloseText] = true
  /\ sched 1%Z ops = [RecvText "Hi"; RecvText " there"; TextClosed]
  /\ 3 <= 3
  /\ cmd.exit fin = cmd.Returned None
  /\ cmd.history fin
     = [Message.mk "user" "Hello"; Message.mk "assistant" "Hi there";
        Message.mk "user" "Hi there"; Message.mk "assistant" "Hi there"].
Proof.
  intros ops sched agent fin.
  split; [reflexivity|]. split; [reflexivity|]. split; [lia|].
  assert (forall round : Z,
            delivers (open_chans ops) (sched round ops)
            /\ (After30s ∉ sched round ops)
            /\ settles (sched round ops) = true) as Hsched.
  { intros round. split; [|split]; [| |reflexivity].
    - eapply delivers_text; [reflexivity|].
      eapply delivers_text; [reflexivity|].
      eapply delivers_close_err; [reflexivity..|].
      eapply delivers_close_text; [reflexivity..|].
      apply delivers_text_closed; [reflexivity|]. apply delivers_stop.
    - intros Hin. repeat (apply elem_of_cons in Hin as [Hin|Hin]; [discriminate|]).
      by apply elem_of_nil in Hin. }
  pose proof (@hello_two_rounds doubles.lib sched 0 0 [CloseErr; CloseText] 0.5 0.25 3
                "mock" "mock" [] eq_refl Hsched ltac:(lia)) as (Hexit & Hhistory & _).
  exact (conj Hexit Hhistory).
Defined.

(** ** Remarks on the command as a whole *)

Section remarks.
Context `{GoLib}.
Variable sched : Z -> list ChanOp -> list SelectEvent.

(** Until the health checks [runStart] calls no provider: it either returns
    early, having made no call, or goes on as [converse] does, from a trace
    without calls. *)
Lemma runStart_reaches_converse (fuel : nat) (getenv : string -> string) (f : cmd.Flags)
    (providerFactories : gmap string ProviderFactory) (next : nat) :
  let fin := cmd.runStart sched fuel getenv f providerFactories next in
  calls (cmd.effects fin) = []
  \/ exists agentA agentB tr,
       calls tr = []
       /\ fin = cmd.converse sched agentA agentB (cmd.tempA f) (cmd.tempB f)
                  (cmd.maxRounds f) Background fuel (cmd.starter f) (cmd.providerA f)
                  (cmd.providerB f) tr.
Proof.
  assert (calls (cmd.session_configuration f) = []) as Hconf.
  { unfold cmd.session_configuration.
    by destruct (negb (String.eqb (cmd.modelA f) "")),
                (negb (String.eqb (cmd.modelB f) "")). }
  intros fin. subst fin. unfold cmd.runStart, config.Load.
  destruct (config.Validate _) as [err|]; [by left|].
  destruct (cmd.buildProvider _ _ _ _ _ _ next) as [[[agentA|] [err|]] next1];
    try (left; calls_norm; by rewrite Hconf).
  destruct (cmd.buildProvider _ _ _ _ _ _ next1) as [[[agentB|] [err|]] next2];
    try (left; calls_norm; by rewrite Hconf).
  right. eexists agentA, agentB, _. split; [|reflexivity].
  calls_norm. by rewrite Hconf.
Qed.

(** The temperature of a request is chosen by comparing the current agent
    with agent B.  When both sides hold one and the same instance, the
    comparison succeeds in every round, and the first round, announced as
    agent A's, is asked with [tempB]. *)
Lemma shared_instance_temperature (agentA agentB : Provider) (tempA tempB : float64)
    (st : cmd.Loop) :
  self agentA = self agentB ->
  cmd.currentAgent st = agentA ->
  ChatRequest.Temperature (cmd.round_request agentB tempA tempB st) = tempB.
Proof.
  intros Hself Hcur. unfold cmd.round_request, same_instance.
  rewrite Hcur, Hself, Nat.eqb_refl. reflexivity.
Qed.

End remarks.

(** A goroutine that fails before it sends any text performs a send on the
    error channel and the two closes.  A loop that is already waiting
    receives the error.  A loop that selects only after the closes finds both
    channels ready, and may as well find the text channel closed first: the
    round then counts as complete, with an empty reply. *)
Lemma sent_error_observed_or_missed (err : error) (tr : list Effect) :
  let ops := [SendErr err; CloseErr; CloseText] in
  (delivers (open_chans ops) [RecvErr (Some err)]
   /\ (select_loop [RecvErr (Some err)] "" tr).1.1 = ReturnErr err)
  /\ (delivers (open_chans ops) [TextClosed]
      /\ select_loop [TextClosed] "" tr = (StreamDone, "", tr)).
Proof.
  intros ops. split; split; try reflexivity.
  - eapply delivers_send_err; [reflexivity..|].
    eapply delivers_err; [reflexivity|]. apply delivers_stop.
  - eapply delivers_send_err; [reflexivity..|].
    eapply delivers_close_err; [reflexivity..|].
    eapply delivers_close_text; [reflexivity..|].
    apply delivers_text_closed; [reflexivity|]. apply delivers_stop.
Qed.

(** A run in which the credentials of agent A are refused: one provider
    call, the health check of agent A. *)
Example invalid_credentials_stop_the_run :
  let ops := [SendText "Hi"; SendText " there"; CloseErr; CloseText] in
  let agentA := doubles.mock 0 (Some ErrInvalidCredentials) ops in
  let agentB := doubles.mock 1 None ops in
  let fin := @cmd.converse doubles.lib (fun _ => doubles.eager) agentA agentB 0.5 0.25 2
               Background 3 "Hello" "mock" "mock" [] in
  cmd.exit fin
  = cmd.Returned (Some (Wrapf "Agent A health check failed: " ErrInvalidCredentials))
  /\ calls (cmd.effects fin) = [CallHealth 0]
  /\ cmd.history fin = [].
Proof. repeat split. Qed.

(** * Further properties *)

(** ** The registry *)

Lemma register_all_snoc (specs : list ProviderSpec.t) (spec : ProviderSpec.t)
    (reg : gmap string ProviderSpec.t) :
  register_all (specs ++ [spec]) reg = RegisterProvider spec (register_all specs reg).
Proof. unfold register_all. by rewrite foldl_app. Qed.

(** Every spec is stored under its own key. *)
Lemma register_all_keyed (specs : list ProviderSpec.t) (k : string) (spec : ProviderSpec.t) :
  register_all specs ∅ !! k = Some spec -> ProviderSpec.Key spec = k.
Proof.
  revert k spec. induction specs as [|s specs IH] using rev_ind; intros k spec.
  - unfold register_all. simpl. by rewrite lookup_empty.
  - rewrite register_all_snoc. unfold RegisterProvider.
    destruct (decide (ProviderSpec.Key s = k)) as [<-|Hne].
    + rewrite lookup_insert_eq. by intros [= ->].
    + rewrite lookup_insert_ne by done. apply IH.
Qed.

(** X1.  After any sequence of registrations, [GetProviderSpec k] returns the
    spec registered last under [k], and the zero spec with [found = false]
    when none was. *)
Theorem GetProviderSpec_register_all (specs : list ProviderSpec.t) (k : string) :
  GetProviderSpec k (register_all specs ∅)
  = match last (filter (fun spec => ProviderSpec.Key spec = k) specs) with
    | Some spec => (spec, true)
    | None => (ProviderSpec.zero, false)
    end.
Proof.
  induction specs as [|s specs IH] using rev_ind; [reflexivity|].
  rewrite register_all_snoc, filter_app.
  destruct (decide (ProviderSpec.Key s = k)) as [<-|Hne].
  - rewrite GetProviderSpec_insert_eq.
    rewrite (filter_cons_True _ s []) by done. by rewrite filter_nil, last_snoc.
  - rewrite GetProviderSpec_insert_ne by done.
    rewrite (filter_cons_False _ s []) by done. by rewrite filter_nil, app_nil_r.
Qed.

(** X2.  After any sequence of registrations, [ListProviders] lists exactly
    the specs that [GetProviderSpec] finds under their own key, one for every
    registered key and no two with the same key. *)
Theorem ListProviders_by_key (specs : list ProviderSpec.t) :
  let reg := register_all specs ∅ in
  (forall spec, spec ∈ ListProviders reg
                <-> GetProviderSpec (ProviderSpec.Key spec) reg = (spec, true))
  /\ NoDup (ProviderSpec.Key <$> ListProviders reg)
  /\ length (ListProviders reg) = size reg.
Proof.
  intros reg. unfold ListProviders.
  assert (ProviderSpec.Key <$> (map_to_list reg).*2 = (map_to_list reg).*1) as Hkeys.
  { rewrite <- list_fmap_compose. apply list_fmap_ext.
    intros i [k spec] Hin%list_elem_of_lookup_2%elem_of_map_to_list. simpl.
    by apply (register_all_keyed specs). }
  split; [|split].
  - intros spec. unfold GetProviderSpec. split.
    + intros ([k spec'] & -> & Hin%elem_of_map_to_list)%list_elem_of_fmap. simpl.
      rewrite (register_all_keyed specs _ _ Hin). by rewrite Hin.
    + destruct (reg !! ProviderSpec.Key spec) as [spec'|] eqn:Hk; [|done].
      intros [= ->]. apply list_elem_of_fmap.
      exists (ProviderSpec.Key spec, spec). split; [done|].
      by apply elem_of_map_to_list.
  - rewrite Hkeys. apply NoDup_fst_map_to_list.
  - by rewrite length_fmap, length_map_to_list.
Qed.

(** X3.  Registering a factory under [k] makes [NewProvider k] return what
    that factory builds, with a nil error, whatever was registered under [k]
    before; every other key is answered as before. *)
Theorem NewProvider_after_registration (factories : gmap string ProviderFactory)
    (k : string) (factory : ProviderFactory) (cfg : ProviderConfig.t) (next : nat) :
  NewProvider k cfg (RegisterProviderFactory k factory factories) next
  = ((Some (factory cfg next).1, None), (factory cfg next).2)
  /\ forall k', k' <> k ->
       NewProvider k' cfg (RegisterProviderFactory k factory factories) next
       = NewProvider k' cfg factories next.
Proof.
  unfold NewProvider, GetProviderFactory, RegisterProviderFactory. split.
  - rewrite lookup_insert_eq. by destruct (factory cfg next).
  - intros k' Hne. by rewrite lookup_insert_ne.
Qed.

Lemma NewProvider_after_registration_witness :
  let factory : ProviderFactory :=
    fun _ next => (doubles.mock next None [CloseErr; CloseText], S next) in
  let factories := RegisterProviderFactory "mock" factory ∅ in
  "openai" <> "mock"
  /\ NewProvider "openai" (ProviderConfig.mk "" "" "" 0.5) factories 0
     = NewProvider "openai" (ProviderConfig.mk "" "" "" 0.5) ∅ 0.
Proof.
  intros factory factories. split; [discriminate|].
  exact (proj2 (NewProvider_after_registration ∅ "mock" factory
                  (ProviderConfig.mk "" "" "" 0.5) 0) "openai" ltac:(discriminate)).
Defined.

(** ** The OpenAI provider: construction and catalogue *)

Section construction.
Context `{GoLib}.

(** X4.  [NewOpenAIProvider] takes exactly one fresh address; the provider it
    builds never has an empty base URL or model, keeps the API key as it is,
    keeps a non-empty base URL and model of the configuration as they are,
    and does not depend on the configuration's temperature. *)
Theorem NewOpenAIProvider_resolved (net : http.Client) (cfg : ProviderConfig.t)
    (next : nat) :
  let '((addr, p), next') := OpenAIProvider.NewOpenAIProvider net cfg next in
  addr = next /\ next' = S next
  /\ OpenAIProvider.baseURL p <> "" /\ OpenAIProvider.model p <> ""
  /\ OpenAIProvider.apiKey p = ProviderConfig.APIKey cfg
  /\ (ProviderConfig.BaseURL cfg <> "" ->
      OpenAIProvider.baseURL p = ProviderConfig.BaseURL cfg)
  /\ (ProviderConfig.Model cfg <> "" ->
      OpenAIProvider.model p = ProviderConfig.Model cfg)
  /\ forall temperature,
       OpenAIProvider.NewOpenAIProvider net
         (ProviderConfig.mk (ProviderConfig.APIKey cfg) (ProviderConfig.BaseURL cfg)
            (ProviderConfig.Model cfg) temperature) next
       = ((addr, p), next').
Proof.
  unfold OpenAIProvider.NewOpenAIProvider. cbn [OpenAIProvider.baseURL
    OpenAIProvider.model OpenAIProvider.apiKey ProviderConfig.APIKey
    ProviderConfig.BaseURL ProviderConfig.Model].
  destruct (String.eqb_spec (ProviderConfig.BaseURL cfg) "") as [Hb|Hb],
           (String.eqb_spec (ProviderConfig.Model cfg) "") as [Hm|Hm];
    repeat split; try done.
Qed.

(** X5.  [Models] never fails and follows the registry: it returns the model
    list of the spec registered last under "openai", and the empty list when
    no spec is registered there. *)
Theorem Models_follows_registry (p : OpenAIProvider.t) (ctx : Context)
    (reg : gmap string ProviderSpec.t) :
  (forall spec,
     ProviderSpec.Key spec = "openai" ->
     OpenAIProvider.Models p ctx (RegisterProvider spec reg)
     = (ProviderSpec.Models spec, None))
  /\ (reg !! "openai" = None -> OpenAIProvider.Models p ctx reg = ([], None))
  /\ (OpenAIProvider.Models p ctx reg).2 = None.
Proof.
  unfold OpenAIProvider.Models. split; [|split].
  - intros spec Hkey. rewrite <- Hkey. by rewrite GetProviderSpec_insert_eq.
  - intros Hnone. unfold GetProviderSpec. by rewrite Hnone.
  - by destruct (GetProviderSpec "openai" reg).
Qed.

End construction.

Lemma Models_follows_registry_witness :
  let p := OpenAIProvider.mk "sk-test" "https://api.openai.com/v1" "gpt-4o-mini"
             doubles.unreachable in
  let spec := ProviderSpec.mk "openai" "OpenAI" "" "o1" true ["o1"; "o1-mini"] in
  let reg := providerRegistry (@initial_globals doubles.lib doubles.unreachable) in
  ProviderSpec.Key spec = "openai"
  /\ OpenAIProvider.Models p Background (RegisterProvider spec reg)
     = (["o1"; "o1-mini"], None).
Proof.
  intros p spec reg. split; [reflexivity|].
  exact (proj1 (Models_follows_registry p Background reg) spec eq_refl).
Defined.

(** ** The OpenAI provider: the request body *)

Section body.
Context `{GoLib}.

Lemma sorted_requestBody (p : OpenAIProvider.t) (req : ChatRequest.t) :
  sorted_entries (OpenAIProvider.requestBody p req)
  = (if (0 <? ChatRequest.MaxTokens req)%Z
     then [("max_tokens", JInt (ChatRequest.MaxTokens req))] else [])
    ++ [ ("messages", JRecords (OpenAIProvider.convertMessages p (ChatRequest.Messages req)));
         ("model", JString (ChatRequest.Model req));
         ("stream", JBool true);
         ("temperature", JFloat (ChatRequest.Temperature req)) ].
Proof.
  unfold OpenAIProvider.requestBody.
  destruct (0 <? ChatRequest.MaxTokens req)%Z; reflexivity.
Qed.

Lemma sorted_record (role content : string) :
  sorted_entries (<["content" := content]> (<["role" := role]> (∅ : gmap string string)))
  = [("content", content); ("role", role)].
Proof. reflexivity. Qed.

End body.

Section body_properties.
Context `{GoLib}.

(** The JSON text of one message. *)
Local Abbreviation message_json := (fun msg : Message.t =>
  "{" +:+ join "," [ json_string "content" +:+ ":" +:+ json_string (Message.Content msg);
                     json_string "role" +:+ ":" +:+ json_string (Message.Role msg) ]
      +:+ "}").

Lemma marshal_convertMessages (p : OpenAIProvider.t) (messages : list Message.t) :
  map marshal_record (OpenAIProvider.convertMessages p messages)
  = map message_json messages.
Proof.
  unfold OpenAIProvider.convertMessages. rewrite map_map.
  apply map_ext. intros msg. unfold marshal_record. by rewrite sorted_record.
Qed.

(** X6.  When the temperature can be encoded, the request body is one JSON
    object whose members come in the order "max_tokens" (only when
    [MaxTokens] is positive), "messages", "model", "stream", "temperature";
    the messages are written in the order of the history, each as an object
    with the members "content" and "role", in this order; "stream" is always
    [true]. *)
Theorem request_body_wire_format (p : OpenAIProvider.t) (req : ChatRequest.t)
    (temperature : string) :
  json_float (ChatRequest.Temperature req) = inl temperature ->
  json_Marshal (OpenAIProvider.requestBody p req)
  = inl ("{" +:+ join ","
           ((if (0 <? ChatRequest.MaxTokens req)%Z
             then [json_string "max_tokens" +:+ ":" +:+ itoa (ChatRequest.MaxTokens req)]
             else [])
            ++ [ json_string "messages" +:+ ":" +:+
                   ("[" +:+ join "," (map message_json (ChatRequest.Messages req)) +:+ "]");
                 json_string "model" +:+ ":" +:+ json_string (ChatRequest.Model req);
                 json_string "stream" +:+ ":" +:+ "true";
                 json_string "temperature" +:+ ":" +:+ temperature ])
         +:+ "}").
Proof.
  intros Hfloat. unfold json_Marshal. rewrite sorted_requestBody.
  destruct (0 <? ChatRequest.MaxTokens req)%Z;
    cbn [app marshal_entries marshal_value];
    by rewrite Hfloat, marshal_convertMessages.
Qed.

(** X7.  When the temperature cannot be encoded (NaN or an infinity), the
    goroutine sends the encoder's error and closes both channels: no text is
    sent, and the result does not depend on what the network would answer. *)
Theorem StreamChat_unencodable_temperature (p : OpenAIProvider.t) (ctx : Context)
    (req : ChatRequest.t) (err : error) :
  json_float (ChatRequest.Temperature req) = inr err ->
  OpenAIProvider.StreamChat p ctx req = [SendErr err; CloseErr; CloseText]
  /\ forall net : http.Client,
       OpenAIProvider.StreamChat
         (OpenAIProvider.mk (OpenAIProvider.apiKey p) (OpenAIProvider.baseURL p)
            (OpenAIProvider.model p) net) ctx req
       = [SendErr err; CloseErr; CloseText].
Proof.
  intros Hfloat.
  assert (forall q, json_Marshal (OpenAIProvider.requestBody q req) = inr err) as Hbody.
  { intros q. unfold json_Marshal. rewrite sorted_requestBody.
    destruct (0 <? ChatRequest.MaxTokens req)%Z;
      cbn [app marshal_entries marshal_value]; by rewrite Hfloat. }
  split; [|intros net];
    unfold OpenAIProvider.StreamChat, OpenAIProvider.StreamChat_body,
      OpenAIProvider.StreamChat_request; by rewrite Hbody.
Qed.

(** X8.  [convertMessages] loses nothing and keeps the order: it returns one
    record per message, each with exactly the two entries "role" and
    "content", and reading the records back gives the messages. *)
Theorem convertMessages_round_trip (p : OpenAIProvider.t) (messages : list Message.t) :
  map to_message (OpenAIProvider.convertMessages p messages) = messages
  /\ length (OpenAIProvider.convertMessages p messages) = length messages
  /\ Forall (fun record : gmap string string => dom record = {["role"; "content"]})
            (OpenAIProvider.convertMessages p messages).
Proof.
  unfold OpenAIProvider.convertMessages. split; [|split].
  - rewrite map_map. rewrite <- (map_id messages) at 2. apply map_ext.
    by intros [role content].
  - apply length_map.
  - apply Forall_forall. intros record (msg & <- & _)%list_elem_of_In%in_map_iff.
    rewrite !dom_insert_L, dom_empty_L. set_solver.
Qed.

End body_properties.

Lemma request_body_wire_format_witness :
  let p := OpenAIProvider.mk "sk-test" "https://api.openai.com/v1" "gpt-4o-mini"
             doubles.unreachable in
  let req := ChatRequest.mk "gpt-4o-mini" [Message.mk "user" "Hello"] 0.5 0 "" in
  doubles.json_float 0.5 = inl "0.5"
  /\ @json_Marshal doubles.lib (OpenAIProvider.requestBody p req)
     = inl ("{" +:+ doubles.dquote +:+ "messages" +:+ doubles.dquote +:+ ":[{"
            +:+ doubles.dquote +:+ "content" +:+ doubles.dquote +:+ ":"
            +:+ doubles.dquote +:+ "Hello" +:+ doubles.dquote +:+ ","
            +:+ doubles.dquote +:+ "role" +:+ doubles.dquote +:+ ":"
            +:+ doubles.dquote +:+ "user" +:+ doubles.dquote +:+ "}],"
            +:+ doubles.dquote +:+ "model" +:+ doubles.dquote +:+ ":"
            +:+ doubles.dquote +:+ "gpt-4o-mini" +:+ doubles.dquote +:+ ","
            +:+ doubles.dquote +:+ "stream" +:+ doubles.dquote +:+ ":true,"
            +:+ doubles.dquote +:+ "temperature" +:+ doubles.dquote +:+ ":0.5}").
Proof.
  intros p req. split; [reflexivity|].
  exact (@request_body_wire_format doubles.lib p req "0.5" eq_refl).
Defined.

Lemma StreamChat_unencodable_temperature_witness :
  let p := OpenAIProvider.mk "sk-test" "https://api.openai.com/v1" "gpt-4o-mini"
             (doubles.server 200 (http.mkBody "" EOF)) in
  let req := ChatRequest.mk "gpt-4o-mini" [Message.mk "user" "Hello"] nan 800 "" in
  doubles.json_float nan = inr (Foreign "json: unsupported value")
  /\ @OpenAIProvider.StreamChat doubles.lib p Background req
     = [SendErr (Foreign "json: unsupported value"); CloseErr; CloseText].
Proof.
  intros p req. split; [reflexivity|].
  exact (proj1 (@StreamChat_unencodable_temperature doubles.lib p Background req
                  (Foreign "json: unsupported value") eq_refl)).
Defined.

(** ** The OpenAI provider: the stream *)

Lemma split_lines_spec (s : string) :
  unlines (split_lines s).1 +:+ (split_lines s).2 = s
  /\ Forall (fun l => no_LF l = true) (split_lines s).1
  /\ no_LF (split_lines s).2 = true.
Proof.
  induction s as [|a s (Hs & Hls & Hrest)]; [by repeat split|].
  cbn [split_lines]. destruct (split_lines s) as [ls rest]. cbn [fst snd] in *.
  destruct (Ascii.eqb a LF) eqn:Ha.
  - apply Ascii.eqb_eq in Ha as ->. cbn [fst snd]. split; [|split]; [|by constructor|done].
    change (String LF (unlines ls +:+ rest) = String LF s). by rewrite Hs.
  - destruct ls as [|l ls]; cbn [fst snd].
    + split; [|split]; [|done|].
      * change (String a (unlines [] +:+ rest) = String a s). by rewrite Hs.
      * cbn [no_LF]. by rewrite Ha, Hrest.
    + apply Forall_cons in Hls as [Hl Hls]. split; [|split]; [| |done].
      * change (String a (unlines (l :: ls) +:+ rest) = String a s). by rewrite Hs.
      * constructor; [|done]. cbn [no_LF]. by rewrite Ha, Hl.
Qed.

Section stream_properties.
Context `{GoLib}.

Lemma frame_texts_cons (l : string) (ls : list string) :
  frame_texts (l :: ls)
  = from_option (fun text => [text]) []
      (OpenAIProvider.frame_text (l +:+ String LF EmptyString)) ++ frame_texts ls.
Proof. apply omap_cons_frame. Qed.

Lemma frame_text_nonempty (line text : string) :
  OpenAIProvider.frame_text line = Some text -> text <> "".
Proof.
  unfold OpenAIProvider.frame_text. cbv zeta.
  destruct (_ || _); [done|]. destruct (negb (HasPrefix _ _)); [done|].
  destruct (json_Unmarshal _) as [chunk|]; [|done].
  unfold Chunk.first_content. destruct (Chunk.Choices chunk) as [|choice ?]; [done|].
  destruct (String.eqb_spec (Chunk.Content (Chunk.delta choice)) ""); [done|].
  by intros [= <-].
Qed.

(** What the loop does, whatever the context and the body: texts, none of
    them empty, and then at most one error. *)
Lemma stream_loop_shape (fuel : nat) (ctx : Context) (r : bufio.Reader)
    (ops : list ChanOp) :
  OpenAIProvider.stream_loop fuel ctx r = Some ops ->
  exists ts tail,
    ops = map SendText ts ++ tail
    /\ Forall (fun text => text <> "") ts
    /\ (tail = [] \/ exists err, tail = [SendErr err]).
Proof.
  revert ctx r ops. induction fuel as [|fuel IH]; intros ctx r ops; [done|].
  cbn [OpenAIProvider.stream_loop].
  destruct (poll_Done ctx) as [[] ctx1].
  { intros [= <-]. exists [], [SendErr ErrContextCancelled]. eauto. }
  destruct (bufio.ReadString r LF) as [[line [err|]] r1].
  { destruct (is_EOF err); intros [= <-].
    - exists [], []. eauto.
    - exists [], [SendErr err]. eauto. }
  destruct (OpenAIProvider.frame_text line) as [text|] eqn:Htext; [|apply IH].
  destruct (poll_Done ctx1) as [[] ctx2].
  { intros [= <-]. exists [], [SendErr ErrContextCancelled]. eauto. }
  destruct (OpenAIProvider.stream_loop fuel ctx2 r1) as [ops'|] eqn:Hloop; [|done].
  intros [= <-]. destruct (IH _ _ _ Hloop) as (ts & tail & -> & Hts & Htail).
  exists (text :: ts), tail. repeat split; [|done].
  constructor; [|done]. by eapply frame_text_nonempty.
Qed.

(** X9.  Whatever the provider, the context, the request and the network,
    the goroutine of [StreamChat] sends texts, none of them empty, then at
    most one error, and then closes the error channel and the text channel,
    in this order; it never sends a text after an error, so the buffer of
    one error never fills up. *)
Theorem StreamChat_shape (p : OpenAIProvider.t) (ctx : Context) (req : ChatRequest.t) :
  exists ts tail,
    OpenAIProvider.StreamChat p ctx req = map SendText ts ++ tail ++ [CloseErr; CloseText]
    /\ Forall (fun text => text <> "") ts
    /\ (tail = [] \/ exists err, tail = [SendErr err]).
Proof.
  unfold OpenAIProvider.StreamChat, OpenAIProvider.StreamChat_body.
  destruct (OpenAIProvider.StreamChat_request p ctx req) as [httpReq|err].
  2:{ exists [], [SendErr err]. eauto. }
  destruct (OpenAIProvider.client p httpReq) as [resp|err].
  2:{ exists [], [SendErr err]. eauto. }
  destruct (negb (http.StatusCode resp =? 200)%Z).
  { eexists [], [SendErr _]. eauto. }
  destruct (stream_loop_total (OpenAIProvider.stream_fuel (http.body resp)) ctx
              (bufio.NewReader (http.body resp))) as [ops Hloop].
  { unfold OpenAIProvider.stream_fuel. simpl. lia. }
  rewrite Hloop. destruct (stream_loop_shape _ _ _ _ Hloop) as (ts & tail & -> & Hts & Htail).
  exists ts, tail. by rewrite <- app_assoc.
Qed.

(** X10.  A request that the network fails, or answers with a status other
    than 200, yields no text: the goroutine sends the transport's error as it
    is, or the error "API error (status N): body" with the whole body, and
    closes both channels, even when the body holds well-formed frames. *)
Theorem StreamChat_before_streaming (p : OpenAIProvider.t) (ctx : Context)
    (req : ChatRequest.t) (httpReq : http.Request) :
  OpenAIProvider.StreamChat_request p ctx req = inl httpReq ->
  (forall err,
     OpenAIProvider.client p httpReq = inr err ->
     OpenAIProvider.StreamChat p ctx req = [SendErr err; CloseErr; CloseText])
  /\ (forall resp,
        OpenAIProvider.client p httpReq = inl resp ->
        http.StatusCode resp <> 200%Z ->
        OpenAIProvider.StreamChat p ctx req
        = [SendErr (OpenAIProvider.api_error (http.StatusCode resp)
                      (http.data (http.body resp)));
           CloseErr; CloseText]).
Proof.
  intros Hreq. unfold OpenAIProvider.StreamChat, OpenAIProvider.StreamChat_body.
  rewrite Hreq. split.
  - by intros err ->.
  - intros resp -> Hstatus. apply Z.eqb_neq in Hstatus. by rewrite Hstatus.
Qed.

(** The operations of a stream over a 200 response whose body is given as
    whole lines and what follows the last line feed. *)
Lemma StreamChat_lines (p : OpenAIProvider.t) (req : ChatRequest.t)
    (httpReq : http.Request) (resp : http.Response) (ls : list string) (rest : string) :
  OpenAIProvider.StreamChat_request p Background req = inl httpReq ->
  OpenAIProvider.client p httpReq = inl resp ->
  http.StatusCode resp = 200%Z ->
  http.data (http.body resp) = unlines ls +:+ rest ->
  Forall (fun l => no_LF l = true) ls ->
  no_LF rest = true ->
  OpenAIProvider.StreamChat p Background req
  = map SendText (frame_texts ls)
    ++ (if is_EOF (http.ending (http.body resp)) then []
        else [SendErr (http.ending (http.body resp))])
    ++ [CloseErr; CloseText].
Proof.
  intros Hreq Hdo Hstatus Hdata Hls Hrest.
  unfold OpenAIProvider.StreamChat, OpenAIProvider.StreamChat_body.
  rewrite Hreq, Hdo, Hstatus. cbn [Z.eqb Pos.eqb negb].
  unfold OpenAIProvider.stream_fuel, bufio.NewReader. rewrite Hdata.
  rewrite (stream_loop_unlines _ _ _ _ Hls Hrest).
  - by rewrite <- app_assoc.
  - rewrite length_append. pose proof (length_unlines ls). lia.
Qed.

(** X11.  For every body of a 200 response read under a context that is
    never cancelled: every whole line is looked at once, in order, and the
    texts of the data frames among them are sent in that order; the bytes
    after the last line feed are dropped, even when they are a well-formed
    frame; a read that ends with an error other than [io.EOF] makes that
    error the last thing sent before the closes. *)
Theorem StreamChat_on_body (p : OpenAIProvider.t) (req : ChatRequest.t)
    (httpReq : http.Request) (resp : http.Response) :
  OpenAIProvider.StreamChat_request p Background req = inl httpReq ->
  OpenAIProvider.client p httpReq = inl resp ->
  http.StatusCode resp = 200%Z ->
  OpenAIProvider.StreamChat p Background req
  = map SendText (frame_texts (split_lines (http.data (http.body resp))).1)
    ++ (if is_EOF (http.ending (http.body resp)) then []
        else [SendErr (http.ending (http.body resp))])
    ++ [CloseErr; CloseText].
Proof.
  intros Hreq Hdo Hstatus.
  destruct (split_lines_spec (http.data (http.body resp))) as (Hdata & Hls & Hrest).
  by apply (StreamChat_lines p req httpReq resp _ (split_lines (http.data (http.body resp))).2).
Qed.

(** The loop under any context, on a body of whole lines and a rest: the
    texts sent are the first few of the texts of the lines; either the loop
    notices the cancellation and sends [ErrContextCancelled], or it sends
    them all and ends as the body ends. *)
Lemma stream_loop_cancel (ls : list string) (rest : string) (ending : error) :
  Forall (fun l => no_LF l = true) ls ->
  no_LF rest = true ->
  forall (fuel : nat) (ctx : Context),
    length ls < fuel ->
    exists ts,
      ts `prefix_of` frame_texts ls
      /\ (OpenAIProvider.stream_loop fuel ctx (bufio.mkReader (unlines ls +:+ rest) ending)
          = Some (map SendText ts ++ [SendErr ErrContextCancelled])
          \/ (ts = frame_texts ls
              /\ OpenAIProvider.stream_loop fuel ctx
                   (bufio.mkReader (unlines ls +:+ rest) ending)
                 = Some (map SendText ts
                         ++ (if is_EOF ending then [] else [SendErr ending])))).
Proof.
  intros Hls Hrest. induction Hls as [|l ls Hl Hls IH]; intros fuel ctx Hfuel.
  - destruct fuel as [|fuel]; [simpl in Hfuel; lia|].
    change (unlines [] +:+ rest) with rest.
    cbn [OpenAIProvider.stream_loop].
    destruct (poll_Done ctx) as [[] ctx1].
    { exists []. split; [apply prefix_nil|]. by left. }
    unfold bufio.ReadString. cbn [bufio.unread bufio.ending].
    rewrite (cut_no_LF _ Hrest). exists []. split; [done|]. right.
    split; [done|]. by destruct (is_EOF ending).
  - destruct fuel as [|fuel]; [simpl in Hfuel; lia|]. simpl in Hfuel.
    change (unlines (l :: ls)) with (l +:+ String LF (unlines ls)).
    rewrite append_assoc, append_cons.
    cbn [OpenAIProvider.stream_loop].
    destruct (poll_Done ctx) as [[] ctx1].
    { exists []. split; [apply prefix_nil|]. by left. }
    unfold bufio.ReadString. cbn [bufio.unread bufio.ending].
    rewrite (cut_line _ _ Hl), frame_texts_cons.
    destruct (OpenAIProvider.frame_text (l +:+ String LF EmptyString)) as [text|].
    + destruct (poll_Done ctx1) as [[] ctx2].
      { exists []. split; [apply prefix_nil|]. by left. }
      destruct (IH fuel ctx2) as (ts & Hpre & Hloop); [lia|].
      exists (text :: ts). split; [by apply prefix_cons|].
      destruct Hloop as [->|[-> ->]]; [by left|by right].
    + apply IH. lia.
Qed.

(** X12.  Cancellation only cuts the stream short.  For every context and
    every body of a 200 response, the texts sent are the first few of the
    texts sent without cancellation, in the same order; then either
    [ErrContextCancelled] is sent, or every text was sent and the stream ends
    as it would without cancellation.  Under a context already cancelled when
    the response arrives, nothing but [ErrContextCancelled] is sent. *)
Theorem StreamChat_cancellation (p : OpenAIProvider.t) (ctx : Context)
    (req : ChatRequest.t) (httpReq : http.Request) (resp : http.Response) :
  OpenAIProvider.StreamChat_request p ctx req = inl httpReq ->
  OpenAIProvider.client p httpReq = inl resp ->
  http.StatusCode resp = 200%Z ->
  let all := frame_texts (split_lines (http.data (http.body resp))).1 in
  (exists ts,
     ts `prefix_of` all
     /\ (OpenAIProvider.StreamChat p ctx req
         = map SendText ts ++ [SendErr ErrContextCancelled; CloseErr; CloseText]
         \/ (ts = all
             /\ OpenAIProvider.StreamChat p ctx req
                = map SendText all
                  ++ (if is_EOF (http.ending (http.body resp)) then []
                      else [SendErr (http.ending (http.body resp))])
                  ++ [CloseErr; CloseText])))
  /\ (ctx = CancelAfter 0 ->
      OpenAIProvider.StreamChat p ctx req
      = [SendErr ErrContextCancelled; CloseErr; CloseText]).
Proof.
  intros Hreq Hdo Hstatus all.
  unfold OpenAIProvider.StreamChat, OpenAIProvider.StreamChat_body.
  rewrite Hreq, Hdo, Hstatus. cbn [Z.eqb Pos.eqb negb]. split.
  - unfold OpenAIProvider.stream_fuel, bufio.NewReader.
    destruct (split_lines_spec (http.data (http.body resp))) as (Hdata & Hls & Hrest).
    destruct (stream_loop_cancel _ _ (http.ending (http.body resp)) Hls Hrest
                (S (String.length (http.data (http.body resp)))) ctx)
      as (ts & Hpre & Hloop).
    { rewrite <- Hdata at 2. rewrite length_append.
      pose proof (length_unlines (split_lines (http.data (http.body resp))).1). lia. }
    rewrite Hdata in Hloop. exists ts. split; [exact Hpre|].
    destruct Hloop as [->|[-> ->]].
    + left. by rewrite <- app_assoc.
    + right. split; [done|]. by rewrite <- app_assoc.
  - intros ->. reflexivity.
Qed.

End stream_properties.

Lemma StreamChat_before_streaming_witness :
  let body := http.mkBody (unlines [doubles.frame "Hi"; ""]) EOF in
  let p := OpenAIProvider.mk "sk-test" "https://api.openai.com/v1" "gpt-4o-mini"
             (doubles.server 503 body) in
  let req := ChatRequest.mk "gpt-4o-mini" [Message.mk "user" "Hello"] 0.5 800 "" in
  (503 <> 200)%Z
  /\ @OpenAIProvider.StreamChat doubles.lib p Background req
     = [SendErr (OpenAIProvider.api_error 503 (http.data body)); CloseErr; CloseText].
Proof.
  intros body p req. split; [discriminate|].
  refine (proj2 (@StreamChat_before_streaming doubles.lib p Background req _ eq_refl)
            (http.mkResponse 503 body) eq_refl _).
  discriminate.
Defined.

Lemma StreamChat_on_body_witness :
  let body := http.mkBody (unlines [doubles.frame "Hi"; ""] +:+ doubles.frame " there")
                (Foreign "unexpected EOF") in
  let p := OpenAIProvider.mk "sk-test" "https://api.openai.com/v1" "gpt-4o-mini"
             (doubles.server 200 body) in
  let req := ChatRequest.mk "gpt-4o-mini" [Message.mk "user" "Hello"] 0.5 800 "" in
  @OpenAIProvider.StreamChat doubles.lib p Background req
  = [SendText "Hi"; SendErr (Foreign "unexpected EOF"); CloseErr; CloseText].
Proof.
  intros body p req.
  exact (@StreamChat_on_body doubles.lib p req _ (http.mkResponse 200 body)
           eq_refl eq_refl eq_refl).
Defined.

Lemma StreamChat_cancellation_witness :
  let body := http.mkBody (unlines [doubles.frame "Hi"; ""; doubles.frame " there"; ""]) EOF in
  let p := OpenAIProvider.mk "sk-test" "https://api.openai.com/v1" "gpt-4o-mini"
             (doubles.server 200 body) in
  let req := ChatRequest.mk "gpt-4o-mini" [Message.mk "user" "Hello"] 0.5 800 "" in
  @OpenAIProvider.StreamChat doubles.lib p (CancelAfter 0) req
  = [SendErr ErrContextCancelled; CloseErr; CloseText].
Proof.
  intros body p req.
  exact (proj2 (@StreamChat_cancellation doubles.lib p (CancelAfter 0) req _
                  (http.mkResponse 200 body) eq_refl eq_refl eq_refl) eq_refl).
Defined.

(** ** Package [config] *)

Lemma getEnvOrDefault_value (getenv : string -> string) (key defaultValue : string) :
  config.getEnvOrDefault getenv key defaultValue
  = if String.eqb (getenv key) "" then defaultValue else getenv key.
Proof. unfold config.getEnvOrDefault. by destruct (String.eqb (getenv key) ""). Qed.

Lemma getEnvOrDefault_nonempty (getenv : string -> string) (key defaultValue : string) :
  defaultValue <> "" -> config.getEnvOrDefault getenv key defaultValue <> "".
Proof.
  intros Hdefault. rewrite getEnvOrDefault_value.
  by destruct (String.eqb_spec (getenv key) "").
Qed.

(** X13.  [Validate] accepts a configuration exactly when [GetAPIKey] has a
    non-empty key for some provider; which provider the conversation will
    use plays no part. *)
Theorem Validate_iff_some_key (c : config.Config) :
  config.Validate c = None <-> exists provider, config.GetAPIKey c provider <> "".
Proof.
  unfold config.Validate. split.
  - destruct (String.eqb_spec (config.OpenAIKey c) "") as [_|H1];
      [|intros _; by exists "openai"].
    destruct (String.eqb_spec (config.AnthropicKey c) "") as [_|H2];
      [|intros _; by exists "anthropic"].
    destruct (String.eqb_spec (config.GeminiKey c) "") as [_|H3];
      [|intros _; by exists "gemini"].
    destruct (String.eqb_spec (config.DeepSeekKey c) "") as [_|H4];
      [|intros _; by exists "deepseek"].
    destruct (String.eqb_spec (config.OpenRouterKey c) "") as [_|H5];
      [|intros _; by exists "openrouter"].
    discriminate.
  - intros [provider Hkey]. unfold config.GetAPIKey in Hkey.
    repeat match type of Hkey with
           | (if ?b then _ else _) <> _ => destruct b
           end;
      try done;
      match type of Hkey with
      | ?key <> "" => destruct (String.eqb_spec key ""); [done|]
      end;
      by rewrite ?andb_false_r.
Qed.

(** X14.  [Load] never fails, and the configuration it returns answers
    [GetDefaultModel] with a non-empty model exactly for the seven providers
    it knows, and [GetProviderBaseURL] with a non-empty URL exactly for the
    five providers that have one, whatever the environment. *)
Theorem Load_defaults (getenv : string -> string) :
  (config.Load getenv).2 = None
  /\ (forall provider,
        config.GetDefaultModel (config.Load getenv).1 provider <> ""
        <-> provider ∈ ["openai"; "anthropic"; "gemini"; "ollama"; "lmstudio";
                         "deepseek"; "openrouter"])
  /\ (forall provider,
        config.GetProviderBaseURL (config.Load getenv).1 provider <> ""
        <-> provider ∈ ["openai"; "ollama"; "lmstudio"; "deepseek"; "openrouter"]).
Proof.
  split; [reflexivity|]. split; intros provider.
  - unfold config.GetDefaultModel, config.Load. cbn [fst].
    repeat match goal with
           | |- context [String.eqb provider ?k] =>
               destruct (String.eqb_spec provider k) as [->|?];
               [split; [intros _; apply list_elem_of_In; simpl; tauto
                       |intros _; cbv iota; by apply getEnvOrDefault_nonempty]|]
           end.
    split; [intros Hne; by destruct Hne|]. intros Hin. exfalso.
    repeat (apply elem_of_cons in Hin as [?|Hin]; [done|]). by apply elem_of_nil in Hin.
  - unfold config.GetProviderBaseURL, config.Load. cbn [fst].
    repeat match goal with
           | |- context [String.eqb provider ?k] =>
               destruct (String.eqb_spec provider k) as [->|?];
               [split; [intros _; apply list_elem_of_In; simpl; tauto
                       |intros _; cbv iota; by apply getEnvOrDefault_nonempty]|]
           end.
    split; [intros Hne; by destruct Hne|]. intros Hin. exfalso.
    repeat (apply elem_of_cons in Hin as [?|Hin]; [done|]). by apply elem_of_nil in Hin.
Qed.

(** X15.  The environment wins over the defaults: the configuration loaded
    from an environment returns each of the five API keys as the environment
    has it, and each default model and base URL as the environment has it
    when the variable is set and non-empty, and the built-in default
    otherwise. *)
Theorem Load_reads_environment (getenv : string -> string) :
  let c := (config.Load getenv).1 in
  let or_default := fun var fallback : string =>
    if String.eqb (getenv var) "" then fallback else getenv var in
  (forall provider var,
     (provider, var) ∈ [("openai", "OPENAI_API_KEY"); ("anthropic", "ANTHROPIC_API_KEY");
                        ("gemini", "GEMINI_API_KEY"); ("deepseek", "DEEPSEEK_API_KEY");
                        ("openrouter", "OPENROUTER_API_KEY")] ->
     config.GetAPIKey c provider = getenv var)
  /\ (forall provider var fallback,
        (provider, var, fallback)
        ∈ [("openai", "OPENAI_MODEL", "gpt-4o-mini");
           ("anthropic", "ANTHROPIC_MODEL", "claude-3-5-sonnet-20241022");
           ("gemini", "GEMINI_MODEL", "gemini-2.0-flash-exp");
           ("ollama", "OLLAMA_MODEL", "llama3.1:8b-instruct");
           ("lmstudio", "LMSTUDIO_MODEL", "local-model");
           ("deepseek", "DEEPSEEK_MODEL", "deepseek-chat");
           ("openrouter", "OPENROUTER_MODEL", "openai/gpt-4o-mini")] ->
        config.GetDefaultModel c provider = or_default var fallback)
  /\ (forall provider var fallback,
        (provider, var, fallback)
        ∈ [("openai", "OPENAI_BASE_URL", "https://api.openai.com/v1");
           ("ollama", "OLLAMA_HOST", "http://localhost:11434");
           ("lmstudio", "LMSTUDIO_BASE_URL", "http://localhost:1234/v1");
           ("deepseek", "DEEPSEEK_BASE_URL", "https://api.deepseek.com/v1");
           ("openrouter", "OPENROUTER_BASE_URL", "https://openrouter.ai/api/v1")] ->
        config.GetProviderBaseURL c provider = or_default var fallback).
Proof.
  intros c or_default. split; [|split].
  - intros provider var Hin.
    repeat (apply elem_of_cons in Hin as [[= -> ->]|Hin]; [reflexivity|]).
    by apply elem_of_nil in Hin.
  - intros provider var fallback Hin.
    repeat (apply elem_of_cons in Hin as [[= -> -> ->]|Hin];
            [apply getEnvOrDefault_value|]).
    by apply elem_of_nil in Hin.
  - intros provider var fallback Hin.
    repeat (apply elem_of_cons in Hin as [[= -> -> ->]|Hin];
            [apply getEnvOrDefault_value|]).
    by apply elem_of_nil in Hin.
Qed.

Lemma Load_reads_environment_witness :
  let getenv := fun key : string =>
    if String.eqb key "OPENAI_API_KEY" then "env-key"
    else if String.eqb key "OPENAI_BASE_URL" then "https://custom-openai/api"
    else if String.eqb key "OPENAI_MODEL" then "gpt-test" else "" in
  let c := (config.Load getenv).1 in
  config.GetAPIKey c "openai" = "env-key"
  /\ config.GetDefaultModel c "openai" = "gpt-test"
  /\ config.GetProviderBaseURL c "openai" = "https://custom-openai/api".
Proof.
  intros getenv c.
  pose proof (Load_reads_environment getenv) as (Hkey & Hmodel & Hurl).
  split; [|split].
  - apply (Hkey "openai" "OPENAI_API_KEY"). by left.
  - apply (Hmodel "openai" "OPENAI_MODEL" "gpt-4o-mini"). by left.
  - apply (Hurl "openai" "OPENAI_BASE_URL" "https://api.openai.com/v1"). by left.
Defined.

(** ** The conversation loop: one round *)

Lemma append_nil_r (s : string) : s +:+ "" = s.
Proof. induction s as [|a s IH]; [reflexivity|]. by rewrite append_cons, IH. Qed.

Lemma fold_left_append (ts : list string) (acc : string) :
  fold_left String.append ts acc = acc +:+ String.concat "" ts.
Proof.
  revert acc. induction ts as [|t ts IH]; intros acc.
  - change (acc = acc +:+ ""). by rewrite append_nil_r.
  - cbn [fold_left]. rewrite IH. destruct ts as [|t' ts].
    + change ((acc +:+ t) +:+ "" = acc +:+ t). apply append_nil_r.
    + change ((acc +:+ t) +:+ String.concat "" (t' :: ts)
              = acc +:+ (t +:+ String.concat "" (t' :: ts))).
      apply append_assoc.
Qed.

Lemma stream_calls_prints (ts : list string) : stream_calls (map Print ts) = [].
Proof. by induction ts. Qed.

(** How the inner loop can end: by the close of the text channel, after
    texts that were all printed and make up the reply; by an error or the
    timer; or not at all, when the events hold nothing that ends it. *)
Lemma select_loop_outcome (events : list SelectEvent) (acc : string) (tr : list Effect) :
  exists ts,
    ts `prefix_of` texts events
    /\ match select_loop events acc tr with
       | (StreamDone, full, tr') =>
           full = fold_left String.append ts acc /\ tr' = tr ++ map Print ts
       | (ReturnErr err, _, tr') =>
           exists shown, tr' = tr ++ map Print ts ++ shown /\ stream_calls shown = []
       | (Blocked, _, tr') =>
           settles events = false /\ tr' = tr ++ map Print ts
       end.
Proof.
  revert acc tr. induction events as [|ev events IH]; intros acc tr.
  - exists []. split; [done|]. simpl. by rewrite app_nil_r.
  - destruct ev as [text| |[err|]|]; cbn [select_loop].
    + destruct (IH (acc +:+ text) (tr ++ [Print text])) as (ts & Hpre & Hres).
      exists (text :: ts). split; [by apply prefix_cons|].
      destruct (select_loop events _ _) as [[[] full] tr'].
      * destruct Hres as [-> ->]. by rewrite <- app_assoc.
      * destruct Hres as (shown & -> & Hshown). exists shown.
        by rewrite <- app_assoc.
      * destruct Hres as [Hsettles ->]. by rewrite <- app_assoc.
    + exists []. split; [apply prefix_nil|]. simpl. by rewrite app_nil_r.
    + exists []. split; [apply prefix_nil|]. by eexists.
    + destruct (IH acc tr) as (ts & Hpre & Hres). exists ts. split; [done|].
      by destruct (select_loop events _ _) as [[[] full] tr'].
    + exists []. split; [apply prefix_nil|]. exists []. by rewrite app_nil_r.
Qed.

Section one_round.
Context `{GoLib}.
Variable sched : Z -> list ChanOp -> list SelectEvent.
Variables (agentA agentB : Provider) (tempA tempB : float64) (maxRounds : Z).
Variable ctx : Context.

Local Abbreviation round_body := (cmd.round_body sched agentA agentB tempA tempB maxRounds ctx).
Local Abbreviation rounds := (cmd.rounds sched agentA agentB tempA tempB maxRounds ctx).
Local Abbreviation round_request := (cmd.round_request agentB tempA tempB).
Local Abbreviation round_prelude := (cmd.round_prelude agentB tempA tempB maxRounds).

(** What a round does to the loop's variables and to the trace, for any two
    agents and any select events. *)
Lemma round_body_effects (round : Z) (st : cmd.Loop) :
  let asked := cmd.messages st ++ [Message.mk "user" (cmd.currentText st)] in
  let events := sched round (StreamChat (cmd.currentAgent st) ctx (round_request st)) in
  exists ts,
    ts `prefix_of` texts events
    /\ match round_body round st with
       | cmd.Continue st' =>
           cmd.messages st'
           = asked ++ [Message.mk "assistant" (String.concat "" ts)]
           /\ cmd.currentText st' = String.concat "" ts
           /\ cmd.trace st'
              = cmd.trace st ++ round_prelude round st ++ map Print ts
                ++ [Print cmd.nl; Sleep 500]
           /\ (cmd.currentAgent st' = agentA \/ cmd.currentAgent st' = agentB)
       | cmd.Leave fin =>
           cmd.history fin = asked
           /\ (exists shown,
                 cmd.effects fin
                 = cmd.trace st ++ round_prelude round st ++ map Print ts ++ shown
                 /\ stream_calls shown = [])
           /\ ((exists err, cmd.exit fin = cmd.Returned (Some err))
               \/ (cmd.exit fin = cmd.Running /\ settles events = false))
       end.
Proof.
  intros asked events. unfold cmd.round_body. fold events.
  destruct (select_loop_outcome events "" (cmd.trace st ++ round_prelude round st))
    as (ts & Hpre & Hres).
  exists ts. split; [exact Hpre|].
  destruct (select_loop events _ _) as [[[] full] tr'].
  - destruct Hres as [-> ->]. rewrite fold_left_append.
    change ("" +:+ String.concat "" ts) with (String.concat "" ts).
    destruct (same_instance _ _);
      cbn [cmd.messages cmd.currentText cmd.trace cmd.currentAgent
           ChatRequest.Messages cmd.round_request];
      (split; [reflexivity|]); (split; [reflexivity|]);
      (split; [by rewrite <- !app_assoc|auto]).
  - destruct Hres as (shown & -> & Hshown).
    cbn [cmd.history cmd.effects cmd.exit ChatRequest.Messages cmd.round_request].
    split; [done|]. split; [|by eauto].
    exists shown. by rewrite <- !app_assoc.
  - destruct Hres as [Hsettles ->].
    cbn [cmd.history cmd.effects cmd.exit ChatRequest.Messages cmd.round_request].
    split; [done|]. split; [|by right].
    exists []. by rewrite <- !app_assoc, app_nil_r.
Qed.

(** X16.  What a completed round records is what it showed: the texts
    printed between the agent's name and the closing new line are texts the
    selects received, in the order received, and their concatenation is both
    the assistant message appended to the history and the text of the next
    round. *)
Theorem reply_is_what_was_shown (round : Z) (st st' : cmd.Loop) :
  round_body round st = cmd.Continue st' ->
  exists ts,
    ts `prefix_of` texts (sched round (StreamChat (cmd.currentAgent st) ctx
                                        (round_request st)))
    /\ cmd.trace st'
       = cmd.trace st ++ round_prelude round st ++ map Print ts
         ++ [Print cmd.nl; Sleep 500]
    /\ last (cmd.messages st') = Some (Message.mk "assistant" (String.concat "" ts))
    /\ cmd.currentText st' = String.concat "" ts.
Proof.
  intros Hbody. destruct (round_body_effects round st) as (ts & Hpre & Hres).
  rewrite Hbody in Hres. destruct Hres as (Hmsgs & Htext & Htrace & _).
  exists ts. repeat split; try done. rewrite Hmsgs. apply last_snoc.
Qed.

(** X17.  The loop gives the error channel no priority over the text
    channel.  When the goroutine has failed before sending any text, so that
    all it does is send the error and close both channels, the loop may
    receive the error and return it, but it may as well find the text
    channel closed first: the round then counts as complete, an empty
    assistant message is appended, and the conversation goes on. *)
Theorem early_failure_may_pass_as_empty_reply (round : Z) (st : cmd.Loop) (err : error) :
  let ops := StreamChat (cmd.currentAgent st) ctx (round_request st) in
  ops = [SendErr err; CloseErr; CloseText] ->
  (delivers (open_chans ops) [RecvErr (Some err)]
   /\ (sched round ops = [RecvErr (Some err)] ->
       exists fin, round_body round st = cmd.Leave fin
                   /\ cmd.exit fin = cmd.Returned (Some err)))
  /\ (delivers (open_chans ops) [TextClosed]
      /\ (sched round ops = [TextClosed] ->
          exists st', round_body round st = cmd.Continue st'
                      /\ cmd.messages st'
                         = cmd.messages st
                           ++ [Message.mk "user" (cmd.currentText st);
                               Message.mk "assistant" ""]
                      /\ cmd.currentText st' = "")).
Proof.
  intros ops Hops. split; split.
  - rewrite Hops. eapply delivers_send_err; [reflexivity..|].
    eapply delivers_err; [reflexivity|]. apply delivers_stop.
  - intros Hsched. unfold cmd.round_body. fold ops. rewrite Hsched.
    cbn [select_loop]. by eexists.
  - rewrite Hops. eapply delivers_send_err; [reflexivity..|].
    eapply delivers_close_err; [reflexivity..|].
    eapply delivers_close_text; [reflexivity..|].
    apply delivers_text_closed; [reflexivity|]. apply delivers_stop.
  - intros Hsched. unfold cmd.round_body. fold ops. rewrite Hsched.
    cbn [select_loop].
    destruct (same_instance _ _); eexists; (split; [reflexivity|]);
      cbn [cmd.messages cmd.currentText ChatRequest.Messages cmd.round_request];
      by rewrite <- app_assoc.
Qed.

End one_round.

Lemma reply_is_what_was_shown_witness :
  let ops := [SendText "Hi"; SendText " there"; CloseErr; CloseText] in
  let agent := doubles.mock 0 None ops in
  let sched := fun (_ : Z) => doubles.eager in
  let st := cmd.mkLoop [] "Hello" agent "Agent A" ui.Green [] in
  exists st',
    @cmd.round_body doubles.lib sched agent agent 0.5 0.25 2 Background 1 st
    = cmd.Continue st'
    /\ cmd.currentText st' = "Hi there".
Proof.
  intros ops agent sched st. eexists. split; [reflexivity|].
  destruct (@reply_is_what_was_shown doubles.lib sched agent agent 0.5 0.25 2
              Background 1 st _ eq_refl) as (ts & _ & _ & _ & Htext).
  exact eq_refl.
Defined.

Lemma early_failure_may_pass_as_empty_reply_witness :
  let err := Foreign "dial tcp: connection refused" in
  let ops := [SendErr err; CloseErr; CloseText] in
  let agent := doubles.mock 0 None ops in
  let sched := fun (_ : Z) (_ : list ChanOp) => [TextClosed] in
  let st := cmd.mkLoop [] "Hello" agent "Agent A" ui.Green [] in
  exists st',
    @cmd.round_body doubles.lib sched agent agent 0.5 0.25 2 Background 1 st
    = cmd.Continue st'
    /\ cmd.messages st' = [Message.mk "user" "Hello"; Message.mk "assistant" ""].
Proof.
  intros err ops agent sched st.
  destruct (proj2 (proj2 (@early_failure_may_pass_as_empty_reply doubles.lib sched agent
                            agent 0.5 0.25 2 Background 1 st err eq_refl)) eq_refl)
    as (st' & Hbody & Hmsgs & _).
  exists st'. by split.
Defined.

(** ** The conversation loop: whole runs *)

Lemma int_succ_small (z : Z) :
  (- 2 ^ 63 <= z < 2 ^ 63 - 1)%Z -> int_succ z = (z + 1)%Z.
Proof. intros Hz. unfold int_succ. rewrite Z.mod_small; lia. Qed.

Lemma next_text_cons (text reply : string) (replies : list string) :
  next_text text (reply :: replies) = next_text reply replies.
Proof.
  unfold next_text. destruct replies as [|r replies]; [reflexivity|].
  rewrite last_cons_cons.
  by destruct (proj2 (last_is_Some (r :: replies)) ltac:(done)) as [x ->].
Qed.

Lemma dialogue_snoc (text reply : string) (replies : list string) :
  dialogue text (replies ++ [reply])
  = dialogue text replies
    ++ [Message.mk "user" (next_text text replies); Message.mk "assistant" reply].
Proof.
  revert text. induction replies as [|r replies IH]; intros text; [reflexivity|].
  cbn [app dialogue]. by rewrite IH, next_text_cons.
Qed.

Lemma next_text_snoc (text reply : string) (replies : list string) :
  next_text text (replies ++ [reply]) = reply.
Proof. unfold next_text. by rewrite last_snoc. Qed.

Lemma length_dialogue (text : string) (replies : list string) :
  length (dialogue text replies) = 2 * length replies.
Proof.
  revert text. induction replies as [|r replies IH]; intros text; [reflexivity|].
  cbn [dialogue length]. rewrite IH. lia.
Qed.

Section whole_runs.
Context `{GoLib}.
Variable sched : Z -> list ChanOp -> list SelectEvent.
Variables (agentA agentB : Provider) (tempA tempB : float64) (maxRounds : Z).
Variable ctx : Context.

Local Abbreviation round_body := (cmd.round_body sched agentA agentB tempA tempB maxRounds ctx).
Local Abbreviation rounds := (cmd.rounds sched agentA agentB tempA tempB maxRounds ctx).
Local Abbreviation converse := (cmd.converse sched agentA agentB tempA tempB maxRounds ctx).

Lemma rounds_dialogue (starter : string) (fuel : nat) :
  forall (round : Z) (st : cmd.Loop) (replies : list string),
    cmd.messages st = dialogue starter replies ->
    cmd.currentText st = next_text starter replies ->
    let fin := rounds fuel round st in
    exists replies',
      (cmd.history fin = dialogue starter replies'
       \/ (cmd.history fin
           = dialogue starter replies'
             ++ [Message.mk "user" (next_text starter replies')]
           /\ cmd.exit fin <> cmd.Returned None))
      /\ replies `prefix_of` replies'.
Proof.
  induction fuel as [|fuel IH]; intros round st replies Hmsgs Htext; cbn zeta.
  - exists replies. split; [by left|done].
  - cbn [cmd.rounds]. destruct (round <=? maxRounds)%Z.
    + destruct (round_body_effects sched agentA agentB tempA tempB maxRounds ctx round st)
        as (ts & _ & Hres).
      destruct (round_body round st) as [st'|fin].
      * destruct Hres as (Hmsgs' & Htext' & _).
        destruct (IH (int_succ round) st' (replies ++ [String.concat "" ts]))
          as (replies' & Hhist & Hpre).
        { by rewrite Hmsgs', Hmsgs, Htext, dialogue_snoc, <- app_assoc. }
        { by rewrite Htext', next_text_snoc. }
        exists replies'. split; [exact Hhist|].
        etrans; [|exact Hpre]. by apply prefix_app_r.
      * destruct Hres as (Hhist & _ & Hexit). exists replies. split; [|done].
        right. rewrite Hhist, Hmsgs, Htext. split; [done|].
        destruct Hexit as [[err ->]|[-> _]]; discriminate.
    + exists replies. split; [by left|done].
Qed.

(** X18.  In every run, whatever the agents do, the history is a dialogue
    that opens with the starter: user and assistant messages alternate, the
    first user message is the starter and every later one repeats the reply
    before it.  The history holds whole rounds, or whole rounds and one more
    user message; a run that returns [nil] leaves whole rounds only. *)
Theorem history_is_a_dialogue (fuel : nat) (starter providerA providerB : string)
    (tr : list Effect) :
  let fin := converse fuel starter providerA providerB tr in
  exists replies,
    (cmd.history fin = dialogue starter replies
     \/ cmd.history fin
        = dialogue starter replies ++ [Message.mk "user" (next_text starter replies)])
    /\ (cmd.exit fin = cmd.Returned None -> cmd.history fin = dialogue starter replies).
Proof.
  intros fin. subst fin. unfold cmd.converse.
  destruct (Health agentA ctx); [exists []; split; [by left|done]|].
  destruct (Health agentB ctx); [exists []; split; [by left|done]|].
  match goal with |- context [cmd.rounds _ _ _ _ _ _ _ fuel 1%Z ?st0] =>
    destruct (rounds_dialogue starter fuel 1 st0 []) as (replies & Hhist & _);
      [reflexivity..|]
  end.
  exists replies. destruct Hhist as [Hwhole|[Hcut Hexit]].
  - split; [by left|done].
  - split; [by right|]. intros Hnil. by destruct Hexit.
Qed.

(** X19.  A round limit below 1 means no round at all: once both health
    checks have succeeded the run returns [nil] at the first test of the
    loop, with an empty history and without any [StreamChat] call, and
    reports the limit as given. *)
Theorem no_round_below_one (fuel : nat) (starter providerA providerB : string)
    (tr : list Effect) :
  (maxRounds < 1)%Z ->
  Health agentA ctx = None ->
  Health agentB ctx = None ->
  0 < fuel ->
  let fin := converse fuel starter providerA providerB tr in
  cmd.exit fin = cmd.Returned None
  /\ cmd.history fin = []
  /\ stream_calls (cmd.effects fin) = stream_calls tr
  /\ last (cmd.effects fin)
     = Some (PrintSuccess ("Conversation completed! " +:+ itoa maxRounds +:+ " rounds")).
Proof.
  intros Hmax HA HB Hfuel fin. subst fin. unfold cmd.converse. rewrite HA, HB.
  destruct fuel as [|fuel]; [lia|]. cbn [cmd.rounds].
  assert ((1 <=? maxRounds)%Z = false) as -> by (apply Z.leb_gt; lia).
  cbn [cmd.exit cmd.history cmd.effects cmd.messages cmd.trace].
  repeat split; [stream_calls_norm|apply last_snoc].
Qed.

Lemma rounds_terminate (fuel : nat) :
  forall (round : Z) (st : cmd.Loop),
    (forall r ops, settles (sched r ops) = true) ->
    (maxRounds < 2 ^ 63 - 1)%Z ->
    (1 <= round <= maxRounds + 1)%Z ->
    Z.to_nat (maxRounds + 1 - round) < fuel ->
    let fin := rounds fuel round st in
    cmd.exit fin <> cmd.Running
    /\ (cmd.exit fin = cmd.Returned None ->
        length (cmd.history fin)
        = length (cmd.messages st) + 2 * Z.to_nat (maxRounds + 1 - round)
        /\ length (stream_calls (cmd.effects fin))
           = length (stream_calls (cmd.trace st)) + Z.to_nat (maxRounds + 1 - round)).
Proof.
  induction fuel as [|fuel IH]; intros round st Hsettles Hmax Hround Hfuel; [lia|].
  cbn zeta. cbn [cmd.rounds]. destruct (Z.leb_spec round maxRounds) as [Hle|Hgt].
  - destruct (round_body_effects sched agentA agentB tempA tempB maxRounds ctx round st)
      as (ts & _ & Hres).
    destruct (round_body round st) as [st'|fin].
    + destruct Hres as (Hmsgs & _ & Htrace & _).
      rewrite int_succ_small by lia.
      destruct (IH (round + 1)%Z st' Hsettles Hmax) as [Hexit Hcount]; [lia..|].
      split; [exact Hexit|]. intros Hnil. destruct (Hcount Hnil) as [Hh Hc].
      rewrite Hh, Hc, Hmsgs, Htrace, !stream_calls_app, stream_calls_prints.
      rewrite !length_app. unfold cmd.round_prelude.
      cbn [stream_calls omap list_omap length app]. lia.
    + destruct Hres as (_ & _ & [[err ->]|[_ Hblocked]]).
      * split; [done|]. done.
      * by rewrite Hsettles in Hblocked.
  - cbn [cmd.exit cmd.history cmd.effects]. split; [done|]. intros _.
    replace (maxRounds + 1 - round)%Z with 0%Z by lia.
    rewrite stream_calls_app. cbn [stream_calls omap list_omap].
    rewrite app_nil_r. simpl. lia.
Qed.

(** X20.  A run comes to an end: with a round limit from 0 up to, but not
    including, the largest [int], and select events that end every round, a
    run followed for more loop tests than the limit has returned; and when it
    returns [nil], it has made exactly as many [StreamChat] calls as the
    limit says and the history holds two messages for each. *)
Theorem run_terminates (fuel : nat) (starter providerA providerB : string)
    (tr : list Effect) :
  (forall r ops, settles (sched r ops) = true) ->
  (0 <= maxRounds < 2 ^ 63 - 1)%Z ->
  Z.to_nat maxRounds < fuel ->
  let fin := converse fuel starter providerA providerB tr in
  cmd.exit fin <> cmd.Running
  /\ (cmd.exit fin = cmd.Returned None ->
      length (cmd.history fin) = 2 * Z.to_nat maxRounds
      /\ length (stream_calls (cmd.effects fin))
         = length (stream_calls tr) + Z.to_nat maxRounds).
Proof.
  intros Hsettles Hmax Hfuel fin. subst fin. unfold cmd.converse.
  destruct (Health agentA ctx); [by split|].
  destruct (Health agentB ctx); [by split|].
  match goal with |- context [cmd.rounds _ _ _ _ _ _ _ fuel 1%Z ?st0] =>
    set (st := st0)
  end.
  destruct (rounds_terminate fuel 1 st Hsettles) as [Hexit Hcount]; [lia..| |].
  { replace (maxRounds + 1 - 1)%Z with maxRounds by lia. exact Hfuel. }
  split; [exact Hexit|]. intros Hnil. destruct (Hcount Hnil) as [-> ->].
  replace (maxRounds + 1 - 1)%Z with maxRounds by lia.
  subst st. cbn [cmd.messages cmd.trace length]. split; [lia|].
  f_equal. stream_calls_norm.
Qed.

End whole_runs.

Lemma no_round_below_one_witness :
  let agent := doubles.mock 0 None [SendText "Hi"; CloseErr; CloseText] in
  let fin := @cmd.converse doubles.lib (fun _ => doubles.eager) agent agent 0.5 0.25 0
               Background 1 "Hello" "mock" "mock" [] in
  (0 < 1)%Z /\ 0 < 1
  /\ cmd.exit fin = cmd.Returned None
  /\ cmd.history fin = [].
Proof.
  intros agent fin. split; [lia|]. split; [lia|].
  pose proof (@no_round_below_one doubles.lib (fun _ => doubles.eager) agent agent 0.5 0.25
                0 Background 1 "Hello" "mock" "mock" [] ltac:(lia) eq_refl eq_refl
                ltac:(lia)) as (Hexit & Hhistory & _).
  exact (conj Hexit Hhistory).
Defined.

Lemma run_terminates_witness :
  let agent := doubles.mock 0 None [SendText "Hi"; CloseErr; CloseText] in
  let sched := fun (_ : Z) (_ : list ChanOp) => [RecvText "Hi"; TextClosed] in
  let fin := @cmd.converse doubles.lib sched agent agent 0.5 0.25 2
               Background 3 "Hello" "mock" "mock" [] in
  (0 <= 2 < 2 ^ 63 - 1)%Z /\ Z.to_nat 2 < 3
  /\ cmd.exit fin <> cmd.Running.
Proof.
  intros agent sched fin. split; [lia|]. split; [simpl; lia|].
  exact (proj1 (@run_terminates doubles.lib sched agent agent 0.5 0.25 2 Background 3
                  "Hello" "mock" "mock" [] (fun _ _ => eq_refl) ltac:(lia)
                  ltac:(simpl; lia))).
Defined.

(** ** The command from its start *)

Section from_the_start.
Context `{GoLib}.
Variable sched : Z -> list ChanOp -> list SelectEvent.

(** X21.  Without any of the five API keys in the environment the command
    stops at the validation, whatever the flags, also for providers that
    need no key: it returns the validation error, after the banner and the
    three messages, and has built no provider and made no call. *)
Theorem runStart_without_keys (fuel : nat) (getenv : string -> string) (f : cmd.Flags)
    (providerFactories : gmap string ProviderFactory) (next : nat) :
  getenv "OPENAI_API_KEY" = "" ->
  getenv "ANTHROPIC_API_KEY" = "" ->
  getenv "GEMINI_API_KEY" = "" ->
  getenv "DEEPSEEK_API_KEY" = "" ->
  getenv "OPENROUTER_API_KEY" = "" ->
  exists msg,
    cmd.runStart sched fuel getenv f providerFactories next
    = cmd.mkFinal (cmd.Returned (Some (Errorf msg))) []
        [ PrintBanner; PrintError "Configuration error:"; PrintWarning msg;
          PrintInfo "Please set API keys in .env file or environment variables" ]
    /\ String.prefix "no API keys configured" msg = true.
Proof.
  intros H1 H2 H3 H4 H5. eexists. unfold cmd.runStart, config.Load, config.Validate.
  cbn [config.OpenAIKey config.AnthropicKey config.GeminiKey config.DeepSeekKey
       config.OpenRouterKey].
  rewrite H1, H2, H3, H4, H5. split; reflexivity.
Qed.

(** What [buildProvider] returns with the program's own factories. *)
Lemma buildProvider_initial_eq (net : http.Client) (cfg : config.Config)
    (provider apiKey model : string) (temp : float64) (next : nat) :
  cmd.buildProvider (providerFactories (initial_globals net)) cfg provider apiKey
    model temp next
  = if String.eqb provider "openai"
    then ((Some (OpenAIProvider.as_Provider
                   (next, OpenAIProvider.mk apiKey
                            (if String.eqb (config.OpenAIBaseURL cfg) ""
                             then "https://api.openai.com/v1"
                             else config.OpenAIBaseURL cfg)
                            (if String.eqb model "" then "gpt-4o-mini" else model)
                            net)), None), S next)
    else ((None, Some (Errorf ("provider '" +:+ provider +:+ "' not yet implemented"))),
          next).
Proof.
  unfold cmd.buildProvider, NewProvider, GetProviderFactory, initial_globals,
    OpenAIProvider.init, RegisterProviderFactory.
  cbn [providerFactories]. destruct (String.eqb_spec provider "openai") as [->|Hne].
  - rewrite lookup_insert_eq. reflexivity.
  - rewrite lookup_insert_ne by done. rewrite lookup_empty. reflexivity.
Qed.

(** X22.  The program registers a factory for "openai" only.  When a key is
    configured and one of the two providers is another one, the command
    returns "provider '...' not yet implemented" for the first such
    provider, agent A's before agent B's, without a health check or a
    [StreamChat] call and with an empty history; this includes the default
    pair of flags, "openai" and "anthropic". *)
Theorem runStart_unimplemented_provider (net : http.Client) (fuel : nat)
    (getenv : string -> string) (f : cmd.Flags) (next : nat) :
  config.Validate (config.Load getenv).1 = None ->
  cmd.providerA f <> "openai" \/ cmd.providerB f <> "openai" ->
  let fin := cmd.runStart sched fuel getenv f
               (providerFactories (initial_globals net)) next in
  let missing := if String.eqb (cmd.providerA f) "openai"
                 then cmd.providerB f else cmd.providerA f in
  cmd.exit fin
  = cmd.Returned (Some (Errorf ("provider '" +:+ missing +:+ "' not yet implemented")))
  /\ cmd.history fin = []
  /\ calls (cmd.effects fin) = [].
Proof.
  intros Hvalid Hother fin missing. subst fin missing.
  unfold cmd.runStart. unfold config.Load in *. cbn [fst] in Hvalid.
  rewrite Hvalid. rewrite buildProvider_initial_eq.
  assert (calls (cmd.session_configuration f) = []) as Hconf.
  { unfold cmd.session_configuration.
    by destruct (negb (String.eqb (cmd.modelA f) "")),
                (negb (String.eqb (cmd.modelB f) "")). }
  destruct (String.eqb_spec (cmd.providerA f) "openai") as [HA|HA].
  - cbv iota beta. rewrite buildProvider_initial_eq.
    destruct (String.eqb_spec (cmd.providerB f) "openai") as [HB|HB]; [tauto|].
    cbn [cmd.exit cmd.history cmd.effects]. repeat split.
    calls_norm. by rewrite Hconf.
  - cbn [cmd.exit cmd.history cmd.effects]. repeat split.
    calls_norm. by rewrite Hconf.
Qed.

(** X23.  A [StreamChat] call is made only when both providers are
    "openai", and the model it asks for is the agent's own: the flag
    [--model-a] (calls 0, 2, ...) or [--model-b] (calls 1, 3, ...) when it is
    given, else the variable [OPENAI_MODEL] when it is set, else
    "gpt-4o-mini". *)
Theorem request_model (net : http.Client) (fuel : nat)
    (getenv : string -> string) (f : cmd.Flags) (next : nat)
    (j callee : nat) (req : ChatRequest.t) :
  let fin := cmd.runStart sched fuel getenv f
               (providerFactories (initial_globals net)) next in
  stream_calls (cmd.effects fin) !! j = Some (callee, req) ->
  cmd.providerA f = "openai" /\ cmd.providerB f = "openai"
  /\ ChatRequest.Model req
     = let flag := if Nat.even j then cmd.modelA f else cmd.modelB f in
       if String.eqb flag "" then
         (if String.eqb (getenv "OPENAI_MODEL") "" then "gpt-4o-mini"
          else getenv "OPENAI_MODEL")
       else flag.
Proof.
  intros fin. subst fin. unfold cmd.runStart, config.Load.
  destruct (config.Validate _) as [err|]; [done|].
  rewrite buildProvider_initial_eq.
  destruct (String.eqb_spec (cmd.providerA f) "openai") as [HA|HA]; cycle 1.
  { stream_calls_norm. by rewrite session_configuration_calls. }
  cbv iota beta. rewrite buildProvider_initial_eq.
  destruct (String.eqb_spec (cmd.providerB f) "openai") as [HB|HB]; cycle 1.
  { stream_calls_norm. by rewrite session_configuration_calls. }
  intros Hj. split; [exact HA|]. split; [exact HB|].
  apply converse_requests in Hj as [_ ->].
  - cbn [ChatRequest.Model]. cbv zeta. rewrite HA, HB.
    cbn [config.GetDefaultModel String.eqb Ascii.eqb Bool.eqb config.OpenAIModel].
    unfold config.getEnvOrDefault.
    destruct (Nat.even j); cbn [DefaultModel OpenAIProvider.as_Provider
                                OpenAIProvider.DefaultModel OpenAIProvider.model].
    + destruct (String.eqb (cmd.modelA f) "") eqn:Hm.
      * destruct (String.eqb (getenv "OPENAI_MODEL") "") eqn:He; cbn [negb];
          [reflexivity|by rewrite He].
      * by rewrite Hm.
    + destruct (String.eqb (cmd.modelB f) "") eqn:Hm.
      * destruct (String.eqb (getenv "OPENAI_MODEL") "") eqn:He; cbn [negb];
          [reflexivity|by rewrite He].
      * by rewrite Hm.
  - cbn [self OpenAIProvider.as_Provider]. lia.
  - stream_calls_norm. by rewrite session_configuration_calls.
Qed.

Variables (agentA agentB : Provider) (tempA tempB : float64) (maxRounds : Z).

(** X24.  A round served by the OpenAI provider, from the response to the
    history: when the request can be built, the server answers 200 and the
    body ends with [io.EOF], and the selects are served until the stream
    closes without the timer firing, the round goes on to the next, and the
    assistant message it appends, also the text of the next round, is the
    concatenation of the texts of the data frames among the whole lines of
    the body. *)
Theorem openai_round_records_stream (round : Z) (st : cmd.Loop) (addr : nat)
    (p : OpenAIProvider.t) (httpReq : http.Request) (resp : http.Response) :
  let req := cmd.round_request agentB tempA tempB st in
  let ops := OpenAIProvider.StreamChat p Background req in
  let reply := String.concat "" (frame_texts (split_lines (http.data (http.body resp))).1) in
  cmd.currentAgent st = OpenAIProvider.as_Provider (addr, p) ->
  OpenAIProvider.StreamChat_request p Background req = inl httpReq ->
  OpenAIProvider.client p httpReq = inl resp ->
  http.StatusCode resp = 200%Z ->
  http.ending (http.body resp) = EOF ->
  delivers (open_chans ops) (sched round ops) ->
  After30s ∉ sched round ops ->
  settles (sched round ops) = true ->
  exists st',
    cmd.round_body sched agentA agentB tempA tempB maxRounds Background round st
    = cmd.Continue st'
    /\ cmd.messages st'
       = cmd.messages st
         ++ [Message.mk "user" (cmd.currentText st); Message.mk "assistant" reply]
    /\ cmd.currentText st' = reply.
Proof.
  intros req ops reply Hcur Hreq Hdo Hstatus Hending Hdel Htimer Hsettles.
  destruct (split_lines_spec (http.data (http.body resp))) as (Hdata & Hls & Hrest).
  pose proof (StreamChat_lines p req httpReq resp _ _ Hreq Hdo Hstatus (eq_sym Hdata)
                Hls Hrest) as Hops.
  rewrite Hending in Hops. cbn [is_EOF app] in Hops. fold ops in Hops.
  assert (StreamChat (cmd.currentAgent st) Background req = ops) as Hstream
    by (by rewrite Hcur).
  destruct (round_body_clean sched agentA agentB tempA tempB maxRounds Background round st
              (frame_texts (split_lines (http.data (http.body resp))).1)
              [CloseErr; CloseText])
    as (st' & Hbody & Hmsgs & Htext & _).
  - fold req. by rewrite Hstream.
  - reflexivity.
  - fold req. by rewrite Hstream.
  - fold req. by rewrite Hstream.
  - fold req. by rewrite Hstream.
  - exists st'. split; [exact Hbody|].
    rewrite fold_left_append in Hmsgs, Htext.
    change ("" +:+ ?s) with s in Hmsgs, Htext. by split.
Qed.

End from_the_start.

Lemma runStart_without_keys_witness :
  let f := cmd.mkFlags "ollama" "lmstudio" "" "" 0.5 0.25 "Hello" 2 in
  let fin := @cmd.runStart doubles.lib (fun _ => doubles.eager) 3 (fun _ => "") f ∅ 0 in
  cmd.exit fin <> cmd.Returned None /\ cmd.history fin = [].
Proof.
  intros f fin.
  destruct (@runStart_without_keys doubles.lib (fun _ => doubles.eager) 3 (fun _ => "") f ∅ 0
              eq_refl eq_refl eq_refl eq_refl eq_refl) as (msg & Hfin & _).
  subst fin. rewrite Hfin. split; [discriminate|reflexivity].
Defined.


Lemma runStart_unimplemented_provider_witness :
  let net := doubles.unreachable in
  let getenv := fun key : string => if String.eqb key "OPENAI_API_KEY" then "sk-test" else "" in
  let f := cmd.mkFlags "openai" "anthropic" "" "" 0.5 0.25 "Hello" 2 in
  let fin := @cmd.runStart doubles.lib (fun _ => doubles.eager) 3 getenv f
               (providerFactories (@initial_globals doubles.lib net)) 0 in
  cmd.exit fin = cmd.Returned (Some (Errorf "provider 'anthropic' not yet implemented")).
Proof.
  intros net getenv f fin.
  assert (config.Validate (config.Load getenv).1 = None) as Hvalid
    by (vm_compute; reflexivity).
  assert (cmd.providerA f <> "openai" \/ cmd.providerB f <> "openai") as Hother
    by (right; discriminate).
  exact (proj1 (@runStart_unimplemented_provider doubles.lib (fun _ => doubles.eager) net 3
                  getenv f 0 Hvalid Hother)).
Defined.

Lemma request_model_witness :
  let body := http.mkBody (unlines [doubles.frame "Hi"; ""; doubles.frame " there"; ""]) EOF in
  let net := doubles.server 200 body in
  let getenv := fun key : string =>
                  if String.eqb key "OPENAI_API_KEY" then "sk-test"
                  else if String.eqb key "OPENAI_MODEL" then "gpt-test" else "" in
  let f := cmd.mkFlags "openai" "openai" "" "gpt-4" 0.5 0.25 "Hello" 2 in
  let sched := fun (_ : Z) => doubles.eager in
  let fin := @cmd.runStart doubles.lib sched 3 getenv f
               (providerFactories (@initial_globals doubles.lib net)) 0 in
  (exists callee req,
     stream_calls (cmd.effects fin) !! 0 = Some (callee, req)
     /\ ChatRequest.Model req = "gpt-test")
  /\ (exists callee req,
        stream_calls (cmd.effects fin) !! 1 = Some (callee, req)
        /\ ChatRequest.Model req = "gpt-4").
Proof.
  intros body net getenv f sched fin. split.
  - eexists _, _. split; [vm_compute; reflexivity|].
    match goal with |- ChatRequest.Model ?r = _ =>
      exact (proj2 (proj2 (@request_model doubles.lib sched net 3 getenv f 0 0 0 r
                             ltac:(vm_compute; reflexivity))))
    end.
  - eexists _, _. split; [vm_compute; reflexivity|].
    match goal with |- ChatRequest.Model ?r = _ =>
      exact (proj2 (proj2 (@request_model doubles.lib sched net 3 getenv f 0 1 1 r
                             ltac:(vm_compute; reflexivity))))
    end.
Defined.


Lemma openai_round_records_stream_witness :
  let body := http.mkBody (unlines [doubles.frame "Hi"; ""; doubles.frame " there"; ""]) EOF in
  let p := OpenAIProvider.mk "sk-test" "https://api.openai.com/v1" "gpt-4o-mini"
             (doubles.server 200 body) in
  let agent := @OpenAIProvider.as_Provider doubles.lib (0, p) in
  let st := cmd.mkLoop [] "Hello" agent "Agent A" ui.Green [] in
  exists st',
    @cmd.round_body doubles.lib (fun _ => doubles.eager) agent agent 0.5 0.25 2 Background 1 st
    = cmd.Continue st'
    /\ cmd.messages st' = [Message.mk "user" "Hello"; Message.mk "assistant" "Hi there"]
    /\ cmd.currentText st' = "Hi there".
Proof.
  intros body p agent st.
  set (req := cmd.round_request agent 0.5 0.25 st).
  set (ops := @OpenAIProvider.StreamChat doubles.lib p Background req).
  assert (ops = [SendText "Hi"; SendText " there"; CloseErr; CloseText]) as Hops
    by (vm_compute; reflexivity).
  assert (doubles.eager ops = [RecvText "Hi"; RecvText " there"; TextClosed]) as Hsched
    by (rewrite Hops; vm_compute; reflexivity).
  assert (delivers (open_chans ops) (doubles.eager ops)) as Hdel.
  { rewrite Hsched, Hops.
    eapply delivers_text; [reflexivity|].
    eapply delivers_text; [reflexivity|].
    eapply delivers_close_err; [reflexivity..|].
    eapply delivers_close_text; [reflexivity..|].
    apply delivers_text_closed; [reflexivity|]. apply delivers_stop. }
  assert (After30s ∉ doubles.eager ops) as Htimer.
  { rewrite Hsched. intros Hin. repeat (apply elem_of_cons in Hin as [Hin|Hin]; [discriminate|]).
    by apply elem_of_nil in Hin. }
  assert (settles (doubles.eager ops) = true) as Hsettles by (by rewrite Hsched).
  assert (exists httpReq,
            @OpenAIProvider.StreamChat_request doubles.lib p Background req = inl httpReq)
    as [httpReq Hreq] by (eexists; vm_compute; reflexivity).
  assert (OpenAIProvider.client p httpReq = inl (http.mkResponse 200 body)) as Hdo
    by reflexivity.
  exact (@openai_round_records_stream doubles.lib (fun _ => doubles.eager) agent agent
           0.5 0.25 2 1 st 0 p httpReq (http.mkResponse 200 body)
           eq_refl Hreq Hdo eq_refl eq_refl Hdel Htimer Hsettles).
Defined.
